(** * Release-notes generator: gateway and report generator

    A shallow embedding of [src/models.py], [src/azure_devops_client.py],
    [src/markdown_generator.py] and of the generation step of
    [generate_release_notes.py], with the properties the specification
    states about them.

    Conventions of the embedding:
    - a Python [str] is the list of its code points ([list N]); comparison
      of strings is Python's, lexicographic on code points;
    - [Optional[str]] is [option str]; a truth test [if x] on such a value
      is [truthy x], false on [None] and on the empty string;
    - a [dict] keyed by strings is a [gmap], a [set] of strings a [gset];
    - a call that may raise returns a [result]; [try]/[except Exception] is
      [try_except]; a loop that updates an object in place inside a [try]
      block is [for_each_in_place], which keeps what the turns before an
      exception did;
    - the revisions of a work item are JSON values ([json]) as the response
      holds them, whatever their types, because the loop that reads them
      keeps the names it has added when a revision makes it raise; the
      records of the releases and of the builds are typed records;
    - the remote endpoints and the standard library's ISO-8601 parser are
      Section variables: every theorem holds for each of their behaviours. *)

From Stdlib Require Import ZArith NArith String Ascii Lia.
From Stdlib Require Import Sorting.Sorted.
From Stdlib Require DecimalFacts DecimalPos DecimalZ.
From Stdlib Require SpecFloat.
From stdpp Require Import base option list gmap sets.

Local Open Scope N_scope.
Local Open Scope list_scope.
Set Warnings "-clear-no-such-hyp".

(** ** Python strings *)

Module pystr.

Abbreviation str := (list N).

(** An ASCII literal as a Python string. *)
Definition py (s : string) : str :=
  map N_of_ascii (list_ascii_of_string s).

(** [a < b] and [a <= b] on [str]: lexicographic on code points. *)
Fixpoint str_ltb (a b : str) : bool :=
  match a, b with
  | [], [] => false
  | [], _ :: _ => true
  | _ :: _, [] => false
  | x :: a', y :: b' =>
      if N.ltb x y then true
      else if N.eqb x y then str_ltb a' b' else false
  end.

Definition str_leb (a b : str) : bool := negb (str_ltb b a).

(** [str.isspace] for one character (CPython's [_PyUnicode_IsWhitespace]). *)
Definition isspace (c : N) : bool :=
  ((9 <=? c) && (c <=? 13)) || ((28 <=? c) && (c <=? 32))
  || (c =? 133) || (c =? 160) || (c =? 5760)
  || ((8192 <=? c) && (c <=? 8202))
  || (c =? 8232) || (c =? 8233) || (c =? 8239) || (c =? 8287)
  || (c =? 12288).

Fixpoint lstrip (s : str) : str :=
  match s with
  | [] => []
  | c :: s' => if isspace c then lstrip s' else s
  end.

Definition rstrip (s : str) : str := rev (lstrip (rev s)).

(** [s.strip()] *)
Definition strip (s : str) : str := rstrip (lstrip s).

(** [s.startswith(p)] *)
Fixpoint startswith (p s : str) : bool :=
  match p, s with
  | [], _ => true
  | _ :: _, [] => false
  | x :: p', y :: s' => (x =? y) && startswith p' s'
  end.

(** [p in s] for strings: [p] occurs in [s]. *)
Fixpoint contains (p s : str) : bool :=
  startswith p s ||
  match s with
  | [] => false
  | _ :: s' => contains p s'
  end.

(** [s.partition(p)] when [p] occurs: the text before the first occurrence
    and the text after it; [None] when [p] does not occur. *)
Fixpoint partition (p s : str) : option (str * str) :=
  if startswith p s then Some ([], drop (length p) s)
  else match s with
       | [] => None
       | c :: s' =>
           match partition p s' with
           | Some (before, after) => Some (c :: before, after)
           | None => None
           end
       end.

(** [sep.join(l)] *)
Fixpoint join (sep : str) (l : list str) : str :=
  match l with
  | [] => []
  | [x] => x
  | x :: l' => x ++ sep ++ join sep l'
  end.

(** [s.replace(old, new)] for a non-empty [old]: the occurrences of [old]
    met from the left, none overlapping the one before, become [new].
    [skip] counts the characters of a replaced occurrence still to pass. *)
Fixpoint replace_from (old new : str) (skip : nat) (s : str) : str :=
  match s with
  | [] => []
  | c :: s' =>
      match skip with
      | S skip' => replace_from old new skip' s'
      | O =>
          if startswith old s
          then new ++ replace_from old new (length old - 1) s'
          else c :: replace_from old new 0 s'
      end
  end.

Definition replace (old new s : str) : str := replace_from old new 0 s.

(** [str(n)] for an [int]. *)
Definition digit_of (d : N) : N := 48 + d.

Fixpoint uint_digits (u : Decimal.uint) : str :=
  match u with
  | Decimal.Nil => []
  | Decimal.D0 u' => digit_of 0 :: uint_digits u'
  | Decimal.D1 u' => digit_of 1 :: uint_digits u'
  | Decimal.D2 u' => digit_of 2 :: uint_digits u'
  | Decimal.D3 u' => digit_of 3 :: uint_digits u'
  | Decimal.D4 u' => digit_of 4 :: uint_digits u'
  | Decimal.D5 u' => digit_of 5 :: uint_digits u'
  | Decimal.D6 u' => digit_of 6 :: uint_digits u'
  | Decimal.D7 u' => digit_of 7 :: uint_digits u'
  | Decimal.D8 u' => digit_of 8 :: uint_digits u'
  | Decimal.D9 u' => digit_of 9 :: uint_digits u'
  end.

Definition str_of_int (z : Z) : str :=
  match Z.to_int z with
  | Decimal.Pos u => uint_digits u
  | Decimal.Neg u => 45 :: uint_digits u
  end.

(** [sorted(l, key=...)]: Python's sort is stable; [leb] compares keys. *)
Section sorted.

Context {A : Type} (leb : A -> A -> bool).

Fixpoint insert_sorted (x : A) (l : list A) : list A :=
  match l with
  | [] => [x]
  | y :: l' => if leb x y then x :: l else y :: insert_sorted x l'
  end.

Definition sorted (l : list A) : list A := foldr insert_sorted [] l.

End sorted.

(** [s.lstrip(chars)] and [s.rstrip(chars)]: the characters at that end of
    [s] that are among those of [chars] go. *)
Fixpoint lstrip_chars (chars s : str) : str :=
  match s with
  | [] => []
  | c :: s' => if bool_decide (c ∈ chars) then lstrip_chars chars s' else s
  end.

Definition rstrip_chars (chars s : str) : str := rev (lstrip_chars chars (rev s)).

End pystr.
Import pystr.


(** ** Exceptions *)

(** The exceptions the modelled code can meet; all are subclasses of
    Python's [Exception]. *)
Inductive exn : Type :=
  | ValueError
  | TypeError
  | AttributeError
  | HTTPError
  | URLError
  | RuntimeError.

(** The outcome of a call: a value, or a raised exception. *)
Inductive result (A : Type) : Type :=
  | Ok (a : A)
  | Raise (e : exn).
Arguments Ok {A} a.
Arguments Raise {A} e.

#[global] Instance result_ret : MRet result := fun A a => Ok a.
#[global] Instance result_bind : MBind result := fun A B f m =>
  match m with
  | Ok a => f a
  | Raise e => Raise e
  end.
#[global] Instance result_fmap : FMap result := fun A B f m =>
  match m with
  | Ok a => Ok (f a)
  | Raise e => Raise e
  end.

(** [try: body except Exception as e: handler(e)] *)
Definition try_except {A} (body : result A) (handler : exn -> result A) : result A :=
  match body with
  | Ok a => Ok a
  | Raise e => handler e
  end.

(** A [for] loop whose body may raise, threading the state [s] the body
    updates. *)
Fixpoint for_each {S A} (body : S -> A -> result S) (l : list A) (s : S) : result S :=
  match l with
  | [] => Ok s
  | x :: l' => s' ← body s x; for_each body l' s'
  end.

(** A [for] loop whose body updates the object [s] in place and may raise:
    the object as the loop leaves it, and how the loop ended. A turn that
    raises does so before it updates the object; what the turns before it
    did to the object stays. *)
Fixpoint for_each_in_place {S A} (body : S -> A -> result S) (l : list A) (s : S)
  : S * result unit :=
  match l with
  | [] => (s, Ok ())
  | x :: l' =>
      match body s x with
      | Ok s' => for_each_in_place body l' s'
      | Raise e => (s, Raise e)
      end
  end.

(** [any(test(x) for x in l)]: the tests are made in order, up to the first
    that holds or raises. *)
Fixpoint py_any {A} (test : A -> result bool) (l : list A) : result bool :=
  match l with
  | [] => Ok false
  | x :: l' => b ← test x; if b : bool then Ok true else py_any test l'
  end.

(** The truth test [if x] on an [Optional[str]]. *)
Definition truthy (x : option str) : bool :=
  match x with
  | Some (_ :: _) => true
  | _ => false
  end.

(** [try: body except (urllib.error.HTTPError, urllib.error.URLError) as e:
    handler(e)]: any other exception leaves the statement as it is. *)
Definition try_except_url_error {A} (body : result A) (handler : exn -> result A)
  : result A :=
  match body with
  | Raise HTTPError => handler HTTPError
  | Raise URLError => handler URLError
  | _ => body
  end.

(** ** Encoding to bytes: UTF-8 and base64 *)

Module pycodec.

(** The bytes of one code point in UTF-8. A surrogate (U+D800 to U+DFFF)
    has none: [str.encode] raises [UnicodeEncodeError], a [ValueError]. A
    Python string holds no value above U+10FFFF. *)
Definition utf8_encode_char (c : N) : result (list N) :=
  if c <? 128 then Ok [c]
  else if c <? 2048 then Ok [192 + c / 64; 128 + c mod 64]
  else if (55296 <=? c) && (c <=? 57343) then Raise ValueError
  else if c <? 65536 then
    Ok [224 + c / 4096; 128 + (c / 64) mod 64; 128 + c mod 64]
  else
    Ok [240 + c / 262144; 128 + (c / 4096) mod 64; 128 + (c / 64) mod 64;
        128 + c mod 64].

(** [s.encode('utf-8')] *)
Fixpoint utf8_encode (s : str) : result (list N) :=
  match s with
  | [] => Ok []
  | c :: s' =>
      bytes ← utf8_encode_char c;
      rest ← utf8_encode s';
      Ok (bytes ++ rest)
  end.

Definition B64_ALPHABET : str :=
  py "ABCDEFGHIJKLMNOPQRSTUVWXYZabcdefghijklmnopqrstuvwxyz0123456789+/".

(** The character of a group of six bits. *)
Definition b64_char (i : N) : N := nth (N.to_nat i) B64_ALPHABET 0.

(** [base64.b64encode(data)], read as text: three bytes give four
    characters; one or two bytes left at the end give two or three
    characters and the padding [=]. *)
Fixpoint b64encode (data : list N) : str :=
  match data with
  | [] => []
  | [a] => [b64_char (a / 4); b64_char (a mod 4 * 16); 61; 61]
  | [a; b] =>
      [b64_char (a / 4); b64_char (a mod 4 * 16 + b / 16);
       b64_char (b mod 16 * 4); 61]
  | a :: b :: c :: rest =>
      [b64_char (a / 4); b64_char (a mod 4 * 16 + b / 16);
       b64_char (b mod 16 * 4 + c / 64); b64_char (c mod 64)]
      ++ b64encode rest
  end.

End pycodec.

(** ** JSON values *)

Module pyjson.

(** A value as [json.loads] returns it: [None], a [bool], an [int], a
    [float], a [str], a [list], or a [dict] given by its items, each key
    once. *)
#[local] Unset Elimination Schemes.
Inductive json : Type :=
  | JNull
  | JBool (b : bool)
  | JInt (n : Z)
  | JFloat (x : SpecFloat.spec_float)
  | JString (s : str)
  | JArray (items : list json)
  | JObject (items : list (str * json)).
#[local] Set Elimination Schemes.

(** The truth test [if v]. *)
Definition truth (v : json) : bool :=
  match v with
  | JNull => false
  | JBool b => b
  | JInt n => negb (n =? 0)%Z
  | JFloat (SpecFloat.S754_zero _) => false
  | JFloat _ => true
  | JString [] | JArray [] | JObject [] => false
  | JString (_ :: _) | JArray (_ :: _) | JObject (_ :: _) => true
  end.

(** The value of a key among the items of a [dict]. *)
Fixpoint lookup_key {V} (key : str) (items : list (str * V)) : option V :=
  match items with
  | [] => None
  | (k, v) :: items' => if bool_decide (k = key) then Some v else lookup_key key items'
  end.

(** [d.get(key, default)]: a [dict] has the method, no other value has. *)
Definition get (d : json) (key : str) (default : json) : result json :=
  match d with
  | JObject items =>
      Ok (match lookup_key key items with Some v => v | None => default end)
  | _ => Raise AttributeError
  end.

(** [x in v] for a text [x]: a part of a [str], an element of a [list], a
    key of a [dict]; a value of another type is not iterable. *)
Definition str_in (x : str) (v : json) : result bool :=
  match v with
  | JString s => Ok (contains x s)
  | JArray items =>
      Ok (existsb (fun item =>
                     match item with
                     | JString s => bool_decide (s = x)
                     | _ => false
                     end) items)
  | JObject items => Ok (existsb (fun item => bool_decide (item.1 = x)) items)
  | _ => Raise TypeError
  end.

(** The values [for x in v] runs over: the elements of a [list], the
    characters of a [str], the keys of a [dict]; a value of another type is
    not iterable. *)
Definition iter (v : json) : result (list json) :=
  match v with
  | JArray items => Ok items
  | JString s => Ok (map (fun c => JString [c]) s)
  | JObject items => Ok (map (fun item => JString item.1) items)
  | _ => Raise TypeError
  end.

(** [names.add(v)] on a set of which the model keeps the texts. A [list]
    and a [dict] are not hashable. A hashable value that is not a text
    leaves the texts of the set as they are; the gateway adds no such value
    (lemma [extract_contributor_returns]). *)
Definition set_add (v : json) (names : gset str) : result (gset str) :=
  match v with
  | JString name => Ok ({[name]} ∪ names)
  | JArray _ | JObject _ => Raise TypeError
  | _ => Ok names
  end.

End pyjson.
Import pyjson.

(** ** models.py *)

Module models.

Record WorkItem : Type := mkWorkItem {
  id : Z;
  title : str;
  type : str;
  state : str;
  iteration_path : str;
  notes : option str
}.

Record Release : Type := mkRelease {
  microservice : str;
  version : str;
  prod_deploy_time : option str;
  release_id : str;
  definition_id : str
}.

End models.
Import models.

(** ** The [datetime] values the generator formats *)

Module pydatetime.

Record datetime : Type := mkDatetime {
  year : Z;
  month : Z;
  day : Z;
  hour : Z;
  minute : Z;
  second : Z;
  microsecond : Z;
  utcoffset : option Z
}.

(** [%B] in the C locale. *)
Definition month_name (m : Z) : str :=
  match m with
  | 1 => py "January" | 2 => py "February" | 3 => py "March"
  | 4 => py "April" | 5 => py "May" | 6 => py "June"
  | 7 => py "July" | 8 => py "August" | 9 => py "September"
  | 10 => py "October" | 11 => py "November" | 12 => py "December"
  | _ => []
  end%Z.

(** A number zero-padded on the left to [width] digits. *)
Definition zero_pad (width : nat) (s : str) : str :=
  replicate (width - length s) (digit_of 0) ++ s.

(** [d.strftime('%B %d, %Y')], with [%Y] as the library documents it, four
    digits. For a year below 1000 the digits depend on the C library (that
    of Linux does not pad); the statements below read the formatted date
    through this definition only, and their instances have years of four
    digits. *)
Definition strftime_B_d_Y (d : datetime) : str :=
  month_name (month d) ++ py " " ++ zero_pad 2 (str_of_int (day d))
  ++ py ", " ++ zero_pad 4 (str_of_int (year d)).

End pydatetime.
Import pydatetime.

(** ** markdown_generator.py *)

Module markdown_generator.

Record MarkdownGenerator : Type := mkMarkdownGenerator {
  organization_url : str;
  project : str
}.

Definition WORK_ITEM_TYPE_ORDER : list str :=
  [py "Bug"; py "Epic"; py "Feature"; py "User Story"; py "Task"].

Definition WORK_ITEM_TYPE_EMOJIS : gmap str str :=
  list_to_map
    [ (py "Bug", [128027]);
      (py "Epic", [128216]);
      (py "Feature", [10024]);
      (py "User Story", [128221]);
      (py "Task", [128295]);
      (py "Issue", [9888; 65039]);
      (py "Product Backlog Item", [128203]);
      (py "Impediment", [128679]) ].

(** The section headings, with their pictographs as code points. *)
Definition SUMMARY_HEADING : str := py "## " ++ [128202] ++ py " Summary".
Definition BINARIES_HEADING : str := py "## " ++ [128230] ++ py " Binaries".
Definition CHANGELOG_HEADING : str := py "## " ++ [128221] ++ py " Changelog".
Definition DEPLOYMENT_HEADING : str :=
  py "## " ++ [128640] ++ py " Deployment Instructions".
Definition CONTRIBUTORS_HEADING : str := py "## " ++ [128101] ++ py " Contributors".

(** [len(l)] rendered in an f-string. *)
Definition str_of_len {A} (l : list A) : str := str_of_int (Z.of_nat (length l)).

Definition _get_work_item_type_emoji (work_type : str) : str :=
  default [128204] (WORK_ITEM_TYPE_EMOJIS !! work_type).

(** [grouped[item.type].append(item)] on a [defaultdict(list)]. *)
Definition _group_work_items_by_type (work_items : list WorkItem)
  : gmap str (list WorkItem) :=
  fold_left
    (fun grouped item =>
       <[type item := default [] (grouped !! type item) ++ [item]]> grouped)
    work_items ∅.

(** [sorted(grouped_items.keys())] *)
Definition sorted_keys {V} (grouped : gmap str V) : list str :=
  sorted str_leb (elements (dom grouped)).

Definition _build_work_item_url (self : MarkdownGenerator) (work_item_id : Z) : str :=
  organization_url self ++ py "/" ++ project self
  ++ py "/_workitems/edit/" ++ str_of_int work_item_id.

Definition _extract_iterations (work_items : list WorkItem) : str :=
  match work_items with
  | [] => py "N/A"
  | _ =>
      let iterations : gset str :=
        fold_left
          (fun iterations item =>
             if bool_decide (iteration_path item = py "N/A") then iterations
             else {[iteration_path item]} ∪ iterations)
          work_items ∅ in
      if bool_decide (iterations = ∅) then py "N/A"
      else join (py ", ") (sorted (fun a b => str_leb b a) (elements iterations))
  end.

(** [max(l)] on a non-empty list of strings [x :: l]. *)
Definition py_max (x : str) (l : list str) : str :=
  fold_left (fun best y => if str_ltb best y then y else best) l x.

(** [re.findall(r'<li>(.*?)</li>', notes, re.DOTALL)]: the text between each
    [<li>] and the first [</li>] after it, scanning on after that [</li>].
    [fuel] bounds the number of matches; the length of the text suffices. *)
Fixpoint findall_li_fuel (fuel : nat) (s : str) : list str :=
  match fuel with
  | O => []
  | S fuel' =>
      match partition (py "<li>") s with
      | None => []
      | Some (_, rest) =>
          match partition (py "</li>") rest with
          | None => []
          | Some (content, rest') => content :: findall_li_fuel fuel' rest'
          end
      end
  end.

Definition findall_li (s : str) : list str := findall_li_fuel (S (length s)) s.

(** [re.sub(r'<[^>]+>', '', s)]: at a [<], the text up to the first [>] is
    dropped when at least one character stands between them; any other
    character is kept. *)
Fixpoint strip_tags_fuel (fuel : nat) (s : str) : str :=
  match fuel with
  | O => []
  | S fuel' =>
      match s with
      | [] => []
      | c :: rest =>
          if c =? 60 then
            match partition [62] rest with
            | Some (_ :: _, tail) => strip_tags_fuel fuel' tail
            | _ => c :: strip_tags_fuel fuel' rest
            end
          else c :: strip_tags_fuel fuel' rest
      end
  end.

Definition strip_tags (s : str) : str := strip_tags_fuel (S (length s)) s.

Definition _convert_notes_to_list_items (notes : str) : list str :=
  let list_items := findall_li notes in
  match list_items with
  | _ :: _ =>
      fold_left
        (fun cleaned_items item =>
           let cleaned := strip (strip_tags item) in
           match cleaned with
           | _ :: _ => cleaned_items ++ [cleaned]
           | [] => cleaned_items
           end)
        list_items []
  | [] =>
      let cleaned_notes := strip (strip_tags notes) in
      match cleaned_notes with
      | _ :: _ => [cleaned_notes]
      | [] => []
      end
  end.

Definition _filter_items_with_notes (work_items : list WorkItem) : list WorkItem :=
  let items_with_notes := filter (fun item => truthy (notes item) = true) work_items in
  sorted (fun a b => Z.leb (id a) (id b)) items_with_notes.

(** [re.findall] on [None] raises [TypeError]. *)
Definition _add_deployment_instruction_item
  (self : MarkdownGenerator) (lines : list str) (item : WorkItem)
  : result (list str) :=
  let work_item_url := _build_work_item_url self (id item) in
  match notes item with
  | None => Raise TypeError
  | Some item_notes =>
      let note_items := _convert_notes_to_list_items item_notes in
      let lines :=
        lines ++ [py "- [#" ++ str_of_int (id item) ++ py "](" ++ work_item_url ++ py ")"] in
      let lines :=
        fold_left (fun lines note_item => lines ++ [py "  - " ++ note_item])
          note_items lines in
      Ok (lines ++ [[]])
  end.

Definition _add_deployment_instructions_section
  (self : MarkdownGenerator) (lines : list str) (work_items : list WorkItem)
  : result (list str) :=
  let items_with_notes := _filter_items_with_notes work_items in
  match items_with_notes with
  | [] => Ok lines
  | _ =>
      let lines := lines ++ [DEPLOYMENT_HEADING; []] in
      for_each (_add_deployment_instruction_item self) items_with_notes lines
  end.

Definition _add_work_items_for_type
  (self : MarkdownGenerator) (lines : list str) (work_type : str)
  (items : list WorkItem) : list str :=
  let emoji := _get_work_item_type_emoji work_type in
  let lines :=
    lines ++ [py "### " ++ emoji ++ py " " ++ work_type
              ++ py " (" ++ str_of_len items ++ py ")"; []] in
  let sorted_items := sorted (fun a b => Z.leb (id a) (id b)) items in
  let lines :=
    fold_left
      (fun lines item =>
         let work_item_url := _build_work_item_url self (id item) in
         lines ++ [py "- [#" ++ str_of_int (id item) ++ py "](" ++ work_item_url
                   ++ py ") " ++ title item])
      sorted_items lines in
  lines ++ [[]].

Definition _add_changelog_section
  (self : MarkdownGenerator) (lines : list str)
  (grouped_items : gmap str (list WorkItem)) : list str :=
  let lines := lines ++ [CHANGELOG_HEADING; []] in
  let lines :=
    fold_left
      (fun lines work_type =>
         match grouped_items !! work_type with
         | Some items => _add_work_items_for_type self lines work_type items
         | None => lines
         end)
      WORK_ITEM_TYPE_ORDER lines in
  fold_left
    (fun lines work_type =>
       if bool_decide (work_type ∈ WORK_ITEM_TYPE_ORDER) then lines
       else _add_work_items_for_type self lines work_type
              (default [] (grouped_items !! work_type)))
    (sorted_keys grouped_items) lines.

Definition _add_breakdown_by_type
  (lines : list str) (grouped_items : gmap str (list WorkItem)) : list str :=
  let breakdown_line work_type (items : list WorkItem) :=
    py "- " ++ _get_work_item_type_emoji work_type ++ py " **" ++ work_type
    ++ py ":** " ++ str_of_len items in
  let lines := lines ++ [py "**Breakdown by Type:**"; []] in
  let lines :=
    fold_left
      (fun lines work_type =>
         match grouped_items !! work_type with
         | Some items => lines ++ [breakdown_line work_type items]
         | None => lines
         end)
      WORK_ITEM_TYPE_ORDER lines in
  let lines :=
    fold_left
      (fun lines work_type =>
         if bool_decide (work_type ∈ WORK_ITEM_TYPE_ORDER) then lines
         else lines ++ [breakdown_line work_type
                          (default [] (grouped_items !! work_type))])
      (sorted_keys grouped_items) lines in
  lines ++ [[]].

Definition _add_binaries_section
  (self : MarkdownGenerator) (lines : list str) (releases : list Release) : list str :=
  match releases with
  | [] => lines
  | _ =>
      let lines :=
        lines ++ [BINARIES_HEADING; []; py "| Microservice | Version |";
                  py "|--------------|---------|"] in
      let lines :=
        fold_left
          (fun lines release =>
             let pipeline_url :=
               organization_url self ++ py "/" ++ project self
               ++ py "/_release?definitionId=" ++ definition_id release
               ++ py "&_a=releases&view=mine" in
             let release_url :=
               organization_url self ++ py "/" ++ project self
               ++ py "/_releaseProgress?_a=release-pipeline-progress&releaseId="
               ++ release_id release in
             let microservice_link :=
               py "[" ++ microservice release ++ py "](" ++ pipeline_url ++ py ")" in
             let version_link :=
               py "[" ++ version release ++ py "](" ++ release_url ++ py ")" in
             lines ++ [py "| " ++ microservice_link ++ py " | " ++ version_link ++ py " |"])
          (sorted (fun a b => str_leb (microservice a) (microservice b)) releases)
          lines in
      lines ++ [[]]
  end.

Definition _add_contributors_section
  (lines : list str) (contributors : gset str) : list str :=
  if bool_decide (contributors = ∅) then lines
  else
    let lines := lines ++ [CONTRIBUTORS_HEADING; []] in
    let lines :=
      fold_left (fun lines contributor => lines ++ [py "- " ++ contributor])
        (sorted str_leb (elements contributors)) lines in
    lines ++ [[]].

Section with_datetime.

(** [datetime.fromisoformat] of the standard library. *)
Variable fromisoformat : str -> result datetime.

Definition _extract_release_date (releases : list Release) : result str :=
  match releases with
  | [] => Ok (py "Unreleased")
  | _ =>
      let prod_times :=
        omap (fun r => if truthy (prod_deploy_time r) then prod_deploy_time r else None)
          releases in
      match prod_times with
      | [] => Ok (py "Unreleased")
      | t :: prod_times' =>
          let latest_time := py_max t prod_times' in
          release_datetime ← fromisoformat (replace (py "Z") (py "+00:00") latest_time);
          Ok (strftime_B_d_Y release_datetime)
      end
  end.

Definition _add_summary_section
  (lines : list str) (work_items : list WorkItem) (releases : list Release)
  (grouped_items : gmap str (list WorkItem)) : result (list str) :=
  let lines := lines ++ [SUMMARY_HEADING; []] in
  release_date ← _extract_release_date releases;
  let lines := lines ++ [py "**Release Date:** " ++ release_date; []] in
  let iterations := _extract_iterations work_items in
  let lines := lines ++ [py "**Iteration:** " ++ iterations; []] in
  let total_items := str_of_len work_items in
  let microservices_count :=
    match releases with
    | [] => str_of_int 0
    | _ => str_of_len releases
    end in
  let lines :=
    lines ++ [py "**Total Work Items:** " ++ total_items;
              py "**Microservices Released:** " ++ microservices_count; []] in
  Ok (_add_breakdown_by_type lines grouped_items).

(** The list [lines] that [generate] joins. *)
Definition generate_lines
  (self : MarkdownGenerator) (release_number : str) (work_items : list WorkItem)
  (releases : list Release) (contributors : gset str) : result (list str) :=
  let lines := [] in
  let grouped_items := _group_work_items_by_type work_items in
  let lines := lines ++ [py "# Release Notes - " ++ release_number; []] in
  lines ← _add_summary_section lines work_items releases grouped_items;
  let lines := _add_binaries_section self lines releases in
  let lines := _add_changelog_section self lines grouped_items in
  lines ← _add_deployment_instructions_section self lines work_items;
  let lines := _add_contributors_section lines contributors in
  Ok lines.

Definition generate
  (self : MarkdownGenerator) (release_number : str) (work_items : list WorkItem)
  (releases : list Release) (contributors : gset str) : result str :=
  join [10] <$> generate_lines self release_number work_items releases contributors.

End with_datetime.

End markdown_generator.
Import markdown_generator.

(** ** config.py *)

Module config.

Record AzureDevOpsConfig : Type := mkAzureDevOpsConfig {
  organization_url : str;
  project : str;
  pat : str;
  release_field : str;
  production_environment : str;
  notes_field : str
}.

Definition _validate_required_fields (self : AzureDevOpsConfig) : result unit :=
  if bool_decide (organization_url self = [])
     || bool_decide (project self = [])
     || bool_decide (pat self = [])
  then Raise ValueError
  else Ok tt.

(** [AzureDevOpsConfig(...)]: [__init__] stores its arguments, the
    organization URL without the slashes at its end, and validates. *)
Definition AzureDevOpsConfig_new
  (organization_url project pat release_field production_environment notes_field : str)
  : result AzureDevOpsConfig :=
  let self :=
    mkAzureDevOpsConfig (rstrip_chars (py "/") organization_url) project pat
      release_field production_environment notes_field in
  _ ← _validate_required_fields self;
  Ok self.

End config.

(** ** azure_devops_client.py *)

Module azure_devops_client.

Definition SYSTEM_ACCOUNT_PATTERNS : list str :=
  [ py "Microsoft.VisualStudio.Services";
    py "Project Collection Build Service";
    py "<"; py ">" ].

Record AzureDevOpsClient : Type := mkAzureDevOpsClient {
  organization_url : str;
  project : str;
  pat : str;
  release_field : str;
  notes_field : str;
  production_environment : str
}.

(** The JSON objects of the responses of the release and build endpoints.
    A key read with [.get] is a field of type [option]: [None] when the
    object has no such key. *)

(** A deploy step; key [lastModifiedOn]. *)
Record DeployStepData : Type := mkDeployStepData {
  lastModifiedOn : option str
}.

(** An environment of a classic release; keys [name], [deploySteps]. *)
Record EnvironmentData : Type := mkEnvironmentData {
  env_name : option str;
  deploySteps : option (list DeployStepData)
}.

(** Keys [name] and [id] of [releaseDefinition]; the identifier is kept as
    the text an f-string renders it to. *)
Record ReleaseDefinitionData : Type := mkReleaseDefinitionData {
  releaseDefinition_name : option str;
  releaseDefinition_id : option str
}.

(** A classic release; keys [releaseDefinition], [name], [id],
    [environments]. *)
Record ReleaseData : Type := mkReleaseData {
  releaseDefinition : option ReleaseDefinitionData;
  release_name : option str;
  release_data_id : option str;
  environments : option (list EnvironmentData)
}.

(** A build; keys [definition] (with its [name]) and [buildNumber]. *)
Record BuildData : Type := mkBuildData {
  definition_name : option (option str);
  buildNumber : option str
}.

Definition _parse_notes_field (raw_notes : option str) : option str :=
  match raw_notes with
  | None | Some [] => None
  | Some raw =>
      let cleaned_notes := strip raw in
      match cleaned_notes with
      | [] => None
      | _ :: _ => Some cleaned_notes
      end
  end.

(** [display_name] is whatever the response holds under [displayName]. *)
Definition _is_system_account (display_name : json) : result bool :=
  py_any (fun pattern => str_in pattern display_name) SYSTEM_ACCOUNT_PATTERNS.

(** A revision is a value of the response as it comes. *)
Definition _extract_contributor (update : json) : result (option json) :=
  revised_by ← get update (py "revisedBy") (JObject []);
  display_name ← get revised_by (py "displayName") JNull;
  if truth display_name then
    system_account ← _is_system_account display_name;
    if negb system_account then Ok (Some display_name) else Ok None
  else Ok None.

Definition _extract_prod_deployment_time
  (self : AzureDevOpsClient) (release_data : ReleaseData) : option str :=
  (fix loop (environments : list EnvironmentData) : option str :=
     match environments with
     | [] => None
     | env :: environments' =>
         if bool_decide (env_name env = Some (production_environment self)) then
           let deploy_steps := default [] (deploySteps env) in
           match last deploy_steps with
           | Some step => lastModifiedOn step
           | None => loop environments'
           end
         else loop environments'
     end) (default [] (environments release_data)).

Definition _parse_classic_release
  (self : AzureDevOpsClient) (release_data : ReleaseData) : Release :=
  let definition :=
    default (mkReleaseDefinitionData None None) (releaseDefinition release_data) in
  let pipeline_name := default (py "Unknown") (releaseDefinition_name definition) in
  let release_name := default (py "Unknown") (release_name release_data) in
  let release_id := default [] (release_data_id release_data) in
  let definition_id := default [] (releaseDefinition_id definition) in
  let prod_deploy_time := _extract_prod_deployment_time self release_data in
  mkRelease pipeline_name release_name prod_deploy_time release_id definition_id.

Definition _get_vsrm_url (self : AzureDevOpsClient) : str :=
  if contains (py "dev.azure.com") (organization_url self)
  then replace (py "dev.azure.com") (py "vsrm.dev.azure.com") (organization_url self)
  else organization_url self.

Section with_transport.

(** [urllib.request.urlopen] on a request for the URL, followed by
    [json.loads] and [.get('value', [])]: the array of the response, or what
    the request or the decoding raised. One variable per endpoint. *)
Variable urlopen_releases : str -> result (list ReleaseData).
Variable urlopen_builds : str -> result (list BuildData).

(** The same for the revisions of a work item, with the value under [value]
    as it comes, whatever its type. *)
Variable urlopen_updates : str -> result json.

Definition _fetch_work_item_updates
  (self : AzureDevOpsClient) (work_item_id : Z) : result json :=
  let url :=
    organization_url self ++ py "/" ++ project self ++ py "/_apis/wit/workitems/"
    ++ str_of_int work_item_id ++ py "/updates?api-version=7.0" in
  urlopen_updates url.

Definition _get_classic_releases
  (self : AzureDevOpsClient) (release_tag : str) : result (list Release) :=
  let vsrm_url := _get_vsrm_url self in
  let url :=
    vsrm_url ++ py "/" ++ project self
    ++ py "/_apis/release/releases?api-version=7.0&$top=100&tagFilter="
    ++ release_tag ++ py "&$expand=environments" in
  candidate_releases ← urlopen_releases url;
  Ok (fold_left
        (fun releases release_data =>
           releases ++ [_parse_classic_release self release_data])
        candidate_releases []).

Definition _get_releases_from_builds
  (self : AzureDevOpsClient) (release_tag : str) : result (list Release) :=
  try_except
    (let builds_url :=
       organization_url self ++ py "/" ++ project self
       ++ py "/_apis/build/builds?api-version=7.0&tagFilters=" ++ release_tag
       ++ py "&$top=100" in
     builds ← urlopen_builds builds_url;
     Ok (fold_left
           (fun releases build =>
              let pipeline_name :=
                default (py "Unknown") (default None (definition_name build)) in
              let build_number := default (py "Unknown") (buildNumber build) in
              releases ++ [mkRelease pipeline_name build_number None [] []])
           builds []))
    (fun e => Ok []).

Definition get_releases
  (self : AzureDevOpsClient) (release_tag : str) : result (list Release) :=
  try_except
    (_get_classic_releases self release_tag)
    (fun e => _get_releases_from_builds self release_tag).

(** One turn of the loop over the revisions (lines 92 to 94). *)
Definition add_contributor_of (contributors : gset str) (update : json)
  : result (gset str) :=
  contributor ← _extract_contributor update;
  match contributor with
  | Some contributor =>
      if truth contributor then set_add contributor contributors else Ok contributors
  | None => Ok contributors
  end.

(** One turn of the loop over the identifiers. The [try] block works on the
    set [contributors] in place: when the fetch, the loop over the revisions
    or a turn of it raises, the handler logs a warning and continues with
    the set as the block left it, the names of the turns before included. *)
Definition add_contributors_of
  (self : AzureDevOpsClient) (contributors : gset str) (work_item_id : Z)
  : result (gset str) :=
  let '(contributors, outcome) :=
    match _fetch_work_item_updates self work_item_id ≫= iter with
    | Ok updates => for_each_in_place add_contributor_of updates contributors
    | Raise e => (contributors, Raise e)
    end in
  match outcome with
  | Ok _ => Ok contributors
  | Raise e => Ok contributors
  end.

Definition get_work_item_contributors
  (self : AzureDevOpsClient) (work_item_ids : list Z) : result (gset str) :=
  match work_item_ids with
  | [] => Ok ∅
  | _ => for_each (add_contributors_of self) work_item_ids ∅
  end.

End with_transport.

(** The header of the requests: [Basic], a blank, and the base64 text of
    the bytes of [:pat] in UTF-8. *)
Definition _create_auth_header (self : AzureDevOpsClient) : result str :=
  let credentials := py ":" ++ pat self in
  encoded ← pycodec.utf8_encode credentials;
  let encoded_credentials := pycodec.b64encode encoded in
  Ok (py "Basic " ++ encoded_credentials).

(** [AzureDevOpsClient(...)]: [__init__] stores its arguments and computes
    the header; the header is a function of the token, so the record does
    not store it. *)
Definition AzureDevOpsClient_new
  (organization_url project pat release_field notes_field production_environment : str)
  : result AzureDevOpsClient :=
  let self :=
    mkAzureDevOpsClient organization_url project pat release_field notes_field
      production_environment in
  auth_header ← _create_auth_header self;
  Ok self.

(** [_handle_api_error]: each of its branches raises. [error_body] is the
    outcome of [error.read().decode('utf-8')] on the [HTTPError] at hand;
    the last branch raises the exception being handled again. *)
Definition _handle_api_error {A} (error_body : result str) (error : exn) (context : str)
  : result A :=
  match error with
  | HTTPError => body ← error_body; Raise RuntimeError
  | URLError => Raise RuntimeError
  | _ => Raise error
  end.

Definition _build_work_items_url (self : AzureDevOpsClient) (work_item_ids : list Z)
  : str :=
  let ids_param := join (py ",") (map str_of_int work_item_ids) in
  organization_url self ++ py "/" ++ project self ++ py "/_apis/wit/workitems?"
  ++ py "ids=" ++ ids_param ++ py "&"
  ++ py "fields=System.Id,System.Title,System.WorkItemType,System.State,System.IterationPath,"
  ++ notes_field self ++ py "&"
  ++ py "api-version=7.0".

Section with_work_item_transport.

(** The request that posts the WIQL query to the URL, the decoding of its
    answer and the reading of [item['id']] off each entry of [workItems]:
    the identifiers, or what one of these steps raised. The arguments are
    the URL and the text of the query. *)
Variable urlopen_wiql : str -> str -> result (list Z).

(** The request for the URL, the decoding of its answer and
    [_parse_work_items] on it: the work items, or what one of these steps
    raised. *)
Variable urlopen_work_items : str -> result (list WorkItem).

(** [error.read().decode('utf-8')] on the [HTTPError] a request raised. *)
Variable read_error_body : result str.

Definition query_work_item_ids
  (self : AzureDevOpsClient) (release_number : str) : result (list Z) :=
  let wiql_query :=
    py "SELECT [System.Id], [System.Title], [System.WorkItemType], [System.State], [System.IterationPath] "
    ++ py "FROM WorkItems WHERE [" ++ release_field self ++ py "] = '"
    ++ release_number ++ py "' "
    ++ py "AND [System.TeamProject] = '" ++ project self ++ py "'" in
  let url :=
    organization_url self ++ py "/" ++ project self
    ++ py "/_apis/wit/wiql?api-version=7.0" in
  try_except_url_error
    (urlopen_wiql url wiql_query)
    (fun e => _handle_api_error read_error_body e (py "querying work items")).

Definition get_work_item_details
  (self : AzureDevOpsClient) (work_item_ids : list Z) : result (list WorkItem) :=
  match work_item_ids with
  | [] => Ok []
  | _ =>
      let url := _build_work_items_url self work_item_ids in
      try_except_url_error
        (urlopen_work_items url)
        (fun e => _handle_api_error read_error_body e (py "getting work item details"))
  end.

End with_work_item_transport.

End azure_devops_client.

(** ** generate_release_notes.py: the generation step of [main] *)

Module generate_release_notes.

(** A call of [MarkdownGenerator] with positional arguments [args]: [__init__] takes the organization URL
    and the project; any other number of positional arguments raises
    [TypeError]. *)
Definition MarkdownGenerator_new (args : list str) : result MarkdownGenerator :=
  match args with
  | [organization_url; project] => Ok (mkMarkdownGenerator organization_url project)
  | _ => Raise TypeError
  end.

Section with_datetime.

Variable fromisoformat : str -> result datetime.

(** Lines 164 and 165 of [main]; [sort_by] is the value of [--sort-by],
    [id] or [title]. *)
Definition main_generate
  (organization_url project sort_by release : str) (work_items : list WorkItem)
  (releases : list Release) (contributors : gset str) : result str :=
  generator ← MarkdownGenerator_new [organization_url; project; sort_by];
  generate fromisoformat generator release work_items releases contributors.

End with_datetime.

(** [get_pat_token]: [args_pat] is [args.pat], [None] without the option;
    [environ] is [os.environ]. *)
Definition get_pat_token (args_pat : option str) (environ : gmap str str) : result str :=
  let pat := if truthy args_pat then args_pat else environ !! py "AZURE_DEVOPS_PAT" in
  match pat with
  | Some (c :: token) => Ok (c :: token)
  | _ => Raise ValueError
  end.

(** The parsed command line. *)
Record Namespace : Type := mkNamespace {
  release : str;
  organization : str;
  project : str;
  pat : option str;
  release_field : str;
  prod_env : str;
  notes_field : str;
  output : option str;
  sort_by : str
}.

(** How a run of [main] ends: it returns, having written the text
    [written.2] to the file [written.1] or nothing, or it leaves through
    [sys.exit]. *)
Inductive outcome : Type :=
  | Returned (written : option (str * str))
  | SystemExit (code : Z).

Section with_environment.

Variable fromisoformat : str -> result datetime.
Variable urlopen_wiql : str -> str -> result (list Z).
Variable urlopen_work_items : str -> result (list WorkItem).
Variable read_error_body : result str.
Variable urlopen_releases : str -> result (list azure_devops_client.ReleaseData).
Variable urlopen_builds : str -> result (list azure_devops_client.BuildData).
Variable urlopen_updates : str -> result json.

(** [open(output_file, 'w', encoding='utf-8')] and [f.write(markdown)]. *)
Variable write_file : str -> str -> result unit.

(** The [try] block of [main] (lines 119 to 177), the log apart. *)
Definition main_try (args : Namespace) (environ : gmap str str)
  : result (option (str * str)) :=
  pat ← get_pat_token (pat args) environ;
  config ← config.AzureDevOpsConfig_new (organization args) (project args) pat
              (release_field args) (prod_env args) (notes_field args);
  client ← azure_devops_client.AzureDevOpsClient_new
              (config.organization_url config) (config.project config)
              (config.pat config) (config.release_field config)
              (config.notes_field config) (config.production_environment config);
  work_item_ids ← azure_devops_client.query_work_item_ids urlopen_wiql read_error_body
                     client (release args);
  match work_item_ids with
  | [] => Ok None
  | _ =>
      work_items ← azure_devops_client.get_work_item_details urlopen_work_items
                      read_error_body client work_item_ids;
      releases ← azure_devops_client.get_releases urlopen_releases urlopen_builds
                    client (release args);
      contributors ← azure_devops_client.get_work_item_contributors urlopen_updates
                        client work_item_ids;
      markdown ← main_generate fromisoformat (config.organization_url config)
                    (config.project config) (sort_by args) (release args)
                    work_items releases contributors;
      let output_file :=
        if truthy (output args) then default [] (output args)
        else py "Release-Notes-" ++ release args ++ py ".md" in
      _ ← write_file output_file markdown;
      Ok (Some (output_file, markdown))
  end.

(** [main] after [parser.parse_args()]: both [except] clauses end in
    [sys.exit(1)]. *)
Definition main (args : Namespace) (environ : gmap str str) : outcome :=
  match main_try args environ with
  | Ok written => Returned written
  | Raise ValueError | Raise RuntimeError => SystemExit 1
  | Raise _ => SystemExit 1
  end.

End with_environment.

End generate_release_notes.

(** ** A parser for the instances

    [datetime.fromisoformat] as CPython 3.7 to 3.10 document it: the text
    [YYYY-MM-DD[*HH[:MM[:SS[.fff[fff]]]][+HH:MM[:SS]]]], where [*] is any one
    character. The theorems on the generator hold for every parser; this one
    instantiates them. *)

Module isoformat.

Definition is_digit (c : N) : bool := (48 <=? c) && (c <=? 57).

Fixpoint digits_value (acc : Z) (s : str) : option Z :=
  match s with
  | [] => Some acc
  | c :: s' =>
      if is_digit c then digits_value (10 * acc + Z.of_N (c - 48))%Z s' else None
  end.

(** A field of exactly [n] digits. *)
Definition parse_field (n : nat) (s : str) : option Z :=
  if bool_decide (length s = n) then digits_value 0 s else None.

Definition is_leap (y : Z) : bool :=
  ((y mod 4 =? 0) && negb (y mod 100 =? 0) || (y mod 400 =? 0))%Z.

Definition days_in_month (y m : Z) : Z :=
  match m with
  | 2 => if is_leap y then 29 else 28
  | 4 | 6 | 9 | 11 => 30
  | _ => 31
  end%Z.

Definition in_range (lo hi x : Z) : bool := ((lo <=? x) && (x <=? hi))%Z.

(** [YYYY-MM-DD] *)
Definition parse_date (s : str) : option (Z * Z * Z) :=
  y ← parse_field 4 (take 4 s);
  m ← parse_field 2 (take 2 (drop 5 s));
  d ← parse_field 2 (take 2 (drop 8 s));
  if bool_decide (s !! 4%nat = Some 45) && bool_decide (s !! 7%nat = Some 45)
     && bool_decide (length s = 10%nat)
     && in_range 1 9999 y && in_range 1 12 m && in_range 1 (days_in_month y m) d
  then Some (y, m, d) else None.

(** [HH[:MM[:SS[.fff[fff]]]]] *)
Definition parse_hms (s : str) : option (Z * Z * Z * Z) :=
  h ← parse_field 2 (take 2 s);
  '(mi, se, us) ←
    match drop 2 s with
    | [] => Some (0, 0, 0)%Z
    | 58 :: s1 =>
        mi ← parse_field 2 (take 2 s1);
        match drop 2 s1 with
        | [] => Some (mi, 0, 0)%Z
        | 58 :: s2 =>
            se ← parse_field 2 (take 2 s2);
            match drop 2 s2 with
            | [] => Some (mi, se, 0)%Z
            | 46 :: s3 =>
                match length s3 with
                | 3%nat => us ← parse_field 3 s3; Some (mi, se, us * 1000)%Z
                | 6%nat => us ← parse_field 6 s3; Some (mi, se, us)
                | _ => None
                end
            | _ => None
            end
        | _ => None
        end
    | _ => None
    end;
  if in_range 0 23 h && in_range 0 59 mi && in_range 0 59 se
  then Some (h, mi, se, us) else None.

(** The time text cut at its first sign: the time of day and, when there is
    a sign, whether it is [-] and the offset text after it. *)
Fixpoint split_offset (s : str) : str * option (bool * str) :=
  match s with
  | [] => ([], None)
  | c :: s' =>
      if (c =? 43) || (c =? 45) then ([], Some (c =? 45, s'))
      else let '(t, o) := split_offset s' in (c :: t, o)
  end.

(** [HH:MM[:SS]] after the sign, in seconds. *)
Definition parse_offset (negative : bool) (s : str) : option Z :=
  '(h, mi, se, _) ← parse_hms s;
  if bool_decide (length s = 5 ∨ length s = 8)%nat
  then Some ((if negative then -1 else 1) * (3600 * h + 60 * mi + se))%Z
  else None.

Definition fromisoformat (s : str) : result datetime :=
  match parse_date (take 10 s) with
  | None => Raise ValueError
  | Some (y, m, d) =>
      match drop 10 s with
      | [] => Ok (mkDatetime y m d 0 0 0 0 None)
      | _ :: tstr =>
          let '(t, o) := split_offset tstr in
          match parse_hms t with
          | None => Raise ValueError
          | Some (h, mi, se, us) =>
              match o with
              | None => Ok (mkDatetime y m d h mi se us None)
              | Some (negative, ostr) =>
                  match parse_offset negative ostr with
                  | None => Raise ValueError
                  | Some off => Ok (mkDatetime y m d h mi se us (Some off))
                  end
              end
          end
      end
  end.

End isoformat.

(** ** The fixtures of the tests ([tests/conftest.py]) and other inputs *)

Module fixtures.

Definition sample_work_items : list WorkItem :=
  [ mkWorkItem 1 (py "Fix login bug") (py "Bug") (py "Done") (py "Sprint 1") None;
    mkWorkItem 2 (py "Add user dashboard") (py "Feature") (py "Done") (py "Sprint 1") None;
    mkWorkItem 3 (py "Update API docs") (py "Task") (py "Done") (py "Sprint 2") None;
    mkWorkItem 4 (py "Implement authentication") (py "User Story") (py "Done")
      (py "Sprint 1") None ].

Definition sample_releases : list Release :=
  [ mkRelease (py "auth-service") (py "v1.2.3") (Some (py "2025-11-06T11:39:14.667Z"))
      (py "123") (py "456");
    mkRelease (py "api-gateway") (py "v2.0.1") (Some (py "2025-11-06T12:00:00.000Z"))
      (py "124") (py "457") ].

Definition sample_contributors : gset str :=
  {[ py "Alice Developer"; py "Bob Engineer"; py "Charlie Tester" ]}.

Definition generator : MarkdownGenerator :=
  mkMarkdownGenerator (py "https://dev.azure.com/testorg") (py "TestProject").

(** A release whose production timestamp is the empty text. *)
Definition release_with_empty_timestamp : Release :=
  mkRelease (py "auth-service") (py "v1.2.3") (Some []) (py "123") (py "456").

(** A release whose production timestamp is no date. *)
Definition release_with_malformed_timestamp : Release :=
  mkRelease (py "auth-service") (py "v1.2.3") (Some (py "yesterday")) (py "123") (py "456").

(** A work item whose notes are the empty text. *)
Definition work_item_with_empty_notes : WorkItem :=
  mkWorkItem 7 (py "Rotate keys") (py "Task") (py "Done") (py "Sprint 3") (Some []).

(** Two bugs whose titles and identifiers are in opposite orders. *)
Definition bugs_by_title : list WorkItem :=
  [ mkWorkItem 1 (py "Zero the counters") (py "Bug") (py "Done") (py "N/A") None;
    mkWorkItem 2 (py "Accept empty tags") (py "Bug") (py "Done") (py "N/A") None ].

(** Work items of two known and two other types. *)
Definition mixed_work_items : list WorkItem :=
  [ mkWorkItem 11 (py "Plan the rollout") (py "Task") (py "Done") (py "N/A") None;
    mkWorkItem 12 (py "Triage the queue") (py "Zendesk Ticket") (py "Done") (py "N/A") None;
    mkWorkItem 13 (py "Crash on save") (py "Bug") (py "Done") (py "N/A") None;
    mkWorkItem 14 (py "Audit the logs") (py "Audit") (py "Done") (py "N/A") None;
    mkWorkItem 15 (py "Pin the build") (py "Task") (py "Done") (py "N/A") None ].

(** The lines of the report of a call that returns; no line otherwise. *)
Definition lines_of (report : result (list str)) : list str :=
  match report with
  | Ok lines => lines
  | Raise _ => []
  end.

(** The report of the sample inputs of the tests. *)
Definition sample_report : result (list str) :=
  generate_lines isoformat.fromisoformat generator (py "2025.006")
    sample_work_items sample_releases sample_contributors.

(** The report of one work item whose notes are the empty text. *)
Definition empty_notes_report : result (list str) :=
  generate_lines isoformat.fromisoformat generator (py "2025.006")
    [work_item_with_empty_notes] [] ∅.

End fixtures.
Import fixtures.

(** The client and the responses of [tests/test_azure_devops_client.py]. *)

Module gateway_fixtures.

Import azure_devops_client.

Definition client : AzureDevOpsClient :=
  mkAzureDevOpsClient (py "https://dev.azure.com/testorg") (py "TestProject")
    (py "test_pat_token_123") (py "Custom.Release") (py "Custom.Notes") (py "PROD").

Definition dev_environment : EnvironmentData :=
  mkEnvironmentData (Some (py "DEV"))
    (Some [mkDeployStepData (Some (py "2025-11-05T11:39:14.667Z"))]).

Definition prod_environment : EnvironmentData :=
  mkEnvironmentData (Some (py "PROD"))
    (Some [mkDeployStepData (Some (py "2025-11-06T11:39:14.667Z"))]).

(** The record of [should_extract_prod_deployment_time_when_environment_exists]. *)
Definition release_data_with_prod : ReleaseData :=
  mkReleaseData None None None (Some [dev_environment; prod_environment]).

(** A record with two environments of the production name: the first with
    an empty list of deploy steps, the second with one step. *)
Definition prod_environment_without_steps : EnvironmentData :=
  mkEnvironmentData (Some (py "PROD")) (Some []).

Definition prod_environment_redeployed : EnvironmentData :=
  mkEnvironmentData (Some (py "PROD"))
    (Some [mkDeployStepData (Some (py "2025-11-06T11:00:00Z"))]).

Definition release_data_with_two_prod : ReleaseData :=
  mkReleaseData None None None
    (Some [prod_environment_without_steps; prod_environment_redeployed]).

(** An endpoint that is down. *)
Definition unavailable {A} (url : str) : result A := Raise HTTPError.

(** The builds endpoint answering with one build. *)
Definition one_build (url : str) : result (list BuildData) :=
  Ok [mkBuildData (Some (Some (py "auth-service"))) (Some (py "20251106.1"))].

(** A revision by the account of that display name. *)
Definition revision_by (name : str) : json :=
  JObject [(py "revisedBy", JObject [(py "displayName", JString name)])].

(** Revision histories of the work items 1 and 3; the request for any other
    work item fails. *)
Definition updates_of_1_and_3 (url : str) : result json :=
  if bool_decide (url = py "https://dev.azure.com/testorg/TestProject/_apis/wit/workitems/1/updates?api-version=7.0")
  then Ok (JArray [revision_by (py "Alice Developer");
                   revision_by (py "Project Collection Build Service (testorg)")])
  else if bool_decide (url = py "https://dev.azure.com/testorg/TestProject/_apis/wit/workitems/3/updates?api-version=7.0")
  then Ok (JArray [revision_by (py "Bob Engineer"); revision_by (py "Alice Developer")])
  else Raise URLError.

(** A history whose second revision has [null] under [revisedBy]. *)
Definition history_with_null_reviser (url : str) : result json :=
  Ok (JArray [revision_by (py "Alice Developer");
              JObject [(py "revisedBy", JNull)];
              revision_by (py "Bob Engineer")]).

(** The classic endpoint answering with that one record. *)
Definition one_classic_release (url : str) : result (list ReleaseData) :=
  Ok [release_data_with_prod].

End gateway_fixtures.

(** ** Predicates of the statements *)

(** A text of whitespace only (the empty text included). *)
Definition all_space (s : str) : Prop := forallb isspace s = true.

(** [t] is the latest production timestamp of [releases]: a non-empty
    timestamp of one of them, and no timestamp of any of them is above it. *)
Definition latest_timestamp (releases : list Release) (t : str) : Prop :=
  t <> []
  /\ (exists r, r ∈ releases /\ prod_deploy_time r = Some t)
  /\ (forall r t', r ∈ releases -> prod_deploy_time r = Some t' -> str_leb t' t = true).

(** The environment carries the configured production name. *)
Definition is_production
  (self : azure_devops_client.AzureDevOpsClient)
  (env : azure_devops_client.EnvironmentData) : Prop :=
  azure_devops_client.env_name env
  = Some (azure_devops_client.production_environment self).

#[global] Instance is_production_dec self env : Decision (is_production self env) :=
  decide (azure_devops_client.env_name env
          = Some (azure_devops_client.production_environment self)).

(** The deploy steps of an environment ([env.get('deploySteps', [])]). *)
Definition deploy_steps_of (env : azure_devops_client.EnvironmentData)
  : list azure_devops_client.DeployStepData :=
  default [] (azure_devops_client.deploySteps env).

(** The environments of a release record. *)
Definition environments_of (release_data : azure_devops_client.ReleaseData)
  : list azure_devops_client.EnvironmentData :=
  default [] (azure_devops_client.environments release_data).

(** The URL of the request of the build tier (line 232). *)
Definition builds_url (self : azure_devops_client.AzureDevOpsClient) (release_tag : str)
  : str :=
  azure_devops_client.organization_url self ++ py "/"
  ++ azure_devops_client.project self
  ++ py "/_apis/build/builds?api-version=7.0&tagFilters=" ++ release_tag
  ++ py "&$top=100".

(** The release made of a build (lines 243 to 249). *)
Definition release_of_build (build : azure_devops_client.BuildData) : Release :=
  mkRelease
    (default (py "Unknown") (default None (azure_devops_client.definition_name build)))
    (default (py "Unknown") (azure_devops_client.buildNumber build))
    None [] [].

(** The value the extraction reads as the display name of a revision, when
    the revision is an object and what it has under [revisedBy], if
    anything, is an object: the value under [displayName], [None] where a
    key is missing. *)
Definition display_value (update d : json) : Prop :=
  exists fields,
    update = JObject fields
    /\ match lookup_key (py "revisedBy") fields with
       | None => d = JNull
       | Some (JObject author) =>
           d = default JNull (lookup_key (py "displayName") author)
       | Some _ => False
       end.

(** The revision names an account by a text. *)
Definition display_name_of (update : json) (name : str) : Prop :=
  display_value update (JString name).

(** The name of a person: not empty, without angle brackets, and without
    the names of the two services. *)
Definition is_human_name (name : str) : Prop :=
  name <> [] /\ (60 ∉ name) /\ (62 ∉ name)
  /\ contains (py "Microsoft.VisualStudio.Services") name = false
  /\ contains (py "Project Collection Build Service") name = false.

(** A display name that is true and neither a text nor a container that
    holds one of the patterns of the system accounts: a number, [True], or
    a list or a dict without them. *)
Definition unusable_name (d : json) : Prop :=
  truth d = true
  /\ match d with
     | JString _ => False
     | JArray items =>
         forall pattern,
           pattern ∈ azure_devops_client.SYSTEM_ACCOUNT_PATTERNS ->
           JString pattern ∉ items
     | JObject fields =>
         forall pattern,
           pattern ∈ azure_devops_client.SYSTEM_ACCOUNT_PATTERNS ->
           lookup_key pattern fields = None
     | _ => True
     end.

(** A revision on which the extraction raises, which ends the history of
    its work item: it is not an object, or it has under [revisedBy] a value
    that is not an object, or its display name is unusable. *)
Definition breaks_history (update : json) : Prop :=
  (forall d, ~ display_value update d)
  \/ exists d, display_value update d /\ unusable_name d.

(** The name is collected from a history: a revision of the history names
    it, it is the name of a person, and no revision before that one breaks
    the history. *)
Definition collected_from (updates : list json) (name : str) : Prop :=
  exists i update,
    updates !! i = Some update
    /\ Forall (fun earlier => ~ breaks_history earlier) (take i updates)
    /\ display_name_of update name
    /\ is_human_name name.

(** The URL of the request for the revisions of a work item (line 149). *)
Definition updates_url (self : azure_devops_client.AzureDevOpsClient) (work_item_id : Z)
  : str :=
  azure_devops_client.organization_url self ++ py "/"
  ++ azure_devops_client.project self ++ py "/_apis/wit/workitems/"
  ++ str_of_int work_item_id ++ py "/updates?api-version=7.0".

(** The work items of one type, in the order of the input. *)
Definition items_of_type (work_items : list WorkItem) (work_type : str) : list WorkItem :=
  filter (fun item => type item = work_type) work_items.

(** The types that occur among the work items. *)
Definition types_of (work_items : list WorkItem) : list str := type <$> work_items.

(** The heading of a group of the changelog (line 206). *)
Definition group_heading (work_type : str) (items : list WorkItem) : str :=
  py "### " ++ _get_work_item_type_emoji work_type ++ py " " ++ work_type
  ++ py " (" ++ str_of_len items ++ py ")".

(** A line is the heading of a group: it starts with three hashes and a
    blank. *)
Definition is_group_heading (line : str) : bool := startswith (py "### ") line.

(** The line of a work item in the changelog (line 213). *)
Definition item_line (self : MarkdownGenerator) (item : WorkItem) : str :=
  py "- [#" ++ str_of_int (id item) ++ py "](" ++ _build_work_item_url self (id item)
  ++ py ") " ++ title item.

(** The comparison of [sorted(items, key=lambda x: x.id)]. *)
Definition id_leb (a b : WorkItem) : bool := Z.leb (id a) (id b).

(** A line is a section heading (two hashes and a blank) or a line of a
    table (it starts with a bar). *)
Definition is_structural (line : str) : bool :=
  startswith (py "## ") line || startswith (py "|") line.

(** The row of a release in the table of binaries (lines 131 to 137). *)
Definition release_row (self : MarkdownGenerator) (release : Release) : str :=
  py "| "
  ++ (py "[" ++ microservice release ++ py "]("
      ++ (organization_url self ++ py "/" ++ project self
          ++ py "/_release?definitionId=" ++ definition_id release
          ++ py "&_a=releases&view=mine")
      ++ py ")")
  ++ py " | "
  ++ (py "[" ++ version release ++ py "]("
      ++ (organization_url self ++ py "/" ++ project self
          ++ py "/_releaseProgress?_a=release-pipeline-progress&releaseId="
          ++ release_id release)
      ++ py ")")
  ++ py " |".

(** The Binaries block of a non-empty list of releases: heading, blank
    line, the two lines that open the table, one row per release. *)
Definition binaries_block (self : MarkdownGenerator) (releases : list Release)
  : list str :=
  [BINARIES_HEADING; []; py "| Microservice | Version |"; py "|--------------|---------|"]
  ++ map (release_row self)
       (sorted (fun a b => str_leb (microservice a) (microservice b)) releases)
  ++ [[]].

(** Some work item has notes that pass the truth test: present and not
    empty. *)
Definition has_notes (work_items : list WorkItem) : Prop :=
  exists item note, item ∈ work_items /\ notes item = Some note /\ note <> [].





(** The URL of the request of the classic tier (line 173). *)
Definition classic_releases_url (self : azure_devops_client.AzureDevOpsClient)
  (release_tag : str) : str :=
  azure_devops_client._get_vsrm_url self ++ py "/"
  ++ azure_devops_client.project self
  ++ py "/_apis/release/releases?api-version=7.0&$top=100&tagFilter="
  ++ release_tag ++ py "&$expand=environments".

(** A line of the breakdown by type (lines 111 and 117). *)
Definition breakdown_line (work_type : str) (items : list WorkItem) : str :=
  py "- " ++ _get_work_item_type_emoji work_type ++ py " **" ++ work_type
  ++ py ":** " ++ str_of_len items.

(** The lines of a group of the changelog (lines 205 to 215). *)
Definition changelog_group (self : MarkdownGenerator) (work_type : str)
  (items : list WorkItem) : list str :=
  [group_heading work_type items; []]
  ++ map (item_line self) (sorted id_leb items) ++ [[]].

(** The types of the work items in the order in which the two loops of the
    breakdown and of the changelog meet them. *)
Definition group_order (work_items : list WorkItem) : list str :=
  filter (fun t => t ∈ types_of work_items) WORK_ITEM_TYPE_ORDER
  ++ filter (fun t => t ∉ WORK_ITEM_TYPE_ORDER)
       (sorted_keys (_group_work_items_by_type work_items)).

(** The line that links a work item in the deployment instructions
    (line 162). *)
Definition deployment_link (self : MarkdownGenerator) (item : WorkItem) : str :=
  py "- [#" ++ str_of_int (id item) ++ py "](" ++ _build_work_item_url self (id item)
  ++ py ")".

(** The lines of a work item with notes in the deployment instructions
    (lines 158 to 168): its link, its instructions, a blank line. *)
Definition deployment_block (self : MarkdownGenerator) (item : WorkItem) : list str :=
  [deployment_link self item]
  ++ map (fun note_item => py "  - " ++ note_item)
       (_convert_notes_to_list_items (default [] (notes item)))
  ++ [[]].

(** A tag, as the expression [<[^>]+>] matches it: a [<], then at least one
    character none of which is [>], then a [>]. *)
Definition is_tag (t : str) : Prop :=
  exists body, t = 60 :: body ++ [62] /\ body <> [] /\ (62 ∉ body).

(** A tag occurs in the text. *)
Definition has_tag (s : str) : Prop :=
  exists l t r, s = l ++ t ++ r /\ is_tag t.

(** [t] is the text [s] trimmed: [s] is [t] between a run of whitespace at
    its front and one at its end, and [t] neither starts nor ends with
    whitespace. *)
Definition trimmed (s t : str) : Prop :=
  (exists l r, s = l ++ t ++ r /\ all_space l /\ all_space r)
  /\ (forall c u, t = c :: u -> isspace c = false)
  /\ (forall c u, rev t = c :: u -> isspace c = false).

(** [t] is the text [s] with its tags removed: the tag of [s] that starts
    first is cut out, and so are the tags of the text after it. *)
Inductive tags_removed : str -> str -> Prop :=
  | tags_removed_none (s : str) :
      ~ has_tag s -> tags_removed s s
  | tags_removed_tag (before tag after t : str) :
      is_tag tag ->
      (forall l tag' r,
          before ++ tag ++ after = l ++ tag' ++ r -> is_tag tag' ->
          (length before <= length l)%nat) ->
      tags_removed after t ->
      tags_removed (before ++ tag ++ after) (before ++ t).

(** A list item with its content: the marker [<li>], the content, and the
    marker [</li>], which occurs nowhere before in the content followed by
    it. *)
Definition is_list_item (m content : str) : Prop :=
  m = py "<li>" ++ content ++ py "</li>"
  /\ forall a b, content ++ py "</li>" = a ++ py "</li>" ++ b -> b = [].

(** A list item occurs in the text. *)
Definition has_list_item (s : str) : Prop :=
  exists l m r content, s = l ++ m ++ r /\ is_list_item m content.

(** The contents of the list items of a text, in order: that of the list
    item that starts first, then those of the text after it. *)
Inductive list_item_contents : str -> list str -> Prop :=
  | list_item_contents_none (s : str) :
      ~ has_list_item s -> list_item_contents s []
  | list_item_contents_item (before m content after : str) (contents : list str) :
      is_list_item m content ->
      (forall l m' content' r,
          before ++ m ++ after = l ++ m' ++ r -> is_list_item m' content' ->
          (length before <= length l)%nat) ->
      list_item_contents after contents ->
      list_item_contents (before ++ m ++ after) (content :: contents).

(** [t] is the text [s] cleaned: its tags removed, then trimmed. *)
Definition cleaned (s t : str) : Prop :=
  exists u, tags_removed s u /\ trimmed u t.

(** The instructions of notes. With list items: their contents cleaned, in
    order, those left empty dropped. Without list item: the notes cleaned,
    as the one instruction, or none when that is empty. *)
Definition note_items (notes : str) (items : list str) : Prop :=
  exists contents,
    list_item_contents notes contents
    /\ match contents with
       | [] =>
           exists t,
             cleaned notes t
             /\ items = match t with
                        | [] => []
                        | _ => [t]
                        end
       | _ =>
           exists texts,
             Forall2 cleaned contents texts
             /\ items = filter (fun t => t <> []) texts
       end.

(** A line is the heading of a section: it starts with two hashes and a
    blank. *)
Definition is_section_heading (line : str) : bool := startswith (py "## ") line.

(** A text of ASCII characters. *)
Definition is_ascii (s : str) : Prop := Forall (fun c => c < 128) s.

(** A surrogate code point. *)
Definition is_surrogate (c : N) : Prop := 55296 <= c <= 57343.

(** * Properties *)

(** ** Strings: whitespace and [strip] *)

Lemma all_space_nil : all_space [].
Proof. reflexivity. Qed.

Lemma all_space_cons c s : all_space (c :: s) <-> isspace c = true /\ all_space s.
Proof. unfold all_space. simpl. rewrite andb_true_iff. tauto. Qed.

Lemma all_space_app l r : all_space (l ++ r) <-> all_space l /\ all_space r.
Proof. unfold all_space. rewrite forallb_app, andb_true_iff. tauto. Qed.

Lemma all_space_rev s : all_space (rev s) <-> all_space s.
Proof.
  induction s as [|c s IH]; simpl; [tauto|].
  rewrite all_space_app, all_space_cons, IH, all_space_cons.
  assert (all_space []) by reflexivity. tauto.
Qed.

Lemma lstrip_all_space s : all_space s -> lstrip s = [].
Proof.
  induction s as [|c s IH]; intros H; simpl; [reflexivity|].
  apply all_space_cons in H as [Hc Hs]. rewrite Hc. auto.
Qed.

Lemma lstrip_nil_inv s : lstrip s = [] -> all_space s.
Proof.
  induction s as [|c s IH]; simpl; intros H; [reflexivity|].
  destruct (isspace c) eqn:Hc; [|discriminate].
  apply all_space_cons. auto.
Qed.

(** [lstrip] cuts a run of whitespace off the front and stops at the first
    other character. *)
Lemma lstrip_decomp s :
  exists l, s = l ++ lstrip s /\ all_space l.
Proof.
  induction s as [|c s [l [Hs Hl]]]; simpl.
  - exists []. split; reflexivity.
  - destruct (isspace c) eqn:Hc.
    + exists (c :: l). split; [simpl; congruence|]. apply all_space_cons; auto.
    + exists []. split; reflexivity.
Qed.

Lemma lstrip_head s c t : lstrip s = c :: t -> isspace c = false.
Proof.
  induction s as [|x s IH]; simpl; [discriminate|].
  destruct (isspace x) eqn:Hx; [exact IH|].
  intros [= <- _]. exact Hx.
Qed.

Lemma lstrip_fixed c s : isspace c = false -> lstrip (c :: s) = c :: s.
Proof. intros H. simpl. rewrite H. reflexivity. Qed.

Lemma lstrip_snoc s c : isspace c = false -> lstrip (s ++ [c]) = lstrip s ++ [c].
Proof.
  intros Hc. induction s as [|x s IH]; simpl.
  - rewrite Hc. reflexivity.
  - destruct (isspace x); [exact IH | reflexivity].
Qed.

Lemma rstrip_cons c s : isspace c = false -> rstrip (c :: s) = c :: rstrip s.
Proof.
  intros Hc. unfold rstrip. simpl.
  rewrite (lstrip_snoc _ _ Hc), rev_app_distr. reflexivity.
Qed.

Lemma rstrip_decomp s :
  exists r, s = rstrip s ++ r /\ all_space r.
Proof.
  unfold rstrip. destruct (lstrip_decomp (rev s)) as [l [Hs Hl]].
  exists (rev l). split.
  - rewrite <- rev_app_distr, <- Hs, rev_involutive. reflexivity.
  - apply all_space_rev. exact Hl.
Qed.

Lemma rstrip_last s c t : rev (rstrip s) = c :: t -> isspace c = false.
Proof. unfold rstrip. rewrite rev_involutive. apply lstrip_head. Qed.

Lemma rstrip_fixed s c t : rev s = c :: t -> isspace c = false -> rstrip s = s.
Proof.
  intros Hs Hc. unfold rstrip. rewrite Hs, (lstrip_fixed _ _ Hc), <- Hs.
  apply rev_involutive.
Qed.

Lemma strip_decomp s :
  exists l r, s = l ++ strip s ++ r /\ all_space l /\ all_space r.
Proof.
  destruct (lstrip_decomp s) as [l [Hs Hl]].
  destruct (rstrip_decomp (lstrip s)) as [r [Ht Hr]].
  exists l, r. unfold strip. rewrite <- Ht. auto.
Qed.

Lemma strip_head s c t : strip s = c :: t -> isspace c = false.
Proof.
  unfold strip. destruct (lstrip s) as [|x u] eqn:Hu.
  - discriminate.
  - pose proof (lstrip_head _ _ _ Hu) as Hx.
    rewrite (rstrip_cons _ _ Hx). intros [= <- _]. exact Hx.
Qed.

Lemma strip_last s c t : rev (strip s) = c :: t -> isspace c = false.
Proof. unfold strip. apply rstrip_last. Qed.

Lemma strip_all_space s : all_space s -> strip s = [].
Proof. intros H. unfold strip. rewrite (lstrip_all_space _ H). reflexivity. Qed.

Lemma strip_nil_inv s : strip s = [] -> all_space s.
Proof.
  unfold strip. intros H.
  destruct (lstrip s) as [|x u] eqn:Hu.
  - apply lstrip_nil_inv. exact Hu.
  - rewrite (rstrip_cons _ _ (lstrip_head _ _ _ Hu)) in H. discriminate.
Qed.

Lemma strip_idempotent s : strip (strip s) = strip s.
Proof.
  destruct (strip s) as [|c t] eqn:Hs; [reflexivity|].
  pose proof (strip_head _ _ _ Hs) as Hc.
  unfold strip at 1. rewrite (lstrip_fixed _ _ Hc).
  destruct (rev (c :: t)) as [|x u] eqn:Hr.
  - apply (f_equal (@length N)) in Hr. rewrite length_rev in Hr. discriminate.
  - apply (rstrip_fixed _ x u Hr).
    apply (strip_last s x u). rewrite Hs. exact Hr.
Qed.

(** ** Notes normalization *)

Lemma parse_notes_field_strip s :
  azure_devops_client._parse_notes_field (Some s)
  = match strip s with [] => None | _ :: _ => Some (strip s) end.
Proof.
  destruct s as [|c s]; [reflexivity|]. reflexivity.
Qed.

(** C7. Notes normalization. Normalizing a normalized value changes
    nothing; an empty or all-whitespace text normalizes to absent; every
    other text [s] normalizes to [strip s], which is the slice of [s] left
    between a run of whitespace at its front and one at its end (so the
    markup inside is kept as it is) and neither starts nor ends with
    whitespace. *)
Theorem parse_notes_field_normalization :
  (forall raw : option str,
      azure_devops_client._parse_notes_field
        (azure_devops_client._parse_notes_field raw)
      = azure_devops_client._parse_notes_field raw)
  /\ (forall s : str,
        all_space s -> azure_devops_client._parse_notes_field (Some s) = None)
  /\ (forall s : str,
        ~ all_space s ->
        azure_devops_client._parse_notes_field (Some s) = Some (strip s)
        /\ (exists l r, s = l ++ strip s ++ r /\ all_space l /\ all_space r)
        /\ (forall c t, strip s = c :: t -> isspace c = false)
        /\ (forall c t, rev (strip s) = c :: t -> isspace c = false)).
Proof.
  split; [|split].
  - intros [s|]; [|reflexivity].
    rewrite parse_notes_field_strip.
    destruct (strip s) as [|c t] eqn:Hs; [reflexivity|].
    rewrite parse_notes_field_strip, <- Hs, strip_idempotent, Hs.
    reflexivity.
  - intros s Hs. rewrite parse_notes_field_strip, (strip_all_space _ Hs).
    reflexivity.
  - intros s Hs. split; [|split; [|split]].
    + rewrite parse_notes_field_strip.
      destruct (strip s) as [|c t] eqn:Hst; [|reflexivity].
      exfalso. apply Hs, strip_nil_inv, Hst.
    + apply strip_decomp.
    + apply strip_head.
    + apply strip_last.
Qed.

(** C7 at the notes [  <b>Restart</b> the service\n]: the markup stays, the
    blanks around it go; and at a text of blanks only. *)
Lemma parse_notes_field_normalization_witness :
  azure_devops_client._parse_notes_field
    (Some (py "  <b>Restart</b> the service" ++ [10]))
  = Some (py "<b>Restart</b> the service")
  /\ azure_devops_client._parse_notes_field (Some (py "   " ++ [9; 160])) = None.
Proof.
  destruct parse_notes_field_normalization as [_ [Hblank Hother]].
  split.
  - destruct (Hother (py "  <b>Restart</b> the service" ++ [10])) as [H _].
    + vm_compute. discriminate.
    + rewrite H. vm_compute. reflexivity.
  - apply Hblank. vm_compute. reflexivity.
Defined.

(** ** Strings: the order *)

Ltac cmp_cases :=
  repeat match goal with
    | |- context [N.ltb ?x ?y] => destruct (N.ltb_spec x y)
    | |- context [N.eqb ?x ?y] => destruct (N.eqb_spec x y)
    | H : context [N.ltb ?x ?y] |- _ => destruct (N.ltb_spec x y)
    | H : context [N.eqb ?x ?y] |- _ => destruct (N.eqb_spec x y)
    end.

Lemma str_ltb_irrefl a : str_ltb a a = false.
Proof.
  induction a as [|x a IH]; simpl; [reflexivity|].
  cmp_cases; try lia; auto.
Qed.

Lemma str_ltb_trans a b c :
  str_ltb a b = true -> str_ltb b c = true -> str_ltb a c = true.
Proof.
  revert b c. induction a as [|x a IH]; intros [|y b] [|z c]; simpl;
    try discriminate; try reflexivity.
  intros Hab Hbc. cmp_cases; subst; try lia; try discriminate; try reflexivity.
  eapply IH; eassumption.
Qed.

Lemma str_ltb_trichotomy a b :
  str_ltb a b = true \/ a = b \/ str_ltb b a = true.
Proof.
  revert b. induction a as [|x a IH]; intros [|y b]; simpl; auto.
  cmp_cases; subst; try lia; auto.
  destruct (IH b) as [E|[E|E]]; subst; auto.
Qed.

Lemma str_ltb_asym a b : str_ltb a b = true -> str_ltb b a = false.
Proof.
  intros H. destruct (str_ltb b a) eqn:Hba; [|reflexivity].
  pose proof (str_ltb_trans _ _ _ H Hba) as Haa.
  rewrite str_ltb_irrefl in Haa. discriminate.
Qed.

Lemma str_leb_refl a : str_leb a a = true.
Proof. unfold str_leb. rewrite str_ltb_irrefl. reflexivity. Qed.

Lemma str_leb_total a b : str_leb a b = true \/ str_leb b a = true.
Proof.
  unfold str_leb. destruct (str_ltb_trichotomy a b) as [H|[H|H]].
  - left. rewrite (str_ltb_asym _ _ H). reflexivity.
  - subst. left. rewrite str_ltb_irrefl. reflexivity.
  - right. rewrite (str_ltb_asym _ _ H). reflexivity.
Qed.

Lemma str_leb_trans a b c :
  str_leb a b = true -> str_leb b c = true -> str_leb a c = true.
Proof.
  unfold str_leb. rewrite !negb_true_iff. intros Hba Hcb.
  destruct (str_ltb c a) eqn:Hca; [|reflexivity].
  destruct (str_ltb_trichotomy a b) as [H|[H|H]].
  - rewrite (str_ltb_trans _ _ _ Hca H) in Hcb. discriminate.
  - subst. congruence.
  - congruence.
Qed.


Lemma str_leb_nil a : str_leb [] a = true.
Proof. unfold str_leb. destruct a; reflexivity. Qed.

(** ** Release-date extraction *)

(** [py_max] returns an element of the list that is above all of them. *)
Lemma py_max_in x l : py_max x l ∈ x :: l.
Proof.
  unfold py_max. revert x. induction l as [|y l IH]; intros x; simpl.
  - apply list_elem_of_here.
  - destruct (str_ltb x y).
    + apply list_elem_of_further. apply IH.
    + specialize (IH x). apply elem_of_cons in IH as [IH|IH].
      * rewrite IH. apply list_elem_of_here.
      * do 2 apply list_elem_of_further. exact IH.
Qed.

Lemma py_max_ge_first x l : str_leb x (py_max x l) = true.
Proof.
  unfold py_max. revert x. induction l as [|y l IH]; intros x; simpl.
  - apply str_leb_refl.
  - destruct (str_ltb x y) eqn:Hxy; [|apply IH].
    eapply str_leb_trans; [|apply IH].
    unfold str_leb. rewrite (str_ltb_asym _ _ Hxy). reflexivity.
Qed.

Lemma py_max_upper x l y : y ∈ x :: l -> str_leb y (py_max x l) = true.
Proof.
  unfold py_max. revert x. induction l as [|z l IH]; intros x Hy; simpl.
  - apply elem_of_cons in Hy as [->|Hy]; [apply str_leb_refl|].
    inversion Hy.
  - apply elem_of_cons in Hy as [->|Hy].
    + apply (py_max_ge_first x (z :: l)).
    + apply elem_of_cons in Hy as [->|Hy].
      * destruct (str_ltb x z) eqn:Hxz.
        { apply py_max_ge_first. }
        { eapply str_leb_trans; [|apply py_max_ge_first].
          unfold str_leb. rewrite Hxz. reflexivity. }
      * destruct (str_ltb x z); apply IH; apply list_elem_of_further; exact Hy.
Qed.

Lemma truthy_false_iff (x : option str) :
  truthy x = false <-> x = None \/ x = Some [].
Proof.
  destruct x as [[|c t]|]; simpl; split; intros H; auto; try discriminate.
  - destruct H as [H|H]; discriminate.
Qed.

Lemma truthy_true_iff (x : option str) :
  truthy x = true <-> exists t, x = Some t /\ t <> [].
Proof.
  destruct x as [[|c t]|]; simpl; split; intros H; try discriminate.
  - destruct H as [t [[= <-] Ht]]. congruence.
  - exists (c :: t). split; [reflexivity | discriminate].
  - reflexivity.
  - destruct H as [t [H _]]. discriminate.
Qed.

Lemma strftime_not_unreleased d : strftime_B_d_Y d <> py "Unreleased".
Proof.
  intros H.
  assert (Hin : (32 : N) ∈ strftime_B_d_Y d).
  { unfold strftime_B_d_Y. apply elem_of_app. right.
    apply elem_of_app. left. apply list_elem_of_here. }
  rewrite H in Hin. apply list_elem_of_In in Hin.
  vm_compute in Hin. intuition discriminate.
Qed.

Section release_date.

Variable fromisoformat : str -> result datetime.

Lemma extract_release_date_unreleased releases :
  Forall (fun r => truthy (prod_deploy_time r) = false) releases ->
  _extract_release_date fromisoformat releases = Ok (py "Unreleased").
Proof.
  intros H. unfold _extract_release_date.
  destruct releases as [|r0 rs]; [reflexivity|].
  assert (Hnil : omap (fun r => if truthy (prod_deploy_time r)
                                then prod_deploy_time r else None) (r0 :: rs) = []).
  { induction H as [|r l Hr _ IH]; [reflexivity|].
    simpl. rewrite Hr. exact IH. }
  rewrite Hnil. reflexivity.
Qed.

Lemma extract_release_date_latest releases :
  Exists (fun r => truthy (prod_deploy_time r) = true) releases ->
  exists latest,
    latest_timestamp releases latest
    /\ _extract_release_date fromisoformat releases
       = strftime_B_d_Y <$> fromisoformat (replace (py "Z") (py "+00:00") latest).
Proof.
  intros H. unfold _extract_release_date.
  destruct releases as [|r0 rs]; [inversion H|].
  set (f := fun r : Release =>
              if truthy (prod_deploy_time r) then prod_deploy_time r else None).
  assert (Hmem : forall t, t ∈ omap f (r0 :: rs) <->
                           exists r, r ∈ r0 :: rs /\ prod_deploy_time r = Some t /\ t <> []).
  { intros t. rewrite list_elem_of_omap. split.
    - intros [r [Hr Hf]]. exists r. split; [exact Hr|].
      unfold f in Hf. destruct (truthy (prod_deploy_time r)) eqn:Ht; [|discriminate].
      apply truthy_true_iff in Ht as [t' [Ht' Hne]]. split; congruence.
    - intros [r [Hr [Ht Hne]]]. exists r. split; [exact Hr|].
      unfold f. rewrite Ht. destruct t; [congruence | reflexivity]. }
  destruct (omap f (r0 :: rs)) as [|t ts] eqn:Hts.
  - exfalso. apply Exists_exists in H as [r [Hr Ht]].
    apply truthy_true_iff in Ht as [t [Ht Hne]].
    assert (Hin : t ∈ @nil str); [|inversion Hin].
    apply Hmem. exists r. auto.
  - exists (py_max t ts). split.
    + pose proof (proj1 (Hmem _) (py_max_in t ts)) as [r [Hr [Ht Hne]]].
      split; [exact Hne|]. split; [exists r; auto|].
      intros r' t' Hr' Ht'. destruct t' as [|c t']; [apply str_leb_nil|].
      apply py_max_upper. apply Hmem. exists r'. split; [exact Hr'|].
      split; [exact Ht' | discriminate].
    + destruct (fromisoformat _); reflexivity.
Qed.

(** C1, as the code has it. The extracted release date is [Unreleased]
    exactly when every release has an absent or empty production timestamp
    (so also for no release at all); otherwise the greatest of the non-empty
    timestamps, each [Z] of it replaced by [+00:00], is parsed and the date
    is returned in the form [Month DD, YYYY] (what the parser raises is
    raised on). *)
Theorem extract_release_date_spec (releases : list Release) :
  (_extract_release_date fromisoformat releases = Ok (py "Unreleased")
   <-> Forall (fun r => prod_deploy_time r = None \/ prod_deploy_time r = Some [])
         releases)
  /\ (Exists (fun r => exists t, prod_deploy_time r = Some t /\ t <> []) releases ->
      exists latest,
        latest_timestamp releases latest
        /\ _extract_release_date fromisoformat releases
           = strftime_B_d_Y <$> fromisoformat (replace (py "Z") (py "+00:00") latest)).
Proof.
  split.
  - split.
    + intros Hu. apply Forall_forall. intros r Hr.
      apply truthy_false_iff.
      destruct (truthy (prod_deploy_time r)) eqn:Ht; [|reflexivity].
      exfalso.
      destruct (extract_release_date_latest releases) as [latest [_ He]].
      { apply Exists_exists. exists r. auto. }
      rewrite He in Hu.
      destruct (fromisoformat _) as [d|e]; [|discriminate].
      injection Hu as Hu. exact (strftime_not_unreleased d Hu).
    + intros H. apply extract_release_date_unreleased.
      eapply Forall_impl; [exact H|]. intros r Hr. apply truthy_false_iff. exact Hr.
  - intros H. apply extract_release_date_latest.
    eapply Exists_impl; [exact H|]. intros r Hr. apply truthy_true_iff. exact Hr.
Qed.

End release_date.

(** The date the tests expect of the sample releases. *)
Example extract_release_date_sample :
  _extract_release_date isoformat.fromisoformat sample_releases
  = Ok (py "November 06, 2025").
Proof. vm_compute. reflexivity. Qed.

(** C1 at the sample releases of the tests. *)
Lemma extract_release_date_spec_witness :
  exists latest,
    latest_timestamp sample_releases latest
    /\ _extract_release_date isoformat.fromisoformat sample_releases
       = strftime_B_d_Y
         <$> isoformat.fromisoformat (replace (py "Z") (py "+00:00") latest).
Proof.
  apply (proj2 (extract_release_date_spec isoformat.fromisoformat sample_releases)).
  apply Exists_cons_hd. eexists. split; [reflexivity | discriminate].
Defined.

(** C1 as stated fails at one release whose production timestamp is the
    empty text [prod_deploy_time = '']: the truth test of line 79 drops it, the
    date is [Unreleased], and yet the list is not empty and the timestamp is
    not absent. *)
Lemma extract_release_date_empty_timestamp :
  ~ (_extract_release_date isoformat.fromisoformat [release_with_empty_timestamp]
     = Ok (py "Unreleased")
     <-> [release_with_empty_timestamp] = []
         \/ Forall (fun r => prod_deploy_time r = None) [release_with_empty_timestamp]).
Proof.
  intros [H _]. destruct (H eq_refl) as [Hnil|Hall]; [discriminate|].
  inversion Hall as [|r l Hr _]. discriminate.
Qed.

(** ** Production timestamp of a classic release *)

Section prod_deployment_time.

Import azure_devops_client.

Variable self : AzureDevOpsClient.

(** The extraction reads the environments only. *)
Lemma extract_prod_deployment_time_environments release_data :
  _extract_prod_deployment_time self release_data
  = _extract_prod_deployment_time self
      (mkReleaseData None None None (Some (environments_of release_data))).
Proof. reflexivity. Qed.

Lemma extract_prod_deployment_time_cons env envs :
  _extract_prod_deployment_time self (mkReleaseData None None None (Some (env :: envs)))
  = if bool_decide (is_production self env) then
      match last (deploy_steps_of env) with
      | Some step => lastModifiedOn step
      | None =>
          _extract_prod_deployment_time self (mkReleaseData None None None (Some envs))
      end
    else _extract_prod_deployment_time self (mkReleaseData None None None (Some envs)).
Proof. reflexivity. Qed.

(** Environments with another name, and environments without deploy
    steps, are passed over. *)
Lemma extract_prod_deployment_time_skip before rest :
  (forall e, e ∈ before -> is_production self e -> deploy_steps_of e = []) ->
  _extract_prod_deployment_time self
    (mkReleaseData None None None (Some (before ++ rest)))
  = _extract_prod_deployment_time self (mkReleaseData None None None (Some rest)).
Proof.
  induction before as [|e before IH]; intros H; [reflexivity|].
  simpl app. rewrite extract_prod_deployment_time_cons.
  assert (IH' := IH (fun x Hx => H x (list_elem_of_further _ _ _ Hx))).
  case_bool_decide as Hp; [|exact IH'].
  rewrite (H e (list_elem_of_here _ _) Hp). exact IH'.
Qed.

(** The first environment that has the production name and deploy steps
    decides: the timestamp is that of its last step. *)
Lemma extract_prod_deployment_time_first release_data before env after step :
  environments_of release_data = before ++ env :: after ->
  (forall e, e ∈ before -> is_production self e -> deploy_steps_of e = []) ->
  is_production self env ->
  last (deploy_steps_of env) = Some step ->
  _extract_prod_deployment_time self release_data = lastModifiedOn step.
Proof.
  intros Henvs Hbefore Hp Hlast.
  rewrite extract_prod_deployment_time_environments, Henvs.
  rewrite (extract_prod_deployment_time_skip _ _ Hbefore).
  rewrite extract_prod_deployment_time_cons, Hlast.
  rewrite bool_decide_eq_true_2; [reflexivity | exact Hp].
Qed.

(** No environment with the production name has deploy steps: absent. *)
Lemma extract_prod_deployment_time_none release_data :
  (forall e, e ∈ environments_of release_data ->
             is_production self e -> deploy_steps_of e = []) ->
  _extract_prod_deployment_time self release_data = None.
Proof.
  intros H. rewrite extract_prod_deployment_time_environments.
  rewrite <- (app_nil_r (environments_of release_data)).
  rewrite (extract_prod_deployment_time_skip _ _ H). reflexivity.
Qed.

(** The environment with the production name, when only one has it. *)
Lemma extract_prod_deployment_time_unique envs env :
  env ∈ envs ->
  is_production self env ->
  (forall e, e ∈ envs -> is_production self e -> e = env) ->
  _extract_prod_deployment_time self (mkReleaseData None None None (Some envs))
  = match last (deploy_steps_of env) with
    | Some step => lastModifiedOn step
    | None => None
    end.
Proof.
  induction envs as [|e0 envs IH]; intros Hin Hp Huniq; [inversion Hin|].
  rewrite extract_prod_deployment_time_cons.
  case_bool_decide as Hp0.
  - rewrite (Huniq e0 (list_elem_of_here _ _) Hp0).
    destruct (last (deploy_steps_of env)) as [step|] eqn:Hlast; [reflexivity|].
    apply (extract_prod_deployment_time_none (mkReleaseData None None None (Some envs))).
    intros e He Hpe. rewrite (Huniq e (list_elem_of_further _ _ _ He) Hpe).
    apply last_None. exact Hlast.
  - apply IH; [|exact Hp|].
    + apply elem_of_cons in Hin as [->|Hin]; [contradiction | exact Hin].
    + intros e He. apply Huniq. apply list_elem_of_further. exact He.
Qed.

(** Either some environment with the production name has deploy steps, and
    then there is a first one, or none has. *)
Lemma first_production_environment (envs : list EnvironmentData) :
  (exists before env after step,
      envs = before ++ env :: after
      /\ is_production self env
      /\ last (deploy_steps_of env) = Some step
      /\ (forall e, e ∈ before -> is_production self e -> deploy_steps_of e = []))
  \/ (forall e, e ∈ envs -> is_production self e -> deploy_steps_of e = []).
Proof.
  induction envs as [|e0 envs IH].
  - right. intros e He. inversion He.
  - destruct (decide (is_production self e0)) as [Hp|Hp].
    + destruct (last (deploy_steps_of e0)) as [step|] eqn:Hlast.
      * left. exists [], e0, envs, step.
        split; [reflexivity|]. split; [exact Hp|]. split; [exact Hlast|].
        intros e He. inversion He.
      * apply last_None in Hlast.
        destruct IH as [(before & env & after & step & -> & Hpe & Hl & Hb)|Hnone].
        -- left. exists (e0 :: before), env, after, step.
           split; [reflexivity|]. split; [exact Hpe|]. split; [exact Hl|].
           intros e He Hpe'. apply elem_of_cons in He as [->|He];
             [exact Hlast | exact (Hb e He Hpe')].
        -- right. intros e He Hpe. apply elem_of_cons in He as [->|He];
             [exact Hlast | exact (Hnone e He Hpe)].
    + destruct IH as [(before & env & after & step & -> & Hpe & Hl & Hb)|Hnone].
      * left. exists (e0 :: before), env, after, step.
        split; [reflexivity|]. split; [exact Hpe|]. split; [exact Hl|].
        intros e He Hpe'. apply elem_of_cons in He as [->|He];
          [contradiction | exact (Hb e He Hpe')].
      * right. intros e He Hpe. apply elem_of_cons in He as [->|He];
          [contradiction | exact (Hnone e He Hpe)].
Qed.

(** C8 (amended). For every classic release record the timestamp is decided
    by the first environment, in the order of the record, that has the
    production name and at least one deploy step: it is the
    [lastModifiedOn] of the last deploy step of that environment, whatever
    the environments of that name before it, which have no deploy step. It
    is absent when there is no such environment: when no environment has
    the production name, or when every environment that has it has no
    deploy step. One of the two cases holds of every record. When a single
    environment has the production name, the timestamp is that of its last
    deploy step, and absent when it has none. *)
Theorem extract_prod_deployment_time_spec (release_data : ReleaseData) :
  (forall before env after step,
      environments_of release_data = before ++ env :: after ->
      is_production self env ->
      last (deploy_steps_of env) = Some step ->
      (forall e, e ∈ before -> is_production self e -> deploy_steps_of e = []) ->
      _extract_prod_deployment_time self release_data = lastModifiedOn step)
  /\ ((forall env,
         env ∈ environments_of release_data -> is_production self env ->
         deploy_steps_of env = []) ->
      _extract_prod_deployment_time self release_data = None)
  /\ ((exists before env after step,
          environments_of release_data = before ++ env :: after
          /\ is_production self env
          /\ last (deploy_steps_of env) = Some step
          /\ (forall e, e ∈ before -> is_production self e -> deploy_steps_of e = []))
      \/ (forall env,
            env ∈ environments_of release_data -> is_production self env ->
            deploy_steps_of env = []))
  /\ (forall env,
        env ∈ environments_of release_data ->
        is_production self env ->
        (forall e, e ∈ environments_of release_data -> is_production self e -> e = env) ->
        _extract_prod_deployment_time self release_data
        = match last (deploy_steps_of env) with
          | Some step => lastModifiedOn step
          | None => None
          end).
Proof.
  split; [|split; [|split]].
  - intros before env after step Henvs Hp Hlast Hbefore.
    apply (extract_prod_deployment_time_first release_data before env after step);
      assumption.
  - apply extract_prod_deployment_time_none.
  - apply first_production_environment.
  - intros env Hin Hp Huniq.
    rewrite extract_prod_deployment_time_environments.
    apply extract_prod_deployment_time_unique; assumption.
Qed.

End prod_deployment_time.

(** C8 at the record of the tests: [DEV] then [PROD], one deploy step each. *)
Lemma extract_prod_deployment_time_spec_witness :
  azure_devops_client._extract_prod_deployment_time gateway_fixtures.client
    gateway_fixtures.release_data_with_prod
  = Some (py "2025-11-06T11:39:14.667Z").
Proof.
  apply (proj1 (extract_prod_deployment_time_spec gateway_fixtures.client
                  gateway_fixtures.release_data_with_prod)
           [gateway_fixtures.dev_environment] gateway_fixtures.prod_environment []
           (azure_devops_client.mkDeployStepData (Some (py "2025-11-06T11:39:14.667Z")))).
  - reflexivity.
  - reflexivity.
  - reflexivity.
  - intros e He Hp. apply list_elem_of_singleton in He as ->. discriminate Hp.
Defined.

(** C8, the claim as it was written, at a record with two environments of
    the production name, the first without deploy steps: an environment
    that has the name has no deploy step, and the timestamp is not absent,
    it is that of the second environment. *)
Lemma extract_prod_deployment_time_second_environment :
  azure_devops_client._extract_prod_deployment_time gateway_fixtures.client
    gateway_fixtures.release_data_with_two_prod
  = Some (py "2025-11-06T11:00:00Z")
  /\ gateway_fixtures.prod_environment_without_steps
     ∈ environments_of gateway_fixtures.release_data_with_two_prod
  /\ is_production gateway_fixtures.client gateway_fixtures.prod_environment_without_steps
  /\ deploy_steps_of gateway_fixtures.prod_environment_without_steps = [].
Proof.
  split; [reflexivity|]. split; [apply list_elem_of_here|].
  split; reflexivity.
Qed.

(** ** Loops that append *)

(** A loop that appends one element per turn appends the image of the
    list it runs over. *)
Lemma fold_left_append {A B} (f : A -> B) (l : list A) (acc : list B) :
  fold_left (fun acc x => acc ++ [f x]) l acc = acc ++ map f l.
Proof.
  revert acc. induction l as [|x l IH]; intros acc; simpl.
  - rewrite app_nil_r. reflexivity.
  - rewrite IH, <- app_assoc. reflexivity.
Qed.

(** ** The two tiers of the release fetch *)

Section release_fetch.

Import azure_devops_client.

Variable urlopen_releases : str -> result (list ReleaseData).
Variable urlopen_builds : str -> result (list BuildData).
Variable self : AzureDevOpsClient.

Lemma releases_of_builds_no_timestamp builds :
  Forall (fun r => prod_deploy_time r = None) (map release_of_build builds).
Proof. induction builds; constructor; [reflexivity | assumption]. Qed.

(** The build tier never raises: it answers with the releases made of the
    builds, or with no release when its request raises. *)
Lemma get_releases_from_builds_total release_tag :
  _get_releases_from_builds urlopen_builds self release_tag
  = match urlopen_builds (builds_url self release_tag) with
    | Ok builds => Ok (map release_of_build builds)
    | Raise _ => Ok []
    end.
Proof.
  unfold _get_releases_from_builds, builds_url.
  destruct (urlopen_builds _) as [builds|e]; simpl; [|reflexivity].
  f_equal. apply (fold_left_append release_of_build builds []).
Qed.

(** C2. When the classic tier raises, [get_releases] answers what the build
    tier answers; that answer is never an exception: it is the list of the
    releases made of the builds, each with an absent timestamp and the build
    number as version, and the empty list when the request of the build tier
    raises. *)
Theorem get_releases_fallback (release_tag : str) (e : exn) :
  _get_classic_releases urlopen_releases self release_tag = Raise e ->
  get_releases urlopen_releases urlopen_builds self release_tag
  = _get_releases_from_builds urlopen_builds self release_tag
  /\ (forall builds,
        urlopen_builds (builds_url self release_tag) = Ok builds ->
        exists releases,
          get_releases urlopen_releases urlopen_builds self release_tag = Ok releases
          /\ Forall (fun r => prod_deploy_time r = None) releases
          /\ map version releases
             = map (fun build => default (py "Unknown") (buildNumber build)) builds)
  /\ (forall e',
        urlopen_builds (builds_url self release_tag) = Raise e' ->
        get_releases urlopen_releases urlopen_builds self release_tag = Ok []).
Proof.
  intros Hclassic.
  assert (Hget : get_releases urlopen_releases urlopen_builds self release_tag
                 = _get_releases_from_builds urlopen_builds self release_tag).
  { unfold get_releases. rewrite Hclassic. reflexivity. }
  split; [exact Hget|]. rewrite Hget, get_releases_from_builds_total. split.
  - intros builds Hb. rewrite Hb. exists (map release_of_build builds).
    split; [reflexivity|]. split.
    + apply releases_of_builds_no_timestamp.
    + rewrite map_map. reflexivity.
  - intros e' Hb. rewrite Hb. reflexivity.
Qed.

End release_fetch.

(** C2 for the tag [2025.006] when both tiers are down. *)
Lemma get_releases_fallback_witness :
  azure_devops_client.get_releases gateway_fixtures.unavailable
    gateway_fixtures.unavailable gateway_fixtures.client (py "2025.006")
  = Ok [].
Proof.
  apply (get_releases_fallback gateway_fixtures.unavailable gateway_fixtures.unavailable
           gateway_fixtures.client (py "2025.006") HTTPError eq_refl)
    with (e' := HTTPError).
  reflexivity.
Defined.

(** The classic tier down, the build tier answering with one build. *)
Example get_releases_from_one_build :
  azure_devops_client.get_releases gateway_fixtures.unavailable
    gateway_fixtures.one_build gateway_fixtures.client (py "2025.006")
  = Ok [mkRelease (py "auth-service") (py "20251106.1") None [] []].
Proof. reflexivity. Qed.

(** ** Contributors *)

Lemma contains_char (c : N) (s : str) : contains [c] s = true <-> c ∈ s.
Proof.
  induction s as [|x s IH]; simpl.
  - split; [discriminate | intros H; inversion H].
  - rewrite andb_true_r, orb_true_iff, IH, elem_of_cons, N.eqb_eq. reflexivity.
Qed.

(** The filter of the system accounts on a text, by the four patterns. *)
Lemma is_human_name_patterns (name : str) :
  is_human_name name
  <-> name <> []
      /\ existsb (fun pattern => contains pattern name)
           azure_devops_client.SYSTEM_ACCOUNT_PATTERNS = false.
Proof.
  unfold is_human_name, azure_devops_client.SYSTEM_ACCOUNT_PATTERNS.
  cbn [existsb]. rewrite !orb_false_iff.
  change (py "<") with [60]. change (py ">") with [62].
  split.
  - intros (Hne & H60 & H62 & H1 & H2).
    split; [exact Hne|]. split; [exact H1|]. split; [exact H2|].
    split; [|split; [|reflexivity]].
    + destruct (contains [60] name) eqn:E; [|reflexivity].
      apply contains_char in E. contradiction.
    + destruct (contains [62] name) eqn:E; [|reflexivity].
      apply contains_char in E. contradiction.
  - intros (Hne & H1 & H2 & H60 & H62 & _).
    split; [exact Hne|].
    split; [intros H; apply contains_char in H; congruence|].
    split; [intros H; apply contains_char in H; congruence|].
    split; assumption.
Qed.

Lemma py_any_ok {A} (test : A -> bool) (l : list A) :
  py_any (fun x => Ok (test x)) l = Ok (existsb test l).
Proof.
  induction l as [|x l IH]; [reflexivity|]. simpl.
  destruct (test x); [reflexivity | exact IH].
Qed.

(** [x in d] on the items of a dict. *)
Lemma existsb_key (x : str) (items : list (str * json)) :
  existsb (fun item => bool_decide (item.1 = x)) items = false
  <-> lookup_key x items = None.
Proof.
  induction items as [|[k v] items IH]; [simpl; tauto|].
  cbn [existsb lookup_key fst]. case_bool_decide as Hk; simpl.
  - split; discriminate.
  - exact IH.
Qed.

(** [x in l] on the elements of a list. *)
Lemma existsb_element (x : str) (items : list json) :
  existsb (fun item =>
             match item with
             | JString s => bool_decide (s = x)
             | _ => false
             end) items = false
  <-> JString x ∉ items.
Proof.
  induction items as [|item items IH].
  - simpl. split; [intros _ H; inversion H | reflexivity].
  - cbn [existsb]. rewrite orb_false_iff, IH, not_elem_of_cons.
    destruct item as [ | b | n | f | s | l | d ];
      try (split; [intros [_ H]; split; [discriminate | exact H]
                  | intros [_ H]; split; [reflexivity | exact H]]).
    case_bool_decide as Hs.
    + subst s. split; [intros [H _]; discriminate H | intros [H _]; congruence].
    + split; [intros [_ H]; split; [congruence | exact H]
             | intros [_ H]; split; [reflexivity | exact H]].
Qed.

(** No pattern of the system accounts holds: by element, and by key. *)
Lemma existsb_patterns_false (test : str -> bool) :
  existsb test azure_devops_client.SYSTEM_ACCOUNT_PATTERNS = false
  <-> forall pattern,
        pattern ∈ azure_devops_client.SYSTEM_ACCOUNT_PATTERNS -> test pattern = false.
Proof.
  split.
  - intros H pattern Hin. apply list_elem_of_In in Hin.
    destruct (test pattern) eqn:E; [|reflexivity].
    assert (Ht : existsb test azure_devops_client.SYSTEM_ACCOUNT_PATTERNS = true)
      by (apply existsb_exists; exists pattern; auto).
    congruence.
  - intros H. destruct (existsb test _) eqn:E; [|reflexivity].
    apply existsb_exists in E as [pattern [Hin Ht]].
    apply list_elem_of_In in Hin. rewrite (H pattern Hin) in Ht. discriminate.
Qed.

(** What the extraction reads as the display name. *)
Lemma display_value_functional (update d d' : json) :
  display_value update d -> display_value update d' -> d = d'.
Proof.
  intros [fields [-> H]] [fields' [E H']]. injection E as <-.
  destruct (lookup_key (py "revisedBy") fields) as [[ | | | | | |author]|];
    try contradiction; congruence.
Qed.

Lemma extract_contributor_outcome (update : json) :
  (exists d,
      display_value update d
      /\ azure_devops_client._extract_contributor update
         = if truth d then
             system_account ← azure_devops_client._is_system_account d;
             if negb system_account then Ok (Some d) else Ok None
           else Ok None)
  \/ ((forall d, ~ display_value update d)
      /\ azure_devops_client._extract_contributor update = Raise AttributeError).
Proof.
  unfold azure_devops_client._extract_contributor.
  destruct update as [ | b | n | f | s | l | fields ];
    try (right; split; [intros d [fields [E _]]; discriminate E | reflexivity]).
  cbn [get mbind result_bind].
  destruct (lookup_key (py "revisedBy") fields) as [revised_by|] eqn:Hr.
  - destruct revised_by as [ | b | n | f | s | l | author ];
      try (right; split;
           [ intros d [fields' [E H]]; injection E as <-; rewrite Hr in H; exact H
           | reflexivity ]).
    left. exists (default JNull (lookup_key (py "displayName") author)).
    split.
    + exists fields. split; [reflexivity|]. rewrite Hr. reflexivity.
    + cbn [get mbind result_bind].
      destruct (lookup_key (py "displayName") author); reflexivity.
  - left. exists JNull. split; [|reflexivity].
    exists fields. split; [reflexivity|]. rewrite Hr. reflexivity.
Qed.

(** What the extraction returns is a value that is true, and a text, a list
    or a dict: of the values [contributors.add] is called on, the texts are
    added and the others are not hashable. *)
Lemma extract_contributor_returns (update v : json) :
  azure_devops_client._extract_contributor update = Ok (Some v) ->
  truth v = true
  /\ ((exists name, v = JString name)
      \/ (exists items, v = JArray items)
      \/ (exists fields, v = JObject fields)).
Proof.
  intros H.
  destruct (extract_contributor_outcome update) as [[d [_ E]]|[_ E]];
    rewrite E in H; [|discriminate H].
  destruct (truth d) eqn:Ht; [|discriminate H].
  destruct (azure_devops_client._is_system_account d) as [[|]|e] eqn:Hs;
    cbn in H; try discriminate H.
  injection H as <-. split; [exact Ht|].
  destruct d as [ | b | n | f | s | items | fields ];
    try (cbn in Hs; discriminate Hs); eauto.
Qed.

(** A revision breaks the history exactly when its display name, if the
    extraction reads one, is unusable. *)
Lemma breaks_history_display_value (update d : json) :
  display_value update d -> (breaks_history update <-> unusable_name d).
Proof.
  intros Hd. split.
  - intros [H|[d' [Hd' Hu]]]; [destruct (H d Hd)|].
    rewrite (display_value_functional _ _ _ Hd Hd'). exact Hu.
  - intros Hu. right. exists d. auto.
Qed.

(** One turn of the loop over the revisions: it raises on a revision that
    breaks the history, adds the name of a person, and passes over any other
    revision. *)
Lemma add_contributor_of_outcome (contributors : gset str) (update : json) :
  (breaks_history update
   /\ exists e, azure_devops_client.add_contributor_of contributors update = Raise e)
  \/ (~ breaks_history update
      /\ exists name,
           display_name_of update name /\ is_human_name name
           /\ azure_devops_client.add_contributor_of contributors update
              = Ok ({[name]} ∪ contributors))
  \/ (~ breaks_history update
      /\ (forall name, display_name_of update name -> ~ is_human_name name)
      /\ azure_devops_client.add_contributor_of contributors update = Ok contributors).
Proof.
  unfold azure_devops_client.add_contributor_of.
  destruct (extract_contributor_outcome update) as [[d [Hd ->]]|[Hnone ->]];
    [|left; split; [left; exact Hnone | eexists; reflexivity]].
  rewrite (breaks_history_display_value update d Hd).
  assert (Hname : forall name, display_name_of update name -> d = JString name).
  { intros name Hn. exact (display_value_functional _ _ _ Hd Hn). }
  destruct (truth d) eqn:Ht.
  2:{ right. right. split; [intros [Ht' _]; congruence|].
      split; [|reflexivity].
      intros name Hn [Hne _]. rewrite (Hname name Hn) in Ht.
      destruct name; [congruence | discriminate Ht]. }
  destruct d as [ | b | n | f | s | items | fields ].
  - discriminate Ht.
  - left. split; [split; [exact Ht | exact I] | eexists; reflexivity].
  - left. split; [split; [exact Ht | exact I] | eexists; reflexivity].
  - left. split; [split; [exact Ht | exact I] | eexists; reflexivity].
  - right.
    change (azure_devops_client._is_system_account (JString s))
      with (py_any (fun pattern => Ok (contains pattern s))
              azure_devops_client.SYSTEM_ACCOUNT_PATTERNS).
    rewrite py_any_ok. cbn [mbind result_bind].
    assert (Hne : s <> []) by (destruct s; [discriminate Ht | discriminate]).
    destruct (existsb (fun pattern => contains pattern s)
                azure_devops_client.SYSTEM_ACCOUNT_PATTERNS) eqn:Hsys; cbn [negb].
    + right. split; [intros [_ []]|]. split; [|reflexivity].
      intros name Hn Hh. apply Hname in Hn. injection Hn as <-.
      apply is_human_name_patterns in Hh as [_ Hh]. congruence.
    + left. split; [intros [_ []]|]. exists s.
      split; [exact Hd|]. split; [apply is_human_name_patterns; auto|].
      cbn [mbind result_bind]. rewrite Ht. reflexivity.
  - change (azure_devops_client._is_system_account (JArray items))
      with (py_any
              (fun pattern =>
                 Ok (existsb (fun item =>
                                match item with
                                | JString s => bool_decide (s = pattern)
                                | _ => false
                                end) items))
              azure_devops_client.SYSTEM_ACCOUNT_PATTERNS).
    rewrite py_any_ok. cbn [mbind result_bind].
    destruct (existsb _ azure_devops_client.SYSTEM_ACCOUNT_PATTERNS) eqn:Hsys;
      cbn [negb].
    + right. right. split.
      * intros [_ Hu].
        assert (Hf : existsb
                       (fun pattern =>
                          existsb (fun item =>
                                     match item with
                                     | JString s => bool_decide (s = pattern)
                                     | _ => false
                                     end) items)
                       azure_devops_client.SYSTEM_ACCOUNT_PATTERNS = false).
        { apply existsb_patterns_false. intros pattern Hin.
          apply existsb_element. exact (Hu pattern Hin). }
        congruence.
      * split; [|reflexivity]. intros name Hn. apply Hname in Hn. discriminate Hn.
    + left. split.
      * split; [exact Ht|]. intros pattern Hin. apply existsb_element.
        revert pattern Hin. apply existsb_patterns_false. exact Hsys.
      * cbn [mbind result_bind]. rewrite Ht. eexists. reflexivity.
  - change (azure_devops_client._is_system_account (JObject fields))
      with (py_any
              (fun pattern =>
                 Ok (existsb (fun item => bool_decide (item.1 = pattern)) fields))
              azure_devops_client.SYSTEM_ACCOUNT_PATTERNS).
    rewrite py_any_ok. cbn [mbind result_bind].
    destruct (existsb _ azure_devops_client.SYSTEM_ACCOUNT_PATTERNS) eqn:Hsys;
      cbn [negb].
    + right. right. split.
      * intros [_ Hu].
        assert (Hf : existsb
                       (fun pattern =>
                          existsb (fun item => bool_decide (item.1 = pattern)) fields)
                       azure_devops_client.SYSTEM_ACCOUNT_PATTERNS = false).
        { apply existsb_patterns_false. intros pattern Hin.
          apply existsb_key. exact (Hu pattern Hin). }
        congruence.
      * split; [|reflexivity]. intros name Hn. apply Hname in Hn. discriminate Hn.
    + left. split.
      * split; [exact Ht|]. intros pattern Hin. apply existsb_key.
        revert pattern Hin. apply existsb_patterns_false. exact Hsys.
      * cbn [mbind result_bind]. rewrite Ht. eexists. reflexivity.
Qed.

(** A revision that breaks the history names no one. *)
Lemma breaks_history_no_name (update : json) (name : str) :
  breaks_history update -> ~ display_name_of update name.
Proof.
  intros Hb Hn. apply (breaks_history_display_value update _ Hn) in Hb.
  destruct Hb as [_ []].
Qed.

(** The loop over the revisions of one work item: the set it leaves holds,
    besides the names it had, the names collected from the history. *)
Lemma revisions_loop (updates : list json) (contributors : gset str) (name : str) :
  name ∈ (for_each_in_place azure_devops_client.add_contributor_of updates
            contributors).1
  <-> name ∈ contributors \/ collected_from updates name.
Proof.
  revert contributors.
  induction updates as [|update updates IH]; intros contributors.
  - simpl. split; [auto|]. intros [H|(i & u & Hi & _)]; [exact H|].
    rewrite lookup_nil in Hi. discriminate.
  - cbn [for_each_in_place].
    destruct (add_contributor_of_outcome contributors update)
      as [[Hb [e ->]]|[[Hb (name0 & Hn0 & Hh0 & ->)]|[Hb [Hno ->]]]].
    + cbn [fst]. split; [auto|]. intros [H|(i & u & Hi & Hbefore & Hn & Hh)]; [exact H|].
      exfalso. destruct i as [|i].
      * injection Hi as <-. exact (breaks_history_no_name _ _ Hb Hn).
      * cbn [take] in Hbefore. apply Forall_cons in Hbefore as [Hnb _]. exact (Hnb Hb).
    + rewrite IH, elem_of_union, elem_of_singleton. split.
      * intros [[->|H]|(i & u & Hi & Hbefore & Hn & Hh)].
        -- right. exists 0%nat, update. split; [reflexivity|].
           split; [apply List.Forall_nil|]. auto.
        -- left. exact H.
        -- right. exists (S i), u. split; [exact Hi|].
           split; [cbn [take]; apply List.Forall_cons; assumption|]. auto.
      * intros [H|(i & u & Hi & Hbefore & Hn & Hh)]; [auto|].
        destruct i as [|i].
        -- injection Hi as <-. left. left.
           pose proof (display_value_functional _ _ _ Hn Hn0) as E.
           injection E as ->. reflexivity.
        -- right. exists i, u. split; [exact Hi|].
           cbn [take] in Hbefore. apply Forall_cons in Hbefore as [_ Hbefore]. auto.
    + rewrite IH. split.
      * intros [H|(i & u & Hi & Hbefore & Hn & Hh)]; [auto|].
        right. exists (S i), u. split; [exact Hi|].
        split; [cbn [take]; apply List.Forall_cons; assumption|]. auto.
      * intros [H|(i & u & Hi & Hbefore & Hn & Hh)]; [auto|].
        destruct i as [|i].
        -- injection Hi as <-. destruct (Hno name Hn Hh).
        -- right. exists i, u. split; [exact Hi|].
           cbn [take] in Hbefore. apply Forall_cons in Hbefore as [_ Hbefore]. auto.
Qed.

Section contributors.

Import azure_devops_client.

Variable urlopen_updates : str -> result json.
Variable self : AzureDevOpsClient.

(** One turn of the loop over the identifiers never raises. *)
Lemma add_contributors_of_outcome (contributors : gset str) (work_item_id : Z) :
  exists contributors',
    add_contributors_of urlopen_updates self contributors work_item_id
    = Ok contributors'
    /\ forall name,
         name ∈ contributors'
         <-> name ∈ contributors
             \/ exists value updates,
                  urlopen_updates (updates_url self work_item_id) = Ok value
                  /\ iter value = Ok updates
                  /\ collected_from updates name.
Proof.
  unfold add_contributors_of, _fetch_work_item_updates. fold (updates_url self work_item_id).
  destruct (urlopen_updates (updates_url self work_item_id)) as [value|e] eqn:Hf;
    cbn [mbind result_bind].
  - destruct (iter value) as [updates|e] eqn:Hi.
    + pose proof (revisions_loop updates contributors) as Hloop.
      destruct (for_each_in_place add_contributor_of updates contributors)
        as [contributors' outcome].
      exists contributors'. split; [destruct outcome; reflexivity|].
      intros name. rewrite (Hloop name). cbn [fst]. split.
      * intros [H|H]; [auto|]. right. exists value, updates. auto.
      * intros [H|(value' & updates' & Hf' & Hi' & H)]; [auto|].
        injection Hf' as <-. rewrite Hi in Hi'. injection Hi' as <-. auto.
    + exists contributors. split; [reflexivity|]. intros name. split; [auto|].
      intros [H|(value' & updates' & Hf' & Hi' & _)]; [exact H|].
      injection Hf' as <-. congruence.
  - exists contributors. split; [reflexivity|]. intros name. split; [auto|].
    intros [H|(value' & updates' & Hf' & _)]; [exact H | discriminate Hf'].
Qed.

(** An identifier whose fetch raises leaves the set as it is. *)
Lemma add_contributors_of_raise (contributors : gset str) (work_item_id : Z) (e : exn) :
  urlopen_updates (updates_url self work_item_id) = Raise e ->
  add_contributors_of urlopen_updates self contributors work_item_id = Ok contributors.
Proof.
  intros H. unfold add_contributors_of, _fetch_work_item_updates.
  fold (updates_url self work_item_id). rewrite H. reflexivity.
Qed.

(** The loop over the identifiers. *)
Lemma for_each_contributors (work_item_ids : list Z) (contributors : gset str) :
  exists contributors',
    for_each (add_contributors_of urlopen_updates self) work_item_ids contributors
    = Ok contributors'
    /\ forall name,
         name ∈ contributors'
         <-> name ∈ contributors
             \/ exists work_item_id value updates,
                  work_item_id ∈ work_item_ids
                  /\ urlopen_updates (updates_url self work_item_id) = Ok value
                  /\ iter value = Ok updates
                  /\ collected_from updates name.
Proof.
  revert contributors.
  induction work_item_ids as [|i ids IH]; intros contributors; cbn [for_each].
  - exists contributors. split; [reflexivity|]. intros name. split; [auto|].
    intros [H|(j & _ & _ & Hj & _)]; [exact H | inversion Hj].
  - destruct (add_contributors_of_outcome contributors i) as [c1 [-> H1]].
    cbn [mbind result_bind].
    destruct (IH c1) as [c' [Hc' Hmem]].
    exists c'. split; [exact Hc'|]. intros name. rewrite Hmem, H1. clear Hmem H1 Hc'.
    split.
    + intros [[H|(value & updates & Hf & Hi & Hc)]|(j & value & updates & Hj & Hf & Hi & Hc)].
      * auto.
      * right. exists i, value, updates. split; [apply list_elem_of_here | auto].
      * right. exists j, value, updates.
        split; [apply list_elem_of_further; exact Hj | auto].
    + intros [H|(j & value & updates & Hj & Hf & Hi & Hc)]; [auto|].
      apply elem_of_cons in Hj as [->|Hj].
      * left. right. exists value, updates. auto.
      * right. exists j, value, updates. auto.
Qed.

Lemma for_each_contributors_app (ids1 ids2 : list Z) (contributors : gset str) :
  for_each (add_contributors_of urlopen_updates self) (ids1 ++ ids2) contributors
  = contributors' ← for_each (add_contributors_of urlopen_updates self) ids1 contributors;
    for_each (add_contributors_of urlopen_updates self) ids2 contributors'.
Proof.
  revert contributors. induction ids1 as [|i ids1 IH]; intros contributors.
  - reflexivity.
  - cbn [app for_each].
    destruct (add_contributors_of urlopen_updates self contributors i) as [c1|e];
      cbn [mbind result_bind]; [apply IH | reflexivity].
Qed.

(** The guard of line 85 changes nothing: the loop over no identifier
    returns the empty set. *)
Lemma get_work_item_contributors_loop (work_item_ids : list Z) :
  get_work_item_contributors urlopen_updates self work_item_ids
  = for_each (add_contributors_of urlopen_updates self) work_item_ids ∅.
Proof. destruct work_item_ids; reflexivity. Qed.

(** C6 (amended). For every list of identifiers [get_work_item_contributors]
    returns a set and raises nothing, whichever fetches raise. A name is in
    the set exactly when it is collected from the history of an identifier
    of the list whose fetch returned: a revision of that history names it
    (its [revisedBy] is an object with this text under [displayName]), it is
    the name of a person (not empty, no angle bracket, none of the two
    service names), and no revision before that one breaks the history (is
    not an object, has under [revisedBy] a value that is not an object such
    as [null], or has an unusable display name). An identifier whose fetch
    raises can be taken out of the list without changing the result: of
    three identifiers of which one raises, the result is that of the two
    others. Where no revision of a fetched history breaks it, the set is the
    union over the fetched identifiers of the names of persons their
    revisions name. *)
Theorem get_work_item_contributors_isolates_failures :
  (forall work_item_ids : list Z,
      exists contributors,
        get_work_item_contributors urlopen_updates self work_item_ids = Ok contributors
        /\ forall name,
             name ∈ contributors
             <-> exists work_item_id value updates,
                   work_item_id ∈ work_item_ids
                   /\ urlopen_updates (updates_url self work_item_id) = Ok value
                   /\ iter value = Ok updates
                   /\ collected_from updates name)
  /\ (forall (before after : list Z) (work_item_id : Z) (e : exn),
        urlopen_updates (updates_url self work_item_id) = Raise e ->
        get_work_item_contributors urlopen_updates self
          (before ++ work_item_id :: after)
        = get_work_item_contributors urlopen_updates self (before ++ after))
  /\ (forall work_item_ids : list Z,
        (forall work_item_id value updates,
            work_item_id ∈ work_item_ids ->
            urlopen_updates (updates_url self work_item_id) = Ok value ->
            iter value = Ok updates ->
            Forall (fun update => ~ breaks_history update) updates) ->
        exists contributors,
          get_work_item_contributors urlopen_updates self work_item_ids
          = Ok contributors
          /\ forall name,
               name ∈ contributors
               <-> exists work_item_id value updates update,
                     work_item_id ∈ work_item_ids
                     /\ urlopen_updates (updates_url self work_item_id) = Ok value
                     /\ iter value = Ok updates
                     /\ update ∈ updates
                     /\ display_name_of update name
                     /\ is_human_name name).
Proof.
  assert (Hall : forall work_item_ids : list Z,
             exists contributors,
               get_work_item_contributors urlopen_updates self work_item_ids
               = Ok contributors
               /\ forall name,
                    name ∈ contributors
                    <-> exists work_item_id value updates,
                          work_item_id ∈ work_item_ids
                          /\ urlopen_updates (updates_url self work_item_id) = Ok value
                          /\ iter value = Ok updates
                          /\ collected_from updates name).
  { intros ids. rewrite get_work_item_contributors_loop.
    destruct (for_each_contributors ids ∅) as [c' [Hc' Hmem]].
    exists c'. split; [exact Hc'|]. intros name. rewrite Hmem. split.
    - intros [H|H]; [set_solver | exact H].
    - auto. }
  split; [exact Hall|]. split.
  - intros before after i e Hraise.
    rewrite !get_work_item_contributors_loop, !for_each_contributors_app.
    destruct (for_each (add_contributors_of urlopen_updates self) before ∅)
      as [c1|e1]; cbn [mbind result_bind for_each]; [|reflexivity].
    rewrite (add_contributors_of_raise c1 i e Hraise). reflexivity.
  - intros ids Hwell. destruct (Hall ids) as [c' [Hc' Hmem]].
    exists c'. split; [exact Hc'|]. intros name. rewrite Hmem. split.
    + intros (i & value & updates & Hi & Hf & Hit & k & update & Hk & _ & Hn & Hh).
      exists i, value, updates, update.
      repeat (split; [assumption|]). split; [|auto].
      apply list_elem_of_lookup. exists k. exact Hk.
    + intros (i & value & updates & update & Hi & Hf & Hit & Hu & Hn & Hh).
      exists i, value, updates. repeat (split; [assumption|]).
      apply list_elem_of_lookup in Hu as [k Hk].
      exists k, update. split; [exact Hk|]. split; [|auto].
      apply Forall_take. exact (Hwell i value updates Hi Hf Hit).
Qed.

End contributors.

(** C6 for the identifiers 1, 2 and 3, the fetch for 2 failing: the result
    is that of 1 and 3, Alice and Bob, the build service left out. *)
Lemma get_work_item_contributors_witness :
  azure_devops_client.get_work_item_contributors gateway_fixtures.updates_of_1_and_3
    gateway_fixtures.client [1; 2; 3]%Z
  = azure_devops_client.get_work_item_contributors gateway_fixtures.updates_of_1_and_3
      gateway_fixtures.client [1; 3]%Z
  /\ azure_devops_client.get_work_item_contributors gateway_fixtures.updates_of_1_and_3
       gateway_fixtures.client [1; 3]%Z
     = Ok {[py "Alice Developer"; py "Bob Engineer"]}.
Proof.
  split.
  - apply (proj1 (proj2 (get_work_item_contributors_isolates_failures
                           gateway_fixtures.updates_of_1_and_3 gateway_fixtures.client))
             [1%Z] [3%Z] 2%Z URLError).
    reflexivity.
  - vm_compute. reflexivity.
Defined.

(** C6, the claim as it was written, at a history whose second revision has
    [null] under [revisedBy]: the fetch of the identifier succeeds and its
    third revision names Bob, the name of a person, yet the set returned
    holds Alice only. The extraction raises on the second revision, inside
    the [try] block of the identifier, and the revisions after it are not
    read. *)
Lemma contributors_lost_after_null_reviser :
  azure_devops_client.get_work_item_contributors
    gateway_fixtures.history_with_null_reviser gateway_fixtures.client [1%Z]
  = Ok {[py "Alice Developer"]}
  /\ (exists value updates update,
         gateway_fixtures.history_with_null_reviser
           (updates_url gateway_fixtures.client 1) = Ok value
         /\ iter value = Ok updates
         /\ update ∈ updates
         /\ display_name_of update (py "Bob Engineer")
         /\ is_human_name (py "Bob Engineer"))
  /\ py "Bob Engineer" ∉ ({[py "Alice Developer"]} : gset str).
Proof.
  split; [vm_compute; reflexivity|]. split.
  - eexists _, _, (gateway_fixtures.revision_by (py "Bob Engineer")).
    split; [reflexivity|]. split; [reflexivity|].
    split; [apply list_elem_of_further, list_elem_of_further, list_elem_of_here|].
    split.
    + eexists. split; [reflexivity|]. reflexivity.
    + apply is_human_name_patterns. split; [discriminate | vm_compute; reflexivity].
  - intros H. apply elem_of_singleton in H. discriminate H.
Qed.

(** ** Sorting *)

Section sorted_facts.

Context {A : Type} (leb : A -> A -> bool).

Lemma insert_sorted_perm x l : insert_sorted leb x l ≡ₚ x :: l.
Proof.
  induction l as [|y l IH]; simpl; [reflexivity|].
  destruct (leb x y); [reflexivity|].
  rewrite IH. apply Permutation_swap.
Qed.

Lemma sorted_perm l : sorted leb l ≡ₚ l.
Proof.
  induction l as [|x l IH]; simpl; [reflexivity|].
  rewrite insert_sorted_perm, IH. reflexivity.
Qed.

Lemma sorted_elem_of l x : x ∈ sorted leb l <-> x ∈ l.
Proof. rewrite (sorted_perm l). reflexivity. Qed.

Lemma sorted_nil_inv l : sorted leb l = [] -> l = [].
Proof.
  intros H. apply Permutation_nil_r. rewrite <- H. symmetry. apply sorted_perm.
Qed.

Hypothesis leb_total : forall a b, leb a b = true \/ leb b a = true.
Hypothesis leb_trans : forall a b c, leb a b = true -> leb b c = true -> leb a c = true.

Lemma insert_sorted_sorted x l :
  StronglySorted (fun a b => leb a b = true) l ->
  StronglySorted (fun a b => leb a b = true) (insert_sorted leb x l).
Proof.
  induction 1 as [|y l Hl IH Hy]; simpl.
  - repeat constructor.
  - destruct (leb x y) eqn:Hxy.
    + constructor; [constructor; assumption|].
      constructor; [exact Hxy|].
      eapply Forall_impl; [exact Hy|]. intros z Hz. eapply leb_trans; eassumption.
    + constructor; [exact IH|].
      rewrite (insert_sorted_perm x l). constructor; [|exact Hy].
      destruct (leb_total x y) as [H|H]; [congruence | exact H].
Qed.

Lemma sorted_sorted l : StronglySorted (fun a b => leb a b = true) (sorted leb l).
Proof.
  induction l as [|x l IH]; simpl; [constructor|].
  apply insert_sorted_sorted. exact IH.
Qed.

End sorted_facts.

(** ** Grouping by type *)

Lemma group_work_items_by_type_lookup (work_items : list WorkItem) (t : str) :
  _group_work_items_by_type work_items !! t
  = match filter (fun item => type item = t) work_items with
    | [] => None
    | items => Some items
    end.
Proof.
  unfold _group_work_items_by_type.
  rewrite <- (rev_involutive work_items).
  induction (rev work_items) as [|item l IH]; [reflexivity|].
  simpl rev. rewrite fold_left_app, filter_app. simpl fold_left.
  destruct (decide (type item = t)) as [<-|Hne].
  - rewrite lookup_insert_eq, IH.
    rewrite filter_cons_True by reflexivity. rewrite filter_nil.
    destruct (filter _ (rev l)); reflexivity.
  - rewrite lookup_insert_ne by exact Hne. rewrite IH.
    rewrite filter_cons_False by exact Hne. rewrite filter_nil, app_nil_r.
    reflexivity.
Qed.

Lemma group_work_items_by_type_dom (work_items : list WorkItem) (t : str) :
  t ∈ dom (_group_work_items_by_type work_items)
  <-> exists item, item ∈ work_items /\ type item = t.
Proof.
  rewrite elem_of_dom, group_work_items_by_type_lookup. split.
  - intros [items Hi].
    destruct (filter _ work_items) as [|item items'] eqn:Hf; [discriminate|].
    assert (Hin : item ∈ filter (fun item => type item = t) work_items).
    { rewrite Hf. apply list_elem_of_here. }
    apply list_elem_of_filter in Hin as [Ht Hin]. exists item. auto.
  - intros [item [Hin Ht]].
    assert (Hf : item ∈ filter (fun item => type item = t) work_items).
    { apply list_elem_of_filter. auto. }
    destruct (filter _ work_items); [inversion Hf | eexists; reflexivity].
Qed.

(** ** The changelog *)

Lemma add_work_items_for_type_lines self lines work_type items :
  _add_work_items_for_type self lines work_type items
  = lines ++ [group_heading work_type items; []]
    ++ map (item_line self) (sorted id_leb items) ++ [[]].
Proof.
  unfold _add_work_items_for_type.
  rewrite (fold_left_append (item_line self)).
  rewrite <- !app_assoc. reflexivity.
Qed.

Lemma not_group_heading_nil : ~ is_group_heading [].
Proof. intros H. exact H. Qed.

Lemma filter_group_heading_item_lines self (items : list WorkItem) :
  filter (fun line => is_group_heading line) (map (item_line self) items) = [].
Proof.
  induction items as [|item items IH]; [reflexivity|].
  simpl map. rewrite filter_cons_False; [exact IH|].
  unfold is_group_heading, item_line. simpl. auto.
Qed.

Lemma filter_group_heading_add self lines work_type items :
  filter (fun line => is_group_heading line)
    (_add_work_items_for_type self lines work_type items)
  = filter (fun line => is_group_heading line) lines ++ [group_heading work_type items].
Proof.
  rewrite add_work_items_for_type_lines, !filter_app.
  rewrite filter_group_heading_item_lines. simpl app.
  rewrite filter_cons_False by exact not_group_heading_nil.
  rewrite filter_nil. reflexivity.
Qed.

Lemma group_lookup_default (work_items : list WorkItem) (t : str) :
  default [] (_group_work_items_by_type work_items !! t) = items_of_type work_items t.
Proof.
  rewrite group_work_items_by_type_lookup. unfold items_of_type.
  destruct (filter _ work_items); reflexivity.
Qed.

Lemma group_lookup_present (work_items : list WorkItem) (t : str) :
  t ∈ types_of work_items ->
  _group_work_items_by_type work_items !! t = Some (items_of_type work_items t).
Proof.
  intros Ht. apply list_elem_of_fmap in Ht as [item [-> Hin]].
  rewrite group_work_items_by_type_lookup. unfold items_of_type.
  assert (Hf : item ∈ filter (fun i => type i = type item) work_items).
  { apply list_elem_of_filter. auto. }
  destruct (filter _ work_items); [inversion Hf | reflexivity].
Qed.

Lemma group_lookup_missing (work_items : list WorkItem) (t : str) :
  t ∉ types_of work_items -> _group_work_items_by_type work_items !! t = None.
Proof.
  intros Ht. rewrite group_work_items_by_type_lookup.
  destruct (filter _ work_items) as [|item items] eqn:Hf; [reflexivity|].
  exfalso. apply Ht.
  assert (Hin : item ∈ filter (fun i => type i = t) work_items).
  { rewrite Hf. apply list_elem_of_here. }
  apply list_elem_of_filter in Hin as [<- Hin].
  apply list_elem_of_fmap. exists item. auto.
Qed.

Lemma types_of_dom (work_items : list WorkItem) (t : str) :
  t ∈ dom (_group_work_items_by_type work_items) <-> t ∈ types_of work_items.
Proof.
  rewrite group_work_items_by_type_dom. unfold types_of.
  rewrite list_elem_of_fmap. split; intros [item [H1 H2]]; exists item; auto.
Qed.

(** The loop over the known types (lines 196 to 198). *)
Lemma changelog_known_loop self (work_items : list WorkItem) (ts : list str) lines :
  filter (fun line => is_group_heading line)
    (fold_left
       (fun lines work_type =>
          match _group_work_items_by_type work_items !! work_type with
          | Some items => _add_work_items_for_type self lines work_type items
          | None => lines
          end)
       ts lines)
  = filter (fun line => is_group_heading line) lines
    ++ map (fun t => group_heading t (items_of_type work_items t))
         (filter (fun t => t ∈ types_of work_items) ts).
Proof.
  revert lines. induction ts as [|t ts IH]; intros lines; simpl fold_left.
  - rewrite filter_nil, app_nil_r. reflexivity.
  - rewrite IH. destruct (decide (t ∈ types_of work_items)) as [Ht|Ht].
    + rewrite (group_lookup_present _ _ Ht), filter_group_heading_add.
      rewrite filter_cons_True by exact Ht. rewrite <- app_assoc. reflexivity.
    + rewrite (group_lookup_missing _ _ Ht).
      rewrite filter_cons_False by exact Ht. reflexivity.
Qed.

(** The loop over the sorted keys (lines 200 to 202). *)
Lemma changelog_other_loop self (work_items : list WorkItem) (ts : list str) lines :
  filter (fun line => is_group_heading line)
    (fold_left
       (fun lines work_type =>
          if bool_decide (work_type ∈ WORK_ITEM_TYPE_ORDER) then lines
          else _add_work_items_for_type self lines work_type
                 (default [] (_group_work_items_by_type work_items !! work_type)))
       ts lines)
  = filter (fun line => is_group_heading line) lines
    ++ map (fun t => group_heading t (items_of_type work_items t))
         (filter (fun t => t ∉ WORK_ITEM_TYPE_ORDER) ts).
Proof.
  revert lines. induction ts as [|t ts IH]; intros lines; simpl fold_left.
  - rewrite filter_nil, app_nil_r. reflexivity.
  - rewrite IH. case_bool_decide as Ht.
    + rewrite filter_cons_False by (intros H; exact (H Ht)). reflexivity.
    + rewrite group_lookup_default, filter_group_heading_add.
      rewrite filter_cons_True by exact Ht. rewrite <- app_assoc. reflexivity.
Qed.

Lemma StronglySorted_filter {A} (R : A -> A -> Prop) (P : A -> Prop)
  `{forall x, Decision (P x)} (l : list A) :
  StronglySorted R l -> StronglySorted R (filter P l).
Proof.
  induction 1 as [|x l Hl IH Hx]; [constructor|].
  destruct (decide (P x)) as [Hp|Hp].
  - rewrite filter_cons_True by exact Hp. constructor; [exact IH|].
    apply Forall_forall. intros y Hy. apply list_elem_of_filter in Hy as [_ Hy].
    rewrite Forall_forall in Hx. apply Hx. exact Hy.
  - rewrite filter_cons_False by exact Hp. exact IH.
Qed.

(** Sorted keys are strictly ascending: a [dict] has no key twice. *)
Lemma sorted_keys_ascending {V} (grouped : gmap str V) :
  StronglySorted (fun a b => str_ltb a b = true) (sorted_keys grouped).
Proof.
  unfold sorted_keys.
  assert (Hnd : NoDup (sorted str_leb (elements (dom grouped)))).
  { rewrite (sorted_perm str_leb). apply NoDup_elements. }
  pose proof (sorted_sorted str_leb str_leb_total str_leb_trans
                (elements (dom grouped))) as Hs.
  induction Hs as [|x l Hl IH Hx]; [constructor|].
  apply NoDup_cons in Hnd as [Hnotin Hnd].
  constructor; [apply IH; exact Hnd|].
  apply Forall_forall. intros y Hy. rewrite Forall_forall in Hx.
  specialize (Hx y Hy). unfold str_leb in Hx. apply negb_true_iff in Hx.
  destruct (str_ltb_trichotomy x y) as [H|[H|H]]; [exact H | | congruence].
  subst y. contradiction.
Qed.

(** C3. The headings of the groups of the changelog, read off the lines in
    their order, are those of the known types that occur among the work
    items, in the order Bug, Epic, Feature, User Story, Task, followed by
    those of the list [unknown]: the types that occur and are not known,
    strictly ascending in the lexical order. So every known type stands
    before every other type. *)
Theorem changelog_group_order
  (self : MarkdownGenerator) (lines : list str) (work_items : list WorkItem) :
  exists unknown : list str,
    (forall t, t ∈ unknown <-> t ∈ types_of work_items /\ t ∉ WORK_ITEM_TYPE_ORDER)
    /\ StronglySorted (fun a b => str_ltb a b = true) unknown
    /\ filter (fun line => is_group_heading line)
         (_add_changelog_section self lines (_group_work_items_by_type work_items))
       = filter (fun line => is_group_heading line) lines
         ++ map (fun t => group_heading t (items_of_type work_items t))
              (filter (fun t => t ∈ types_of work_items)
                 [py "Bug"; py "Epic"; py "Feature"; py "User Story"; py "Task"]
               ++ unknown).
Proof.
  exists (filter (fun t => t ∉ WORK_ITEM_TYPE_ORDER)
            (sorted_keys (_group_work_items_by_type work_items))).
  split; [|split].
  - intros t. rewrite list_elem_of_filter. unfold sorted_keys.
    rewrite sorted_elem_of, elem_of_elements, types_of_dom. tauto.
  - apply StronglySorted_filter, sorted_keys_ascending.
  - unfold _add_changelog_section.
    rewrite changelog_other_loop, changelog_known_loop.
    rewrite filter_app. rewrite map_app, <- !app_assoc.
    assert (Hhead : filter (fun line => is_group_heading line) [CHANGELOG_HEADING; []]
                    = []) by reflexivity.
    rewrite Hhead. reflexivity.
Qed.

(** ** The sections of the report *)

Lemma filter_fold_left_inert {A} (P : str -> Prop) `{forall x, Decision (P x)}
  (g : list str -> A -> list str) :
  (forall lines x, filter P (g lines x) = filter P lines) ->
  forall l lines, filter P (fold_left g l lines) = filter P lines.
Proof.
  intros Hg l. induction l as [|x l IH]; intros lines; simpl; [reflexivity|].
  rewrite IH. apply Hg.
Qed.

Lemma filter_map_none {A} (P : str -> Prop) `{forall x, Decision (P x)}
  (f : A -> str) (l : list A) :
  (forall x, ~ P (f x)) -> filter P (map f l) = [].
Proof.
  intros Hf. induction l as [|x l IH]; [reflexivity|].
  simpl map. rewrite filter_cons_False by apply Hf. exact IH.
Qed.

Lemma add_binaries_section_lines self lines releases :
  _add_binaries_section self lines releases
  = match releases with
    | [] => lines
    | _ => lines ++ binaries_block self releases
    end.
Proof.
  destruct releases as [|r rs]; [reflexivity|].
  unfold _add_binaries_section, binaries_block.
  etransitivity.
  { apply (f_equal (fun l => l ++ [[]])). apply (fold_left_append (release_row self)). }
  rewrite <- !app_assoc. reflexivity.
Qed.

Lemma add_contributors_section_lines (lines : list str) (contributors : gset str) :
  _add_contributors_section lines contributors
  = if bool_decide (contributors = ∅) then lines
    else lines ++ [CONTRIBUTORS_HEADING; []]
         ++ map (fun c => py "- " ++ c) (sorted str_leb (elements contributors))
         ++ [[]].
Proof.
  unfold _add_contributors_section. case_bool_decide; [reflexivity|].
  rewrite (fold_left_append (fun c => py "- " ++ c)), <- !app_assoc. reflexivity.
Qed.

Lemma structural_binaries_block self releases :
  filter (fun line => is_structural line) (binaries_block self releases)
  = [BINARIES_HEADING; py "| Microservice | Version |"; py "|--------------|---------|"]
    ++ map (release_row self)
         (sorted (fun a b => str_leb (microservice a) (microservice b)) releases).
Proof.
  unfold binaries_block. rewrite !filter_app.
  assert (Hrows : forall l, filter (fun line => is_structural line)
                              (map (release_row self) l) = map (release_row self) l).
  { induction l as [|r l IH]; [reflexivity|]. simpl map.
    rewrite filter_cons_True by (unfold is_structural, release_row; simpl; auto).
    rewrite IH. reflexivity. }
  rewrite Hrows.
  assert (Hend : filter (fun line => is_structural line) [[]] = []) by reflexivity.
  rewrite Hend, app_nil_r. reflexivity.
Qed.

Lemma structural_add_work_items_for_type self lines work_type items :
  filter (fun line => is_structural line)
    (_add_work_items_for_type self lines work_type items)
  = filter (fun line => is_structural line) lines.
Proof.
  rewrite add_work_items_for_type_lines, !filter_app.
  rewrite (filter_map_none _ (item_line self))
    by (intros x; unfold is_structural, item_line; simpl; auto).
  assert (Hhead : filter (fun line => is_structural line)
                    [group_heading work_type items; []] = []).
  { rewrite filter_cons_False by (unfold is_structural, group_heading; simpl; auto).
    reflexivity. }
  assert (Hend : filter (fun line => is_structural line) [[]] = []) by reflexivity.
  rewrite Hhead, Hend, !app_nil_r. reflexivity.
Qed.

Lemma structural_add_changelog_section (self : MarkdownGenerator) (lines : list str)
  (grouped : gmap str (list WorkItem)) :
  filter (fun line => is_structural line) (_add_changelog_section self lines grouped)
  = filter (fun line => is_structural line) lines ++ [CHANGELOG_HEADING].
Proof.
  unfold _add_changelog_section.
  rewrite !filter_fold_left_inert.
  - rewrite filter_app. reflexivity.
  - intros l t. destruct (grouped !! t); [|reflexivity].
    apply structural_add_work_items_for_type.
  - intros l t. case_bool_decide; [reflexivity|].
    apply structural_add_work_items_for_type.
Qed.

Lemma structural_add_breakdown_by_type (lines : list str)
  (grouped : gmap str (list WorkItem)) :
  filter (fun line => is_structural line) (_add_breakdown_by_type lines grouped)
  = filter (fun line => is_structural line) lines.
Proof.
  unfold _add_breakdown_by_type.
  rewrite filter_app, !filter_fold_left_inert.
  - rewrite filter_app.
    assert (H1 : filter (fun line => is_structural line)
                   [py "**Breakdown by Type:**"; []] = []) by reflexivity.
    assert (H2 : filter (fun line => is_structural line) [[]] = []) by reflexivity.
    rewrite H1, H2, !app_nil_r. reflexivity.
  - intros l t. destruct (grouped !! t); [|reflexivity].
    rewrite filter_app.
    rewrite (filter_cons_False _ _ []) by (unfold is_structural; simpl; auto).
    rewrite filter_nil, app_nil_r. reflexivity.
  - intros l t. case_bool_decide; [reflexivity|].
    rewrite filter_app.
    rewrite (filter_cons_False _ _ []) by (unfold is_structural; simpl; auto).
    rewrite filter_nil, app_nil_r. reflexivity.
Qed.

Lemma structural_add_binaries_section self lines releases :
  filter (fun line => is_structural line) (_add_binaries_section self lines releases)
  = filter (fun line => is_structural line) lines
    ++ match releases with
       | [] => []
       | _ => [BINARIES_HEADING; py "| Microservice | Version |";
               py "|--------------|---------|"]
              ++ map (release_row self)
                   (sorted (fun a b => str_leb (microservice a) (microservice b))
                      releases)
       end.
Proof.
  rewrite add_binaries_section_lines.
  destruct releases as [|r rs]; [rewrite app_nil_r; reflexivity|].
  rewrite filter_app, structural_binaries_block. reflexivity.
Qed.

Lemma structural_add_contributors_section (lines : list str) (contributors : gset str) :
  filter (fun line => is_structural line) (_add_contributors_section lines contributors)
  = filter (fun line => is_structural line) lines
    ++ if bool_decide (contributors = ∅) then [] else [CONTRIBUTORS_HEADING].
Proof.
  rewrite add_contributors_section_lines.
  case_bool_decide; [rewrite app_nil_r; reflexivity|].
  rewrite !filter_app.
  rewrite (filter_map_none _ (fun c => py "- " ++ c))
    by (intros x; unfold is_structural; simpl; auto).
  assert (Hend : filter (fun line => is_structural line) [[]] = []) by reflexivity.
  rewrite Hend, !app_nil_r. reflexivity.
Qed.

Lemma add_deployment_instruction_item_ok self (lines : list str) (item : WorkItem) :
  truthy (notes item) = true ->
  exists lines',
    _add_deployment_instruction_item self lines item = Ok lines'
    /\ filter (fun line => is_structural line) lines'
       = filter (fun line => is_structural line) lines.
Proof.
  intros Ht. unfold _add_deployment_instruction_item.
  destruct (notes item) as [note|]; [|discriminate].
  eexists. split; [reflexivity|].
  rewrite (fold_left_append (fun note_item => py "  - " ++ note_item)).
  rewrite !filter_app.
  rewrite (filter_map_none _ (fun note_item => py "  - " ++ note_item))
    by (intros x; unfold is_structural; simpl; auto).
  rewrite (filter_cons_False _ _ []) by (unfold is_structural; simpl; auto).
  assert (Hend : filter (fun line => is_structural line) [[]] = []) by reflexivity.
  rewrite Hend, filter_nil, !app_nil_r. reflexivity.
Qed.

Lemma for_each_deployment_items_ok self (items : list WorkItem) (lines : list str) :
  Forall (fun item => truthy (notes item) = true) items ->
  exists lines',
    for_each (_add_deployment_instruction_item self) items lines = Ok lines'
    /\ filter (fun line => is_structural line) lines'
       = filter (fun line => is_structural line) lines.
Proof.
  intros Hall. revert lines.
  induction Hall as [|item items Hitem _ IH]; intros lines; simpl.
  - exists lines. auto.
  - destruct (add_deployment_instruction_item_ok self lines item Hitem)
      as [lines1 [H1 F1]].
    rewrite H1. simpl. destruct (IH lines1) as [lines2 [H2 F2]].
    exists lines2. split; [exact H2 | congruence].
Qed.

Lemma filter_items_with_notes_truthy (work_items : list WorkItem) :
  Forall (fun item => truthy (notes item) = true) (_filter_items_with_notes work_items).
Proof.
  apply Forall_forall. intros item Hin. unfold _filter_items_with_notes in Hin.
  apply sorted_elem_of, list_elem_of_filter in Hin as [Ht _]. exact Ht.
Qed.

Lemma has_notes_filter (work_items : list WorkItem) :
  has_notes work_items <-> _filter_items_with_notes work_items <> [].
Proof.
  unfold has_notes, _filter_items_with_notes. split.
  - intros [item [note [Hin [Hn Hne]]]] Hnil.
    apply sorted_nil_inv in Hnil.
    assert (Hf : item ∈ filter (fun i => truthy (notes i) = true) work_items).
    { apply list_elem_of_filter. split; [|exact Hin].
      apply truthy_true_iff. exists note. auto. }
    rewrite Hnil in Hf. inversion Hf.
  - intros Hne.
    destruct (sorted _ (filter _ work_items)) as [|item items] eqn:Hs; [congruence|].
    assert (Hin : item ∈ sorted (fun a b => Z.leb (id a) (id b))
                    (filter (fun i => truthy (notes i) = true) work_items)).
    { rewrite Hs. apply list_elem_of_here. }
    apply sorted_elem_of, list_elem_of_filter in Hin as [Ht Hin].
    apply truthy_true_iff in Ht as [note [Hn Hnn]]. exists item, note. auto.
Qed.

(** The Deployment Instructions section raises nothing: its loop runs over
    items whose notes passed the truth test. *)
Lemma add_deployment_instructions_section_ok self (lines : list str)
  (work_items : list WorkItem) :
  exists lines',
    _add_deployment_instructions_section self lines work_items = Ok lines'
    /\ filter (fun line => is_structural line) lines'
       = filter (fun line => is_structural line) lines
         ++ match _filter_items_with_notes work_items with
            | [] => []
            | _ => [DEPLOYMENT_HEADING]
            end.
Proof.
  unfold _add_deployment_instructions_section.
  pose proof (filter_items_with_notes_truthy work_items) as Hall.
  destruct (_filter_items_with_notes work_items) as [|item items].
  - exists lines. rewrite app_nil_r. auto.
  - destruct (for_each_deployment_items_ok self (item :: items)
                (lines ++ [DEPLOYMENT_HEADING; []]) Hall) as [lines' [H F]].
    exists lines'. split; [exact H|]. rewrite F, filter_app. reflexivity.
Qed.

Section report_structure.

Variable fromisoformat : str -> result datetime.

Lemma add_summary_section_outcome (lines : list str) (work_items : list WorkItem)
  (releases : list Release) (grouped : gmap str (list WorkItem)) :
  match _extract_release_date fromisoformat releases with
  | Ok _ =>
      exists lines',
        _add_summary_section fromisoformat lines work_items releases grouped = Ok lines'
        /\ filter (fun line => is_structural line) lines'
           = filter (fun line => is_structural line) lines ++ [SUMMARY_HEADING]
  | Raise e =>
      _add_summary_section fromisoformat lines work_items releases grouped = Raise e
  end.
Proof.
  unfold _add_summary_section.
  destruct (_extract_release_date fromisoformat releases) as [date|e];
    [|reflexivity].
  eexists. split; [reflexivity|].
  rewrite structural_add_breakdown_by_type, !filter_app.
  rewrite (filter_cons_False _ (py "**Release Date:** " ++ date))
    by (unfold is_structural; simpl; auto).
  rewrite (filter_cons_False _ (py "**Iteration:** " ++ _))
    by (unfold is_structural; simpl; auto).
  rewrite (filter_cons_False _ (py "**Total Work Items:** " ++ _))
    by (unfold is_structural; simpl; auto).
  rewrite (filter_cons_False _ (py "**Microservices Released:** " ++ _))
    by (unfold is_structural; simpl; auto).
  assert (Hend : filter (fun line => is_structural line) [[]] = []) by reflexivity.
  rewrite !Hend, !app_nil_r. reflexivity.
Qed.

(** The structure of the report. When the release date is extracted, the
    generator returns its lines, and the section headings and table lines
    among them are, in this order: the Summary heading; the heading, the
    two opening lines and the rows of the Binaries table when there is a
    release; the Changelog heading; the Deployment Instructions heading when
    some notes pass the truth test; the Contributors heading when there is
    a contributor. When the extraction raises, so does the generator. *)
Lemma generate_lines_outcome (self : MarkdownGenerator) (release_number : str)
  (work_items : list WorkItem)
  (releases : list Release) (contributors : gset str) :
  match _extract_release_date fromisoformat releases with
  | Ok _ =>
      exists lines,
        generate_lines fromisoformat self release_number work_items releases contributors
        = Ok lines
        /\ filter (fun line => is_structural line) lines
           = [SUMMARY_HEADING]
             ++ match releases with
                | [] => []
                | _ => [BINARIES_HEADING; py "| Microservice | Version |";
                        py "|--------------|---------|"]
                       ++ map (release_row self)
                            (sorted (fun a b => str_leb (microservice a) (microservice b))
                               releases)
                end
             ++ [CHANGELOG_HEADING]
             ++ match _filter_items_with_notes work_items with
                | [] => []
                | _ => [DEPLOYMENT_HEADING]
                end
             ++ if bool_decide (contributors = ∅) then [] else [CONTRIBUTORS_HEADING]
  | Raise e =>
      generate_lines fromisoformat self release_number work_items releases contributors
      = Raise e
  end.
Proof.
  unfold generate_lines.
  pose proof (add_summary_section_outcome
                ([] ++ [py "# Release Notes - " ++ release_number; []])
                work_items releases (_group_work_items_by_type work_items)) as Hsum.
  destruct (_extract_release_date fromisoformat releases) as [date|e].
  - destruct Hsum as [lines1 [H1 F1]]. rewrite H1. simpl mbind.
    destruct (add_deployment_instructions_section_ok self
                (_add_changelog_section self
                   (_add_binaries_section self lines1 releases)
                   (_group_work_items_by_type work_items)) work_items)
      as [lines2 [H2 F2]].
    unfold mbind, result_bind in *. rewrite H2.
    eexists. split; [reflexivity|].
    rewrite structural_add_contributors_section, F2.
    rewrite structural_add_changelog_section, structural_add_binaries_section, F1.
    rewrite <- !app_assoc. reflexivity.
  - rewrite Hsum. reflexivity.
Qed.

End report_structure.

(** ** Which sections appear *)

Lemma structural_elem_of (line : str) (lines : list str) :
  is_structural line = true ->
  line ∈ lines <-> line ∈ filter (fun l => is_structural l) lines.
Proof.
  intros H. rewrite list_elem_of_filter, H. simpl. tauto.
Qed.

Lemma release_row_starts_with_bar self release :
  exists rest, release_row self release = 124 :: 32 :: 91 :: rest.
Proof. eexists. unfold release_row. simpl. reflexivity. Qed.

Ltac not_a_row H :=
  apply list_elem_of_In, in_map_iff in H;
  let r := fresh "r" in
  let E := fresh "E" in
  let rest := fresh "rest" in
  let Hrow := fresh "Hrow" in
  destruct H as [r [E _]];
  match type of E with
  | release_row ?self ?release = _ =>
      destruct (release_row_starts_with_bar self release) as [rest Hrow];
      rewrite Hrow in E; vm_compute in E; discriminate E
  end.

Ltac heading_cases :=
  repeat match goal with
    | H : _ ∈ _ ++ _ |- _ => apply elem_of_app in H as [H|H]
    | H : _ ∈ _ :: _ |- _ => apply elem_of_cons in H as [H|H]
    | H : _ ∈ [] |- _ => inversion H
    end.

Section section_omission.

Variable fromisoformat : str -> result datetime.


End section_omission.


(** The invariant is needed. At one work item whose notes are the empty
    text ([notes = ''], which the normalization of the gateway never
    returns) the truth test of line 154 drops the item: the heading is not
    written, yet the notes of the item are not [None]. *)
Lemma deployment_heading_empty_notes :
  ~ (forall lines,
        generate_lines isoformat.fromisoformat generator (py "2025.006")
          [work_item_with_empty_notes] [] ∅ = Ok lines ->
        DEPLOYMENT_HEADING ∈ lines
        <-> exists item, item ∈ [work_item_with_empty_notes] /\ notes item <> None).
Proof.
  intros H.
  assert (E : generate_lines isoformat.fromisoformat generator (py "2025.006")
                [work_item_with_empty_notes] [] ∅ = Ok (lines_of empty_notes_report))
    by (vm_compute; reflexivity).
  destruct (H _ E) as [_ Hback].
  assert (Hin : DEPLOYMENT_HEADING ∈ lines_of empty_notes_report).
  { apply Hback. exists work_item_with_empty_notes.
    split; [apply list_elem_of_here | discriminate]. }
  apply list_elem_of_In in Hin. vm_compute in Hin. intuition discriminate.
Qed.

(** ** Totality of the generator *)



Section totality.

Variable fromisoformat : str -> result datetime.


(** The generator returns exactly when the extraction of the date does. *)
Lemma generate_outcome (self : MarkdownGenerator) (release_number : str)
  (work_items : list WorkItem) (releases : list Release) (contributors : gset str) :
  match _extract_release_date fromisoformat releases with
  | Ok _ =>
      exists markdown,
        generate fromisoformat self release_number work_items releases contributors
        = Ok markdown
  | Raise e =>
      generate fromisoformat self release_number work_items releases contributors
      = Raise e
  end.
Proof.
  unfold generate.
  pose proof (generate_lines_outcome fromisoformat self release_number work_items
                releases contributors) as Hout.
  destruct (_extract_release_date fromisoformat releases) as [date|e].
  - destruct Hout as [lines [-> _]]. eexists. reflexivity.
  - rewrite Hout. reflexivity.
Qed.


End totality.



(** A timestamp that is no date makes [generate] raise. *)
Example generate_with_malformed_timestamp :
  generate isoformat.fromisoformat generator (py "2025.006") sample_work_items
    [release_with_malformed_timestamp] ∅
  = Raise ValueError.
Proof. vm_compute. reflexivity. Qed.

(** ** Deployment notes: the two regular expressions *)

Lemma startswith_app (p s : str) : startswith p (p ++ s) = true.
Proof.
  induction p as [|x p IH]; [reflexivity|]. simpl. rewrite N.eqb_refl. exact IH.
Qed.

Lemma startswith_drop (p s : str) :
  startswith p s = true -> s = p ++ drop (length p) s.
Proof.
  revert s. induction p as [|x p IH]; intros s H; [reflexivity|].
  destruct s as [|y s]; [discriminate|]. simpl in H.
  apply andb_true_iff in H as [Hxy Hp]. apply N.eqb_eq in Hxy. subst y.
  simpl. f_equal. apply IH. exact Hp.
Qed.

(** [partition] cuts the text at an occurrence of the pattern. *)
Lemma partition_app (p s a b : str) :
  partition p s = Some (a, b) -> s = a ++ p ++ b.
Proof.
  revert a. induction s as [|c s IH]; intros a H; simpl in H.
  - destruct (startswith p []) eqn:Hp; [|discriminate].
    injection H as <- <-. apply (startswith_drop p []). exact Hp.
  - destruct (startswith p (c :: s)) eqn:Hp.
    + injection H as <- <-. apply (startswith_drop p (c :: s)). exact Hp.
    + destruct (partition p s) as [[a' b']|]; [|discriminate].
      injection H as <- <-. simpl. f_equal. apply IH. reflexivity.
Qed.

Lemma partition_length (p s a b : str) :
  partition p s = Some (a, b) -> length s = (length a + length p + length b)%nat.
Proof.
  intros H. rewrite (partition_app _ _ _ _ H), !length_app. lia.
Qed.



Lemma strip_tags_fuel_step (n : nat) (c : N) (rest : str) :
  strip_tags_fuel (S n) (c :: rest)
  = if c =? 60 then
      match partition [62] rest with
      | Some (_ :: _, tail) => strip_tags_fuel n tail
      | _ => c :: strip_tags_fuel n rest
      end
    else c :: strip_tags_fuel n rest.
Proof. reflexivity. Qed.

Lemma strip_tags_fuel_enough (n m : nat) (s : str) :
  (length s < n)%nat -> (length s < m)%nat ->
  strip_tags_fuel n s = strip_tags_fuel m s.
Proof.
  revert m s. induction n as [|n IH]; intros m s Hn Hm; [lia|].
  destruct m as [|m]; [lia|].
  destruct s as [|c rest]; [reflexivity|]. simpl in Hn, Hm.
  rewrite !strip_tags_fuel_step.
  destruct (c =? 60).
  - destruct (partition [62] rest) as [[[|b body] tail]|] eqn:Hp.
    + f_equal. apply IH; lia.
    + apply partition_length in Hp. simpl in Hp. apply IH; lia.
    + f_equal. apply IH; lia.
  - f_equal. apply IH; lia.
Qed.

(** [re.sub(r'<[^>]+>', '', s)], character by character. *)
Lemma strip_tags_unfold (c : N) (rest : str) :
  strip_tags (c :: rest)
  = if c =? 60 then
      match partition [62] rest with
      | Some (_ :: _, tail) => strip_tags tail
      | _ => c :: strip_tags rest
      end
    else c :: strip_tags rest.
Proof.
  unfold strip_tags. rewrite strip_tags_fuel_step.
  destruct (c =? 60); [|reflexivity].
  destruct (partition [62] rest) as [[[|b body] tail]|] eqn:Hp;
    [reflexivity | | reflexivity].
  apply partition_length in Hp. simpl in Hp.
  apply strip_tags_fuel_enough; simpl; lia.
Qed.

Lemma strip_tags_nil : strip_tags [] = [].
Proof. reflexivity. Qed.







(** The loop of lines 177 to 180 keeps the cleaned items that are not
    empty. *)
Lemma clean_items_loop (items : list str) (cleaned_items : list str) :
  fold_left
    (fun cleaned_items item =>
       let cleaned := strip (strip_tags item) in
       match cleaned with
       | _ :: _ => cleaned_items ++ [cleaned]
       | [] => cleaned_items
       end)
    items cleaned_items
  = cleaned_items
    ++ filter (fun cleaned => cleaned <> [])
         (map (fun item => strip (strip_tags item)) items).
Proof.
  revert cleaned_items. induction items as [|item items IH]; intros acc; simpl.
  - rewrite app_nil_r. reflexivity.
  - rewrite IH. destruct (strip (strip_tags item)) as [|c cleaned] eqn:Hc.
    + rewrite filter_cons_False by (intros H; exact (H eq_refl)). reflexivity.
    + rewrite filter_cons_True by discriminate. rewrite <- app_assoc. reflexivity.
Qed.

Lemma convert_notes_to_list_items_unfold (s : str) :
  _convert_notes_to_list_items s
  = match findall_li s with
    | [] =>
        match strip (strip_tags s) with
        | [] => []
        | cleaned => [cleaned]
        end
    | items =>
        filter (fun cleaned => cleaned <> [])
          (map (fun item => strip (strip_tags item)) items)
    end.
Proof.
  unfold _convert_notes_to_list_items.
  destruct (findall_li s) as [|item items].
  - destruct (strip (strip_tags s)); reflexivity.
  - rewrite clean_items_loop. reflexivity.
Qed.

Lemma partition_none_iff (p s : str) : partition p s = None <-> contains p s = false.
Proof.
  induction s as [|c s IH]; cbn [partition contains].
  - destruct (startswith p []); simpl; split; intros H; congruence.
  - destruct (startswith p (c :: s)); simpl.
    + split; intros H; discriminate H.
    + rewrite <- IH. destruct (partition p s) as [[before after]|];
        split; intros H; congruence.
Qed.

Lemma contains_app_intro (p a b : str) : contains p (a ++ p ++ b) = true.
Proof.
  induction a as [|x a IH].
  - simpl app. destruct (p ++ b) eqn:E; simpl; rewrite <- E, startswith_app;
      reflexivity.
  - change ((x :: a) ++ p ++ b) with (x :: (a ++ p ++ b)).
    cbn [contains]. rewrite IH. apply orb_true_r.
Qed.

Lemma partition_char_first (c : N) (s a b : str) :
  partition [c] s = Some (a, b) -> c ∉ a.
Proof.
  revert a b. induction s as [|x s IH]; intros a b H; [discriminate H|].
  cbn [partition startswith] in H. rewrite andb_true_r in H.
  destruct (N.eqb_spec c x) as [E|E].
  - injection H as <- _. intros Hin. inversion Hin.
  - destruct (partition [c] s) as [[a' b']|]; [|discriminate H].
    injection H as <- _. apply not_elem_of_cons. split; [exact E|].
    apply (IH a' b'). reflexivity.
Qed.

Lemma partition_char_none (c : N) (s : str) : partition [c] s = None <-> c ∉ s.
Proof.
  rewrite partition_none_iff, <- contains_char.
  destruct (contains [c] s); split; intros H; congruence.
Qed.

Lemma strip_tags_fuel_subset (n : nat) (s : str) (x : N) :
  x ∈ strip_tags_fuel n s -> x ∈ s.
Proof.
  revert s. induction n as [|n IH]; intros s H; [inversion H|].
  destruct s as [|c rest]; [inversion H|].
  rewrite strip_tags_fuel_step in H.
  assert (Hkeep : x ∈ c :: strip_tags_fuel n rest -> x ∈ c :: rest).
  { intros Hin. apply elem_of_cons in Hin as [->|Hin];
      [apply list_elem_of_here | apply list_elem_of_further, IH, Hin]. }
  destruct (c =? 60); [|exact (Hkeep H)].
  destruct (partition [62] rest) as [[[|b body] tail]|] eqn:Hp;
    [exact (Hkeep H) | | exact (Hkeep H)].
  apply partition_app in Hp. apply IH in H.
  apply list_elem_of_further. rewrite Hp.
  apply elem_of_app. right. apply elem_of_app. right. exact H.
Qed.

Lemma has_tag_nil : ~ has_tag [].
Proof.
  intros [l [t [r [H [body [-> _]]]]]].
  destruct l; discriminate H.
Qed.

Lemma has_tag_cons_inv (c : N) (s : str) :
  has_tag (c :: s) ->
  (c = 60 /\ exists body r, s = body ++ 62 :: r /\ body <> [] /\ (62 ∉ body))
  \/ has_tag s.
Proof.
  intros [l [t [r [H Ht]]]]. destruct l as [|x l].
  - left. destruct Ht as [body [-> [Hne H62]]].
    simpl in H. injection H as -> ->. split; [reflexivity|].
    exists body, r. rewrite <- app_assoc. auto.
  - right. simpl in H. injection H as _ ->. exists l, t, r. auto.
Qed.

Lemma has_tag_cons (c : N) (s : str) : has_tag s -> has_tag (c :: s).
Proof.
  intros [l [t [r [-> Ht]]]]. exists (c :: l), t, r. auto.
Qed.

Lemma has_tag_infix (l s r : str) : has_tag s -> has_tag (l ++ s ++ r).
Proof.
  intros [l' [t [r' [-> Ht]]]]. exists (l ++ l'), t, (r' ++ r).
  split; [|exact Ht]. rewrite <- !app_assoc. reflexivity.
Qed.

Lemma strip_tags_fuel_no_tag (n : nat) (s : str) : ~ has_tag (strip_tags_fuel n s).
Proof.
  revert s. induction n as [|n IH]; intros s; [apply has_tag_nil|].
  destruct s as [|c rest]; [apply has_tag_nil|].
  rewrite strip_tags_fuel_step.
  destruct (N.eqb_spec c 60) as [->|Hc].
  - destruct (partition [62] rest) as [[[|b body] tail]|] eqn:Hp.
    + intros H. apply has_tag_cons_inv in H as [[_ [body' [r [HX [Hne H62]]]]]|H];
        [|exact (IH _ H)].
      apply partition_app in Hp. simpl in Hp. subst rest.
      destruct n as [|n]; [destruct body'; discriminate HX|].
      rewrite strip_tags_fuel_step in HX. simpl in HX.
      destruct body' as [|b' body']; [congruence|].
      injection HX as <- _. apply H62. apply list_elem_of_here.
    + apply IH.
    + intros H. apply has_tag_cons_inv in H as [[_ [body' [r [HX [Hne H62]]]]]|H];
        [|exact (IH _ H)].
      apply partition_char_none in Hp. apply Hp.
      apply (strip_tags_fuel_subset n). rewrite HX.
      apply elem_of_app. right. apply list_elem_of_here.
  - intros H. apply has_tag_cons_inv in H as [[E _]|H]; [congruence|].
    exact (IH _ H).
Qed.

(** A text in which no tag occurs is left as it is. *)
Lemma strip_tags_fixed (s : str) : ~ has_tag s -> strip_tags s = s.
Proof.
  induction s as [|c rest IH]; intros Hs; [reflexivity|].
  assert (Hrest : strip_tags rest = rest).
  { apply IH. intros H. apply Hs. apply has_tag_cons. exact H. }
  rewrite strip_tags_unfold, Hrest.
  destruct (N.eqb_spec c 60) as [->|Hc]; [|reflexivity].
  destruct (partition [62] rest) as [[[|b body] tail]|] eqn:Hp;
    [reflexivity | | reflexivity].
  exfalso. apply Hs.
  pose proof (partition_char_first _ _ _ _ Hp) as H62.
  apply partition_app in Hp. subst rest.
  exists [], (60 :: (b :: body) ++ [62]), tail. split.
  - simpl. rewrite <- app_assoc. reflexivity.
  - exists (b :: body). split; [reflexivity|]. split; [discriminate | exact H62].
Qed.


(** *** Trimming *)




(** *** Occurrences of a pattern *)







(** *** The removal of tags, by the tags *)








(** *** The list items, by their markers *)









(** Notes of blanks and tags with an empty list item give no
    instruction. *)
Example convert_notes_blank_list_item :
  _convert_notes_to_list_items (py " <p><br/></p> <ul><li> <b></b></li></ul>") = [].
Proof. vm_compute. reflexivity. Qed.

(** ** Order within a group, and the sort-by option *)

(** Whatever the option, the items of a group are written in ascending
    order of their identifiers. *)
Lemma changelog_items_by_id (self : MarkdownGenerator) (lines : list str)
  (work_type : str) (items : list WorkItem) :
  exists sorted_items,
    _add_work_items_for_type self lines work_type items
    = lines ++ [group_heading work_type items; []]
      ++ map (item_line self) sorted_items ++ [[]]
    /\ sorted_items ≡ₚ items
    /\ StronglySorted (fun a b => (id a <= id b)%Z) sorted_items.
Proof.
  exists (sorted id_leb items). split; [apply add_work_items_for_type_lines|].
  split; [apply sorted_perm|].
  assert (Hs : StronglySorted (fun a b => id_leb a b = true) (sorted id_leb items)).
  { apply sorted_sorted; unfold id_leb; intros; lia. }
  induction Hs as [|x l Hl IH Hx]; constructor; [exact IH|].
  eapply Forall_impl; [exact Hx|]. intros y Hy. unfold id_leb in Hy. lia.
Qed.

(** The constructor of the generator takes no sort-by option: the call of
    line 164 of [main], which passes one, raises. *)
Lemma main_generate_raises (fromisoformat : str -> result datetime)
  (organization_url project sort_by release : str) (work_items : list WorkItem)
  (releases : list Release) (contributors : gset str) :
  generate_release_notes.main_generate fromisoformat organization_url project sort_by
    release work_items releases contributors
  = Raise TypeError.
Proof. reflexivity. Qed.

(** C9 at two bugs whose titles are in the opposite order of their
    identifiers, with the option [--sort-by title]: the generation step of
    [main] raises [TypeError], and the generator, called as the tests call
    it, writes the bugs by identifier, [Zero the counters] before
    [Accept empty tags]. *)
Theorem sort_by_title_not_honoured :
  generate_release_notes.main_generate isoformat.fromisoformat
    (py "https://dev.azure.com/testorg") (py "TestProject") (py "title") (py "2025.006")
    bugs_by_title [] ∅
  = Raise TypeError
  /\ _add_work_items_for_type generator [] (py "Bug") bugs_by_title
     = [ py "### " ++ [128027] ++ py " Bug (2)"; [];
         py "- [#1](https://dev.azure.com/testorg/TestProject/_workitems/edit/1) Zero the counters";
         py "- [#2](https://dev.azure.com/testorg/TestProject/_workitems/edit/2) Accept empty tags";
         [] ].
Proof. split; vm_compute; reflexivity. Qed.

(** The groups of work items of the types Task, Zendesk Ticket, Bug and
    Audit: the known types first, Bug before Task, then Audit and Zendesk
    Ticket. *)
Example mixed_changelog_groups :
  filter (fun line => is_group_heading line)
    (_add_changelog_section generator [] (_group_work_items_by_type mixed_work_items))
  = [ py "### " ++ [128027] ++ py " Bug (1)";
      py "### " ++ [128295] ++ py " Task (2)";
      py "### " ++ [128204] ++ py " Audit (1)";
      py "### " ++ [128204] ++ py " Zendesk Ticket (1)" ].
Proof. vm_compute. reflexivity. Qed.

(** * Further properties of the code *)

(** ** The configuration *)

Lemma lstrip_chars_decomp (chars s : str) :
  exists l, s = l ++ lstrip_chars chars s /\ Forall (fun c => c ∈ chars) l.
Proof.
  induction s as [|c s [l [Hs Hl]]]; [exists []; auto|].
  simpl. case_bool_decide as Hc.
  - exists (c :: l). split; [simpl; congruence | constructor; assumption].
  - exists []. auto.
Qed.

Lemma lstrip_chars_head (chars s : str) (c : N) (t : str) :
  lstrip_chars chars s = c :: t -> c ∉ chars.
Proof.
  induction s as [|x s IH]; simpl; [discriminate|].
  case_bool_decide as Hx; [exact IH|]. intros [= -> _]. exact Hx.
Qed.

Lemma lstrip_chars_all (chars s : str) :
  Forall (fun c => c ∈ chars) s -> lstrip_chars chars s = [].
Proof.
  induction 1 as [|c s Hc _ IH]; [reflexivity|].
  simpl. rewrite bool_decide_eq_true_2 by exact Hc. exact IH.
Qed.

Lemma rstrip_chars_decomp (chars s : str) :
  exists r, s = rstrip_chars chars s ++ r /\ Forall (fun c => c ∈ chars) r.
Proof.
  destruct (lstrip_chars_decomp chars (rev s)) as [l [Hs Hl]].
  exists (rev l). split; [|apply Forall_rev; exact Hl].
  unfold rstrip_chars. rewrite <- rev_app_distr, <- Hs, rev_involutive. reflexivity.
Qed.

Lemma rstrip_chars_last (chars s : str) (c : N) :
  last (rstrip_chars chars s) = Some c -> c ∉ chars.
Proof.
  unfold rstrip_chars. destruct (lstrip_chars chars (rev s)) as [|x t] eqn:E.
  - discriminate.
  - simpl rev. rewrite last_snoc. intros [= <-]. exact (lstrip_chars_head _ _ _ _ E).
Qed.

Lemma rstrip_chars_nil_iff (chars s : str) :
  rstrip_chars chars s = [] <-> Forall (fun c => c ∈ chars) s.
Proof.
  split.
  - intros H. destruct (rstrip_chars_decomp chars s) as [r [Hs Hr]].
    rewrite H in Hs. simpl in Hs. subst r. exact Hr.
  - intros H. unfold rstrip_chars.
    rewrite lstrip_chars_all by (apply Forall_rev; exact H). reflexivity.
Qed.

(** A text that does not end with one of the characters is left as it
    is. *)
Lemma rstrip_chars_fixed (chars s : str) :
  (forall c, last s = Some c -> c ∉ chars) -> rstrip_chars chars s = s.
Proof.
  intros H. unfold rstrip_chars.
  destruct (rev s) as [|x t] eqn:E.
  - apply (f_equal (@rev N)) in E. rewrite rev_involutive in E. subst s. reflexivity.
  - assert (Hs : s = rev t ++ [x]).
    { rewrite <- (rev_involutive s), E. reflexivity. }
    simpl. rewrite bool_decide_eq_false_2.
    + simpl. symmetry. exact Hs.
    + apply H. rewrite Hs. apply last_snoc.
Qed.

Lemma all_slashes_replicate (r : str) :
  Forall (fun c => c ∈ py "/") r -> r = replicate (length r) 47.
Proof.
  induction 1 as [|c r Hc _ IH]; [reflexivity|].
  apply list_elem_of_singleton in Hc. subst c. simpl. f_equal. exact IH.
Qed.

(** X1. The configuration is built exactly when the organization URL has
    a character other than a slash and neither the project nor the token is
    empty; the constructor raises nothing but [ValueError]. *)
Theorem config_requires_all_fields
  (url project_name token field environment notes_name : str) :
  ((exists cfg,
       config.AzureDevOpsConfig_new url project_name token field environment notes_name
       = Ok cfg)
   <-> (exists c, c ∈ url /\ c <> 47) /\ project_name <> [] /\ token <> [])
  /\ (forall e,
        config.AzureDevOpsConfig_new url project_name token field environment notes_name
        = Raise e ->
        e = ValueError).
Proof.
  unfold config.AzureDevOpsConfig_new, config._validate_required_fields.
  cbn [config.organization_url config.project config.pat].
  assert (Hurl : rstrip_chars (py "/") url = [] <-> ~ exists c, c ∈ url /\ c <> 47).
  { rewrite rstrip_chars_nil_iff, Forall_forall. split.
    - intros H [c [Hc Hne]]. apply Hne.
      specialize (H c Hc). apply list_elem_of_singleton in H. exact H.
    - intros H c Hc. apply list_elem_of_singleton.
      destruct (decide (c = 47)) as [E|E]; [exact E|].
      exfalso. apply H. exists c. auto. }
  assert (Hex : rstrip_chars (py "/") url <> [] -> exists c, c ∈ url /\ c <> 47).
  { intros H. rewrite rstrip_chars_nil_iff in H.
    apply not_Forall_Exists in H; [|solve_decision].
    apply Exists_exists in H as [c [Hc Hn]]. exists c. split; [exact Hc|].
    intros ->. apply Hn. apply list_elem_of_here. }
  repeat case_bool_decide; simpl.
  1-7: split; [split; [intros [cfg [=]] | intros [Hc [Hp Ht]]; try congruence;
                                          exfalso; apply Hurl; auto]
              | intros e [= <-]; reflexivity].
  split; [split; [intros _; auto | intros _; eexists; reflexivity] | intros e [=]].
Qed.

(** X2. A configuration that is built keeps every argument as it is, but
    for the organization URL, of which exactly the slashes at its end are
    gone: the stored URL is not empty, does not end with a slash, and the
    argument is the stored URL followed by slashes only. Building the
    configuration again from its own fields changes nothing. *)
Theorem config_strips_trailing_slashes
  (url project_name token field environment notes_name : str)
  (cfg : config.AzureDevOpsConfig) :
  config.AzureDevOpsConfig_new url project_name token field environment notes_name
  = Ok cfg ->
  cfg = config.mkAzureDevOpsConfig (config.organization_url cfg) project_name token
          field environment notes_name
  /\ (exists n, url = config.organization_url cfg ++ replicate n 47)
  /\ config.organization_url cfg <> []
  /\ last (config.organization_url cfg) <> Some 47
  /\ config.AzureDevOpsConfig_new (config.organization_url cfg) project_name token
       field environment notes_name
     = Ok cfg.
Proof.
  unfold config.AzureDevOpsConfig_new, config._validate_required_fields.
  cbn [config.organization_url config.project config.pat].
  assert (Hlast : last (rstrip_chars (py "/") url) <> Some 47).
  { intros H. apply rstrip_chars_last in H. apply H. apply list_elem_of_here. }
  assert (Hfix : rstrip_chars (py "/") (rstrip_chars (py "/") url)
                 = rstrip_chars (py "/") url).
  { apply rstrip_chars_fixed. intros c Hc. exact (rstrip_chars_last _ _ _ Hc). }
  destruct (bool_decide (rstrip_chars (py "/") url = [])) eqn:E1;
    [discriminate|].
  destruct (bool_decide (project_name = [])) eqn:E2; [discriminate|].
  destruct (bool_decide (token = [])) eqn:E3; [discriminate|].
  simpl. intros [= <-]. cbn [config.organization_url].
  split; [reflexivity|]. split; [|split; [|split]].
  - destruct (rstrip_chars_decomp (py "/") url) as [r [Hs Hr]].
    exists (length r). rewrite <- (all_slashes_replicate r Hr). exact Hs.
  - apply bool_decide_eq_false in E1. exact E1.
  - exact Hlast.
  - rewrite Hfix, E1. reflexivity.
Qed.

(** X2 at the URL [https://dev.azure.com/myorg//]. *)
Lemma config_strips_trailing_slashes_witness :
  exists n, py "https://dev.azure.com/myorg//"
            = py "https://dev.azure.com/myorg" ++ replicate n 47.
Proof.
  apply (config_strips_trailing_slashes (py "https://dev.azure.com/myorg//")
           (py "MyProject") (py "token") (py "Custom.Release") (py "PROD")
           (py "Custom.Notes")
           (config.mkAzureDevOpsConfig (py "https://dev.azure.com/myorg")
              (py "MyProject") (py "token") (py "Custom.Release") (py "PROD")
              (py "Custom.Notes"))).
  vm_compute. reflexivity.
Defined.

(** ** The token of the command line *)

(** X3. [get_pat_token] returns the value of [--pat] when it is given and
    not empty, whatever the environment holds; otherwise the value of
    [AZURE_DEVOPS_PAT] when it is set and not empty; it raises [ValueError],
    and nothing else, exactly when both are absent or empty. A token it
    returns is never empty. *)
Theorem get_pat_token_precedence (args_pat : option str) (environ : gmap str str) :
  (forall token,
      args_pat = Some token -> token <> [] ->
      generate_release_notes.get_pat_token args_pat environ = Ok token)
  /\ (forall token,
        truthy args_pat = false ->
        environ !! py "AZURE_DEVOPS_PAT" = Some token -> token <> [] ->
        generate_release_notes.get_pat_token args_pat environ = Ok token)
  /\ (generate_release_notes.get_pat_token args_pat environ = Raise ValueError
      <-> truthy args_pat = false
          /\ truthy (environ !! py "AZURE_DEVOPS_PAT") = false)
  /\ (forall token,
        generate_release_notes.get_pat_token args_pat environ = Ok token ->
        token <> [])
  /\ (forall e,
        generate_release_notes.get_pat_token args_pat environ = Raise e ->
        e = ValueError).
Proof.
  unfold generate_release_notes.get_pat_token.
  split; [|split; [|split; [|split]]].
  - intros token -> Hne. destruct token; [congruence | reflexivity].
  - intros token Ha He Hne. rewrite Ha, He.
    destruct token; [congruence | reflexivity].
  - destruct args_pat as [[|c t]|]; simpl;
      destruct (environ !! py "AZURE_DEVOPS_PAT") as [[|c' t']|]; simpl;
      split; intros H; try discriminate; try (destruct H; discriminate); auto.
  - intros token.
    destruct args_pat as [[|c t]|]; simpl;
      destruct (environ !! py "AZURE_DEVOPS_PAT") as [[|c' t']|]; simpl;
      intros [= <-]; discriminate.
  - intros e.
    destruct args_pat as [[|c t]|]; simpl;
      destruct (environ !! py "AZURE_DEVOPS_PAT") as [[|c' t']|]; simpl;
      intros [= <-]; reflexivity.
Qed.

(** ** Decimal numerals, and the URLs built from identifiers *)

Lemma uint_digits_inj (u v : Decimal.uint) : uint_digits u = uint_digits v -> u = v.
Proof.
  revert v. induction u as [|u IH|u IH|u IH|u IH|u IH|u IH|u IH|u IH|u IH|u IH];
    intros [|v|v|v|v|v|v|v|v|v|v]; cbn; intros H;
    try discriminate H; try reflexivity;
    injection H as H; f_equal; apply IH; exact H.
Qed.

Lemma uint_digits_range (u : Decimal.uint) (c : N) :
  c ∈ uint_digits u -> 48 <= c <= 57.
Proof.
  induction u; cbn; intros H;
    try (inversion H; fail);
    apply elem_of_cons in H as [->|H]; auto; unfold digit_of; lia.
Qed.

Lemma str_of_int_inj (a b : Z) : str_of_int a = str_of_int b -> a = b.
Proof.
  unfold str_of_int. intros H. apply DecimalZ.to_int_inj.
  destruct (Z.to_int a) as [u|u], (Z.to_int b) as [v|v].
  - f_equal. apply uint_digits_inj. exact H.
  - exfalso. assert (Hin : 45 ∈ uint_digits u) by (rewrite H; apply list_elem_of_here).
    apply uint_digits_range in Hin. lia.
  - exfalso. assert (Hin : 45 ∈ uint_digits v) by (rewrite <- H; apply list_elem_of_here).
    apply uint_digits_range in Hin. lia.
  - injection H as H. f_equal. apply uint_digits_inj. exact H.
Qed.

Lemma str_of_int_chars (z : Z) (c : N) : c ∈ str_of_int z -> c = 45 \/ 48 <= c <= 57.
Proof.
  unfold str_of_int. destruct (Z.to_int z) as [u|u]; intros H.
  - right. exact (uint_digits_range _ _ H).
  - apply elem_of_cons in H as [->|H]; [left; reflexivity|].
    right. exact (uint_digits_range _ _ H).
Qed.

Lemma str_of_int_nonempty (z : Z) : str_of_int z <> [].
Proof.
  unfold str_of_int. destruct z as [|p|p]; cbn; [discriminate| |discriminate].
  pose proof (DecimalPos.Unsigned.to_uint_nonnil p) as Hp.
  destruct (Pos.to_uint p); cbn; congruence.
Qed.

(** Two texts cut at a character that neither holds before the cut. *)
Lemma app_cons_fresh_inj (c : N) (a a' b b' : str) :
  c ∉ a -> c ∉ a' -> a ++ c :: b = a' ++ c :: b' -> a = a' /\ b = b'.
Proof.
  revert a'. induction a as [|x a IH]; intros [|y a'] Ha Ha' H; simpl in H.
  - injection H as ->. auto.
  - injection H as -> _. exfalso. apply Ha'. apply list_elem_of_here.
  - injection H as -> _. exfalso. apply Ha. apply list_elem_of_here.
  - injection H as -> H.
    apply not_elem_of_cons in Ha as [_ Ha]. apply not_elem_of_cons in Ha' as [_ Ha'].
    destruct (IH a' Ha Ha' H) as [-> ->]. auto.
Qed.

(** Texts that are not empty and hold no comma can be read back off their
    join by commas. *)
Lemma join_comma_inj (l1 l2 : list str) :
  Forall (fun s => s <> [] /\ 44 ∉ s) l1 ->
  Forall (fun s => s <> [] /\ 44 ∉ s) l2 ->
  join (py ",") l1 = join (py ",") l2 -> l1 = l2.
Proof.
  change (py ",") with [44].
  intros H1. revert l2. induction H1 as [|x l1 [Hx Hxc] H1 IH]; intros l2 H2 H.
  - destruct H2 as [|y l2 [Hy Hyc] H2]; [reflexivity|].
    exfalso. destruct l2; simpl in H; [congruence|].
    destruct y; [congruence | discriminate H].
  - destruct H2 as [|y l2 [Hy Hyc] H2].
    + exfalso. destruct l1; simpl in H; [congruence|].
      destruct x; [congruence | discriminate H].
    + destruct l1 as [|x' l1], l2 as [|y' l2].
      * simpl in H. congruence.
      * exfalso. apply Hxc. cbn [join] in H. rewrite H.
        apply elem_of_app. right. apply list_elem_of_here.
      * exfalso. apply Hyc. cbn [join] in H. rewrite <- H.
        apply elem_of_app. right. apply list_elem_of_here.
      * cbn [join] in H. change ([44] ++ ?l) with (44 :: l) in H.
        destruct (app_cons_fresh_inj 44 _ _ _ _ Hxc Hyc H) as [-> Hj].
        f_equal. apply IH; assumption.
Qed.

Lemma str_of_int_list_inj (l1 l2 : list Z) :
  map str_of_int l1 = map str_of_int l2 -> l1 = l2.
Proof.
  revert l2. induction l1 as [|a l1 IH]; intros [|b l2] H;
    try discriminate H; [reflexivity|].
  injection H as Ha H. f_equal; [apply str_of_int_inj; exact Ha | apply IH; exact H].
Qed.

Lemma str_of_int_no_comma (l : list Z) :
  Forall (fun s : str => s <> [] /\ 44 ∉ s) (map str_of_int l).
Proof.
  apply Forall_forall. intros s Hs.
  apply list_elem_of_In, in_map_iff in Hs as [z [<- _]].
  split; [apply str_of_int_nonempty|].
  intros H. apply str_of_int_chars in H. lia.
Qed.

(** X4. The URL of the request for the details of work items determines
    the identifiers it asks for: one client builds the same URL for two
    lists of identifiers exactly when the lists are equal. *)
Theorem build_work_items_url_inj
  (self : azure_devops_client.AzureDevOpsClient) (ids1 ids2 : list Z) :
  azure_devops_client._build_work_items_url self ids1
  = azure_devops_client._build_work_items_url self ids2
  <-> ids1 = ids2.
Proof.
  split; [|intros ->; reflexivity].
  unfold azure_devops_client._build_work_items_url. intros H.
  do 5 apply app_inv_head in H. apply app_inv_tail in H.
  apply str_of_int_list_inj, join_comma_inj; auto using str_of_int_no_comma.
Qed.

(** The identifiers [1, 23] and [12, 3] are asked for by different URLs. *)
Example build_work_items_url_1_23 :
  azure_devops_client._build_work_items_url gateway_fixtures.client [1; 23]%Z
  <> azure_devops_client._build_work_items_url gateway_fixtures.client [12; 3]%Z.
Proof. intros H. vm_compute in H. discriminate H. Qed.

(** X5. The link of a work item determines the work item: one generator
    builds the same link for two identifiers exactly when they are equal. *)
Theorem build_work_item_url_inj (self : MarkdownGenerator) (a b : Z) :
  _build_work_item_url self a = _build_work_item_url self b <-> a = b.
Proof.
  split; [|intros ->; reflexivity].
  unfold _build_work_item_url. intros H.
  do 4 apply app_inv_head in H. apply str_of_int_inj. exact H.
Qed.

(** ** The requests for work items: what they raise *)

Section work_item_requests.

Import azure_devops_client.

Variable urlopen_wiql : str -> str -> result (list Z).
Variable urlopen_work_items : str -> result (list WorkItem).
Variable read_error_body : result str.
Variable self : AzureDevOpsClient.

(** With a readable error body, the handler turns both transport errors
    into a [RuntimeError] and lets nothing else through changed. *)
Lemma try_except_url_error_outcome {A} (answer : result A) (body context : str) :
  read_error_body = Ok body ->
  try_except_url_error answer (fun e => _handle_api_error read_error_body e context)
  = match answer with
    | Raise HTTPError | Raise URLError => Raise RuntimeError
    | _ => answer
    end.
Proof.
  intros Hbody. destruct answer as [a|[]]; simpl; try reflexivity.
  rewrite Hbody. reflexivity.
Qed.

(** X6. When the body of an HTTP error can be read: neither
    [query_work_item_ids] nor [get_work_item_details] ever raises
    [HTTPError] or [URLError], a failure of the transport leaves them as a
    [RuntimeError]; each returns a value exactly when its request does, and
    that very value. The details of no work item are the empty list,
    whatever the endpoint would answer. *)
Theorem transport_failures_raise_runtime_error
  (body release_number : str) (work_item_ids : list Z) :
  read_error_body = Ok body ->
  (query_work_item_ids urlopen_wiql read_error_body self release_number
   <> Raise HTTPError
   /\ query_work_item_ids urlopen_wiql read_error_body self release_number
      <> Raise URLError
   /\ exists url query,
        (forall ids,
            query_work_item_ids urlopen_wiql read_error_body self release_number = Ok ids
            <-> urlopen_wiql url query = Ok ids)
        /\ (forall e,
              urlopen_wiql url query = Raise e -> e = HTTPError \/ e = URLError ->
              query_work_item_ids urlopen_wiql read_error_body self release_number
              = Raise RuntimeError))
  /\ (get_work_item_details urlopen_work_items read_error_body self work_item_ids
      <> Raise HTTPError
      /\ get_work_item_details urlopen_work_items read_error_body self work_item_ids
         <> Raise URLError
      /\ (work_item_ids <> [] ->
          (forall work_items,
              get_work_item_details urlopen_work_items read_error_body self work_item_ids
              = Ok work_items
              <-> urlopen_work_items (_build_work_items_url self work_item_ids)
                  = Ok work_items)
          /\ (forall e,
                urlopen_work_items (_build_work_items_url self work_item_ids) = Raise e ->
                e = HTTPError \/ e = URLError ->
                get_work_item_details urlopen_work_items read_error_body self work_item_ids
                = Raise RuntimeError)))
  /\ get_work_item_details urlopen_work_items read_error_body self [] = Ok [].
Proof.
  intros Hbody. split; [|split; [|reflexivity]].
  - unfold query_work_item_ids.
    rewrite (try_except_url_error_outcome _ body _ Hbody).
    split; [|split].
    + destruct (urlopen_wiql _ _) as [ids|[]]; discriminate.
    + destruct (urlopen_wiql _ _) as [ids|[]]; discriminate.
    + match goal with
      | |- context [urlopen_wiql ?url ?query] => exists url, query
      end.
      split.
      * intros ids. destruct (urlopen_wiql _ _) as [ids'|[]];
          split; intros H; try discriminate H; exact H.
      * intros e He [-> | ->]; rewrite He; reflexivity.
  - destruct work_item_ids as [|i ids].
    + split; [discriminate|]. split; [discriminate|]. intros H. congruence.
    + unfold get_work_item_details.
      rewrite (try_except_url_error_outcome _ body _ Hbody).
      split; [|split].
      * destruct (urlopen_work_items _) as [items|[]]; discriminate.
      * destruct (urlopen_work_items _) as [items|[]]; discriminate.
      * intros _. split.
        { intros items. destruct (urlopen_work_items _) as [items'|[]];
            split; intros H; try discriminate H; exact H. }
        { intros e He [-> | ->]; rewrite He; reflexivity. }
Qed.

End work_item_requests.

(** X6 at endpoints that are down, the error body being readable. *)
Lemma transport_failures_raise_runtime_error_witness :
  azure_devops_client.get_work_item_details gateway_fixtures.unavailable
    (Ok (py "Unauthorized")) gateway_fixtures.client [1; 2]%Z
  = Raise RuntimeError.
Proof.
  destruct (transport_failures_raise_runtime_error
              (fun url query => Raise URLError) gateway_fixtures.unavailable
              (Ok (py "Unauthorized")) gateway_fixtures.client
              (py "Unauthorized") (py "2025.006") [1; 2]%Z eq_refl)
    as [_ [[_ [_ Hdetails]] _]].
  destruct Hdetails as [_ Hraise]; [discriminate|].
  apply (Hraise HTTPError); [reflexivity | left; reflexivity].
Defined.

(** ** Contributors: the accounts that are filtered out *)

Section contributor_names.

Import azure_devops_client.

Variable urlopen_updates : str -> result json.
Variable self : AzureDevOpsClient.

(** X7. No system account is among the contributors: every name of the set
    [get_work_item_contributors] returns is not empty, holds neither [<] nor
    [>], and holds neither [Microsoft.VisualStudio.Services] nor [Project
    Collection Build Service]. *)
Theorem contributors_exclude_system_accounts (work_item_ids : list Z) :
  exists contributors,
    get_work_item_contributors urlopen_updates self work_item_ids = Ok contributors
    /\ forall name,
         name ∈ contributors ->
         name <> [] /\ (60 ∉ name) /\ (62 ∉ name)
         /\ contains (py "Microsoft.VisualStudio.Services") name = false
         /\ contains (py "Project Collection Build Service") name = false.
Proof.
  destruct (for_each_contributors urlopen_updates self work_item_ids ∅)
    as [contributors [Hc Hmem]].
  exists contributors. split.
  - rewrite get_work_item_contributors_loop. exact Hc.
  - intros name Hin.
    apply Hmem in Hin as [Hin|(i & value & updates & _ & _ & _ & Hin)]; [set_solver|].
    destruct Hin as (k & update & _ & _ & _ & Hh). exact Hh.
Qed.

End contributor_names.

(** ** The classic tier of the release fetch *)

Section classic_tier.

Import azure_devops_client.

Variable fromisoformat : str -> result datetime.
Variable urlopen_releases : str -> result (list ReleaseData).
Variable urlopen_builds : str -> result (list BuildData).
Variable self : AzureDevOpsClient.

Lemma get_classic_releases_outcome (release_tag : str) :
  _get_classic_releases urlopen_releases self release_tag
  = match urlopen_releases (classic_releases_url self release_tag) with
    | Ok candidates => Ok (map (_parse_classic_release self) candidates)
    | Raise e => Raise e
    end.
Proof.
  unfold _get_classic_releases, classic_releases_url.
  destruct (urlopen_releases _) as [candidates|e]; simpl; [|reflexivity].
  f_equal. apply (fold_left_append (_parse_classic_release self) candidates []).
Qed.

(** X8. When the classic endpoint answers, [get_releases] returns one
    release per record of the answer, in the order of the answer, each with
    the production timestamp extracted from its record; the builds endpoint
    plays no part. *)
Theorem get_releases_classic_answer
  (release_tag : str) (candidates : list ReleaseData) :
  urlopen_releases (classic_releases_url self release_tag) = Ok candidates ->
  exists releases,
    get_releases urlopen_releases urlopen_builds self release_tag = Ok releases
    /\ releases = map (_parse_classic_release self) candidates
    /\ map prod_deploy_time releases
       = map (_extract_prod_deployment_time self) candidates
    /\ (forall other_builds,
          get_releases urlopen_releases other_builds self release_tag = Ok releases).
Proof.
  intros H. exists (map (_parse_classic_release self) candidates).
  assert (Hget : forall builds,
             get_releases urlopen_releases builds self release_tag
             = Ok (map (_parse_classic_release self) candidates)).
  { intros builds. unfold get_releases.
    rewrite get_classic_releases_outcome, H. reflexivity. }
  split; [apply Hget|]. split; [reflexivity|]. split; [|exact Hget].
  rewrite map_map. reflexivity.
Qed.

(** X9. When the classic tier raises, the releases [get_releases] returns
    carry no production timestamp: the release date extracted from them is
    [Unreleased], and the generator returns a report for them whatever the
    date parser does. *)
Theorem build_tier_report_is_unreleased (release_tag : str) (e : exn) :
  _get_classic_releases urlopen_releases self release_tag = Raise e ->
  exists releases,
    get_releases urlopen_releases urlopen_builds self release_tag = Ok releases
    /\ _extract_release_date fromisoformat releases = Ok (py "Unreleased")
    /\ forall (generator : MarkdownGenerator) (release_number : str)
              (work_items : list WorkItem) (contributors : gset str),
         exists markdown,
           generate fromisoformat generator release_number work_items releases
             contributors
           = Ok markdown.
Proof.
  intros Hclassic.
  assert (Hget : get_releases urlopen_releases urlopen_builds self release_tag
                 = _get_releases_from_builds urlopen_builds self release_tag).
  { unfold get_releases. rewrite Hclassic. reflexivity. }
  rewrite Hget, get_releases_from_builds_total.
  assert (Hdate : forall builds,
             _extract_release_date fromisoformat (map release_of_build builds)
             = Ok (py "Unreleased")).
  { intros builds. apply extract_release_date_unreleased.
    eapply Forall_impl; [apply releases_of_builds_no_timestamp|].
    intros r Hr. simpl in Hr. rewrite Hr. reflexivity. }
  destruct (urlopen_builds _) as [builds|e'].
  - exists (map release_of_build builds). split; [reflexivity|].
    split; [apply Hdate|].
    intros generator release_number work_items contributors.
    pose proof (generate_outcome fromisoformat generator release_number work_items
                  (map release_of_build builds) contributors) as Hout.
    rewrite Hdate in Hout. exact Hout.
  - exists []. split; [reflexivity|]. split; [reflexivity|].
    intros generator release_number work_items contributors.
    pose proof (generate_outcome fromisoformat generator release_number work_items
                  [] contributors) as Hout.
    exact Hout.
Qed.

End classic_tier.

(** X8 at the record of the tests. *)
Lemma get_releases_classic_answer_witness :
  azure_devops_client.get_releases gateway_fixtures.one_classic_release
    gateway_fixtures.unavailable gateway_fixtures.client (py "2025.006")
  = Ok [mkRelease (py "Unknown") (py "Unknown") (Some (py "2025-11-06T11:39:14.667Z"))
          [] []].
Proof.
  destruct (get_releases_classic_answer gateway_fixtures.one_classic_release
              gateway_fixtures.unavailable gateway_fixtures.client (py "2025.006")
              [gateway_fixtures.release_data_with_prod] eq_refl)
    as [releases [Hget [-> _]]].
  exact Hget.
Defined.

(** X9 when the classic tier is down and the build tier answers with one
    build. *)
Lemma build_tier_report_is_unreleased_witness :
  exists releases,
    azure_devops_client.get_releases gateway_fixtures.unavailable
      gateway_fixtures.one_build gateway_fixtures.client (py "2025.006")
    = Ok releases
    /\ _extract_release_date isoformat.fromisoformat releases = Ok (py "Unreleased").
Proof.
  destruct (build_tier_report_is_unreleased isoformat.fromisoformat
              gateway_fixtures.unavailable gateway_fixtures.one_build
              gateway_fixtures.client (py "2025.006") HTTPError eq_refl)
    as [releases [Hget [Hdate _]]].
  exists releases. split; assumption.
Defined.

(** ** The host of the release service *)

Lemma replace_from_skip (old new : str) (k : nat) (s : str) :
  replace_from old new k s = replace_from old new 0 (drop k s).
Proof.
  revert k. induction s as [|c s IH]; intros [|k]; try reflexivity.
  simpl. apply IH.
Qed.

(** [str.replace] by the first occurrence of the pattern. *)
Lemma replace_unfold (old new s : str) :
  old <> [] ->
  replace old new s
  = match partition old s with
    | None => s
    | Some (before, after) => before ++ new ++ replace old new after
    end.
Proof.
  intros Hold. unfold replace. induction s as [|c s IH].
  - destruct old; [congruence | reflexivity].
  - cbn [replace_from partition]. destruct (startswith old (c :: s)) eqn:E.
    + rewrite replace_from_skip. destruct old as [|o old']; [congruence|].
      replace (length (o :: old') - 1)%nat with (length old') by (simpl; lia).
      reflexivity.
    + rewrite IH. destruct (partition old s) as [[before after]|]; reflexivity.
Qed.

(** X10. The host of the release service. An organization URL in which
    [dev.azure.com] does not occur is used as it is. When it occurs, its
    first occurrence becomes [vsrm.dev.azure.com], and so does every later
    one: if none is left in the text after the first, the URL is the text
    before it, [vsrm.dev.azure.com], and the text after it. The URL returned
    then still holds [dev.azure.com]. *)
Theorem get_vsrm_url_spec (self : azure_devops_client.AzureDevOpsClient) :
  (contains (py "dev.azure.com") (azure_devops_client.organization_url self) = false ->
   azure_devops_client._get_vsrm_url self = azure_devops_client.organization_url self)
  /\ (forall before after,
        partition (py "dev.azure.com") (azure_devops_client.organization_url self)
        = Some (before, after) ->
        azure_devops_client._get_vsrm_url self
        = before ++ py "vsrm.dev.azure.com"
          ++ replace (py "dev.azure.com") (py "vsrm.dev.azure.com") after
        /\ (contains (py "dev.azure.com") after = false ->
            azure_devops_client._get_vsrm_url self
            = before ++ py "vsrm.dev.azure.com" ++ after)
        /\ contains (py "dev.azure.com") (azure_devops_client._get_vsrm_url self)
           = true).
Proof.
  unfold azure_devops_client._get_vsrm_url. split.
  - intros H. rewrite H. reflexivity.
  - intros before after Hp.
    assert (Hc : contains (py "dev.azure.com") (azure_devops_client.organization_url self)
                 = true).
    { destruct (contains _ _) eqn:E; [reflexivity|].
      apply partition_none_iff in E. congruence. }
    rewrite Hc, replace_unfold, Hp by discriminate.
    split; [reflexivity|]. split.
    + intros Hafter.
      rewrite (replace_unfold _ _ after) by discriminate.
      apply partition_none_iff in Hafter. rewrite Hafter. reflexivity.
    + change (py "vsrm.dev.azure.com") with (py "vsrm." ++ py "dev.azure.com").
      rewrite <- (app_assoc (py "vsrm.")), (app_assoc before).
      apply contains_app_intro.
Qed.

(** The URL of an organization of the cloud, and the URL that results when
    the host of the release service is given as the organization URL. *)
Example get_vsrm_url_cloud :
  azure_devops_client._get_vsrm_url gateway_fixtures.client
  = py "https://vsrm.dev.azure.com/testorg"
  /\ azure_devops_client._get_vsrm_url
       (azure_devops_client.mkAzureDevOpsClient (py "https://vsrm.dev.azure.com/testorg")
          (py "TestProject") (py "pat") (py "Custom.Release") (py "Custom.Notes")
          (py "PROD"))
     = py "https://vsrm.vsrm.dev.azure.com/testorg".
Proof. split; vm_compute; reflexivity. Qed.

(** ** Sorting: stability, and lists without repetition *)

Section sorted_stable.

Context {A K : Type} `{EqDecision K} (key : A -> K) (leb : A -> A -> bool).

Hypothesis leb_key_refl : forall a b, key a = key b -> leb a b = true.

Lemma insert_sorted_filter_key (k : K) (x : A) (l : list A) :
  filter (fun a => key a = k) (insert_sorted leb x l)
  = filter (fun a => key a = k) (x :: l).
Proof.
  induction l as [|y l IH]; [reflexivity|].
  simpl insert_sorted. destruct (leb x y) eqn:E; [reflexivity|].
  assert (Hne : key x <> key y).
  { intros H. rewrite (leb_key_refl _ _ H) in E. discriminate. }
  rewrite (filter_cons _ y), IH, !filter_cons.
  repeat case_decide; congruence.
Qed.

(** Python's sort is stable: the elements of one key keep the order they
    have in the input. *)
Lemma sorted_stable (k : K) (l : list A) :
  filter (fun a => key a = k) (sorted leb l) = filter (fun a => key a = k) l.
Proof.
  induction l as [|x l IH]; [reflexivity|].
  simpl sorted. rewrite insert_sorted_filter_key, !filter_cons, IH. reflexivity.
Qed.

End sorted_stable.

Lemma StronglySorted_NoDup_strict {A} (R : A -> A -> Prop) (l : list A) :
  StronglySorted R l -> NoDup l -> StronglySorted (fun a b => R a b /\ a <> b) l.
Proof.
  induction 1 as [|x l Hl IH Hx]; intros Hnd; [constructor|].
  apply NoDup_cons in Hnd as [Hnotin Hnd].
  constructor; [apply IH; exact Hnd|].
  apply Forall_forall. intros y Hy. rewrite Forall_forall in Hx.
  split; [apply Hx; exact Hy|]. intros ->. contradiction.
Qed.

Lemma StronglySorted_impl {A} (R S : A -> A -> Prop) (l : list A) :
  (forall a b, R a b -> S a b) -> StronglySorted R l -> StronglySorted S l.
Proof.
  intros HRS. induction 1 as [|x l Hl IH Hx]; constructor; [exact IH|].
  eapply Forall_impl; [exact Hx|]. intros y. apply HRS.
Qed.

Lemma str_ltb_of_leb_ne (a b : str) : str_leb a b = true -> a <> b -> str_ltb a b = true.
Proof.
  unfold str_leb. intros H Hne. apply negb_true_iff in H.
  destruct (str_ltb_trichotomy a b) as [E|[E|E]]; [exact E | contradiction | congruence].
Qed.

(** The strings of a set in ascending order, and in descending order: each
    is strictly below, or above, those after it. *)
Lemma sorted_elements_ascending (X : gset str) :
  StronglySorted (fun a b => str_ltb a b = true) (sorted str_leb (elements X)).
Proof.
  eapply StronglySorted_impl;
    [|apply StronglySorted_NoDup_strict;
      [apply (sorted_sorted str_leb str_leb_total str_leb_trans)
      |rewrite (sorted_perm str_leb); apply NoDup_elements]].
  intros a b [H Hne]. apply str_ltb_of_leb_ne; assumption.
Qed.

Lemma sorted_elements_descending (X : gset str) :
  StronglySorted (fun a b => str_ltb b a = true)
    (sorted (fun a b => str_leb b a) (elements X)).
Proof.
  eapply StronglySorted_impl;
    [|apply StronglySorted_NoDup_strict;
      [apply (sorted_sorted (fun a b => str_leb b a))
      |rewrite (sorted_perm (fun a b => str_leb b a)); apply NoDup_elements]].
  - intros a b [H Hne]. apply str_ltb_of_leb_ne; [exact H | congruence].
  - intros a b. destruct (str_leb_total a b); auto.
  - intros a b c Hab Hbc. exact (str_leb_trans _ _ _ Hbc Hab).
Qed.

(** ** The iterations of the summary *)

Lemma extract_iterations_set (work_items : list WorkItem) (acc : gset str) :
  fold_left
    (fun (iterations : gset str) item =>
       if bool_decide (iteration_path item = py "N/A") then iterations
       else {[iteration_path item]} ∪ iterations)
    work_items acc
  = acc ∪ list_to_set (filter (fun p => p <> py "N/A") (map iteration_path work_items)).
Proof.
  revert acc. induction work_items as [|item work_items IH]; intros acc.
  - simpl. set_solver.
  - simpl fold_left. rewrite IH. simpl map. rewrite filter_cons.
    case_bool_decide as Hna; case_decide as Hd; try contradiction.
    + reflexivity.
    + rewrite list_to_set_cons. set_solver.
Qed.

Lemma join_has_separator (sep x y : str) (l : list str) (c : N) :
  c ∈ sep -> c ∈ join sep (x :: y :: l).
Proof.
  intros Hc. cbn [join]. apply elem_of_app. right. apply elem_of_app. left. exact Hc.
Qed.

(** X11. The iterations of the summary are [N/A] exactly when every work
    item has the iteration path [N/A] (so also when there is no work item).
    Otherwise they are the iteration paths other than [N/A], each once, in
    strictly descending order, joined by a comma and a blank. *)
Theorem extract_iterations_spec (work_items : list WorkItem) :
  (_extract_iterations work_items = py "N/A"
   <-> forall item, item ∈ work_items -> iteration_path item = py "N/A")
  /\ exists paths : list str,
       StronglySorted (fun a b => str_ltb b a = true) paths
       /\ (forall p,
             p ∈ paths
             <-> p <> py "N/A"
                 /\ exists item, item ∈ work_items /\ iteration_path item = p)
       /\ _extract_iterations work_items
          = match paths with
            | [] => py "N/A"
            | _ => join (py ", ") paths
            end.
Proof.
  set (iterations := list_to_set
                       (filter (fun p => p <> py "N/A") (map iteration_path work_items))
                     : gset str).
  set (paths := sorted (fun a b => str_leb b a) (elements iterations)).
  assert (Hmem : forall p,
             p ∈ paths
             <-> p <> py "N/A"
                 /\ exists item, item ∈ work_items /\ iteration_path item = p).
  { intros p. unfold paths, iterations.
    rewrite sorted_elem_of, elem_of_elements, elem_of_list_to_set, list_elem_of_filter.
    change (map iteration_path work_items) with (iteration_path <$> work_items).
    rewrite list_elem_of_fmap. split.
    - intros [Hp [item [-> Hin]]]. split; [exact Hp|]. exists item. auto.
    - intros [Hp [item [Hin <-]]]. split; [exact Hp|]. exists item. auto. }
  assert (Heq : _extract_iterations work_items
                = match paths with
                  | [] => py "N/A"
                  | _ => join (py ", ") paths
                  end).
  { unfold _extract_iterations. destruct work_items as [|item work_items'].
    - reflexivity.
    - rewrite extract_iterations_set, (left_id_L ∅ (∪)).
      fold iterations. case_bool_decide as He.
      + unfold paths. rewrite He, elements_empty. reflexivity.
      + fold paths. destruct paths as [|p ps] eqn:Hp; [|reflexivity].
        exfalso. apply He. unfold paths in Hp. apply sorted_nil_inv in Hp.
        apply elements_empty_inv in Hp. apply leibniz_equiv. exact Hp. }
  assert (Hsorted : StronglySorted (fun a b => str_ltb b a = true) paths)
    by apply sorted_elements_descending.
  clearbody paths. clear iterations.
  split.
  - rewrite Heq. split.
    + intros Hna item Hin.
      destruct (decide (iteration_path item = py "N/A")) as [E|E]; [exact E|].
      exfalso.
      assert (Hp : iteration_path item ∈ paths).
      { apply Hmem. split; [exact E|]. exists item. auto. }
      destruct paths as [|p [|q ps]].
      * inversion Hp.
      * apply list_elem_of_singleton in Hp. simpl in Hna. congruence.
      * assert (Hc : 44 ∈ join (py ", ") (p :: q :: ps))
          by (apply join_has_separator; apply list_elem_of_here).
        rewrite Hna in Hc. apply list_elem_of_In in Hc. simpl in Hc.
        intuition discriminate.
    + intros Hall. destruct paths as [|p ps]; [reflexivity|].
      exfalso.
      assert (Hin : p ∈ p :: ps) by apply list_elem_of_here.
      apply Hmem in Hin as [Hne [item [Hin Hpath]]].
      apply Hne. rewrite <- Hpath. apply Hall. exact Hin.
  - exists paths. split; [exact Hsorted|].
    split; [exact Hmem | exact Heq].
Qed.

(** ** The table of binaries and the list of contributors *)

(** X12. The table of binaries of a non-empty list of releases has one row
    per release; the rows are in ascending order of the name of the
    microservice, and the releases of one microservice keep the order they
    have in the list. *)
Theorem binaries_rows_sorted_stable
  (self : MarkdownGenerator) (lines : list str) (releases : list Release) :
  releases <> [] ->
  exists rows : list Release,
    _add_binaries_section self lines releases
    = lines
      ++ [BINARIES_HEADING; []; py "| Microservice | Version |";
          py "|--------------|---------|"]
      ++ map (release_row self) rows ++ [[]]
    /\ rows ≡ₚ releases
    /\ StronglySorted
         (fun a b => str_leb (microservice a) (microservice b) = true) rows
    /\ forall name,
         filter (fun r => microservice r = name) rows
         = filter (fun r => microservice r = name) releases.
Proof.
  intros Hne.
  exists (sorted (fun a b => str_leb (microservice a) (microservice b)) releases).
  split; [|split; [|split]].
  - rewrite add_binaries_section_lines. destruct releases; [congruence|].
    reflexivity.
  - apply sorted_perm.
  - apply (sorted_sorted (fun a b => str_leb (microservice a) (microservice b))).
    + intros a b. apply str_leb_total.
    + intros a b c. apply str_leb_trans.
  - intros name. apply (sorted_stable microservice).
    intros a b ->. apply str_leb_refl.
Qed.

(** X12 at the releases of the tests: [api-gateway] before
    [auth-service]. *)
Lemma binaries_rows_sorted_stable_witness :
  exists rows : list Release,
    _add_binaries_section generator [] sample_releases
    = [BINARIES_HEADING; []; py "| Microservice | Version |";
       py "|--------------|---------|"]
      ++ map (release_row generator) rows ++ [[]]
    /\ rows ≡ₚ sample_releases.
Proof.
  destruct (binaries_rows_sorted_stable generator [] sample_releases)
    as [rows [Hlines [Hperm _]]]; [discriminate|].
  exists rows. split; assumption.
Defined.

(** X13. The Contributors section of a non-empty set lists every
    contributor once, in strictly ascending order. *)
Theorem contributors_section_sorted (lines : list str) (contributors : gset str) :
  contributors <> ∅ ->
  exists names : list str,
    StronglySorted (fun a b => str_ltb a b = true) names
    /\ (forall name, name ∈ names <-> name ∈ contributors)
    /\ _add_contributors_section lines contributors
       = lines ++ [CONTRIBUTORS_HEADING; []]
         ++ map (fun name => py "- " ++ name) names ++ [[]].
Proof.
  intros Hne. exists (sorted str_leb (elements contributors)).
  split; [apply sorted_elements_ascending|]. split.
  - intros name. rewrite sorted_elem_of, elem_of_elements. reflexivity.
  - rewrite add_contributors_section_lines.
    rewrite bool_decide_eq_false_2 by exact Hne. reflexivity.
Qed.

(** X13 at the contributors of the tests. *)
Lemma contributors_section_sorted_witness :
  exists names : list str,
    StronglySorted (fun a b => str_ltb a b = true) names
    /\ (forall name, name ∈ names <-> name ∈ sample_contributors).
Proof.
  destruct (contributors_section_sorted [] sample_contributors)
    as [names [Hs [Hmem _]]].
  - intros H. assert (Hin : py "Bob Engineer" ∈ sample_contributors)
      by (unfold sample_contributors; set_solver).
    rewrite H in Hin. set_solver.
  - exists names. split; assumption.
Defined.

(** ** Every work item is counted and listed once *)

Lemma type_order_NoDup : NoDup WORK_ITEM_TYPE_ORDER.
Proof. apply (bool_decide_unpack _). vm_compute. exact I. Qed.

Lemma group_order_NoDup (work_items : list WorkItem) : NoDup (group_order work_items).
Proof.
  unfold group_order. apply NoDup_app. split; [|split].
  - apply NoDup_filter, type_order_NoDup.
  - intros t H1 H2.
    apply list_elem_of_filter in H1 as [_ H1].
    apply list_elem_of_filter in H2 as [H2 _]. contradiction.
  - apply NoDup_filter. unfold sorted_keys.
    rewrite (sorted_perm str_leb). apply NoDup_elements.
Qed.

Lemma group_order_elem_of (work_items : list WorkItem) (t : str) :
  t ∈ group_order work_items <-> t ∈ types_of work_items.
Proof.
  unfold group_order, sorted_keys.
  rewrite elem_of_app, !list_elem_of_filter, sorted_elem_of, elem_of_elements,
    types_of_dom.
  destruct (decide (t ∈ WORK_ITEM_TYPE_ORDER)); tauto.
Qed.

Lemma filter_type_split (work_items : list WorkItem) (t : str) (rest : list str) :
  t ∉ rest ->
  filter (fun item => type item = t) work_items
  ++ filter (fun item => type item ∈ rest) work_items
  ≡ₚ filter (fun item => type item ∈ t :: rest) work_items.
Proof.
  intros Ht. induction work_items as [|item work_items IH]; [reflexivity|].
  rewrite !filter_cons.
  destruct (decide (type item = t)) as [E|E];
    destruct (decide (type item ∈ rest)) as [R|R];
    destruct (decide (type item ∈ t :: rest)) as [C|C].
  - exfalso. rewrite E in R. contradiction.
  - exfalso. rewrite E in R. contradiction.
  - simpl. constructor. exact IH.
  - exfalso. apply C. rewrite E. apply list_elem_of_here.
  - rewrite <- Permutation_middle. constructor. exact IH.
  - exfalso. apply C. apply list_elem_of_further. exact R.
  - exfalso. apply elem_of_cons in C as [C|C]; contradiction.
  - exact IH.
Qed.

(** The groups of types that do not repeat are, together, the work items
    of these types. *)
Lemma items_by_type_perm (work_items : list WorkItem) (order : list str) :
  NoDup order ->
  concat (map (items_of_type work_items) order)
  ≡ₚ filter (fun item => type item ∈ order) work_items.
Proof.
  induction 1 as [|t rest Ht Hnd IH].
  - simpl. induction work_items as [|item work_items IHw]; [reflexivity|].
    rewrite filter_cons_False by (intros H; inversion H). exact IHw.
  - simpl concat. rewrite IH. apply filter_type_split. exact Ht.
Qed.

Lemma group_order_perm (work_items : list WorkItem) :
  concat (map (items_of_type work_items) (group_order work_items)) ≡ₚ work_items.
Proof.
  rewrite items_by_type_perm by apply group_order_NoDup.
  assert (Hall : forall l : list WorkItem,
             (forall item, item ∈ l -> item ∈ work_items) ->
             filter (fun item => type item ∈ group_order work_items) l = l).
  { induction l as [|item l IH]; intros Hl; [reflexivity|].
    rewrite filter_cons_True.
    - f_equal. apply IH. intros i Hi. apply Hl. apply list_elem_of_further. exact Hi.
    - apply group_order_elem_of. apply list_elem_of_fmap. exists item.
      split; [reflexivity|]. apply Hl. apply list_elem_of_here. }
  rewrite Hall by auto. reflexivity.
Qed.

Lemma length_concat_sum {A} (ls : list (list A)) :
  length (concat ls) = sum_list (map (@length A) ls).
Proof.
  induction ls as [|l ls IH]; [reflexivity|].
  simpl. rewrite length_app, IH. reflexivity.
Qed.

Lemma concat_map_perm {A B} (f g : A -> list B) (l : list A) :
  (forall x, f x ≡ₚ g x) -> concat (map f l) ≡ₚ concat (map g l).
Proof.
  intros H. induction l as [|x l IH]; [reflexivity|].
  simpl. rewrite (H x), IH. reflexivity.
Qed.

(** The two loops of the breakdown (lines 107 to 117). *)
Lemma breakdown_known_loop (work_items : list WorkItem) (ts : list str) (lines : list str) :
  fold_left
    (fun lines work_type =>
       match _group_work_items_by_type work_items !! work_type with
       | Some items => lines ++ [breakdown_line work_type items]
       | None => lines
       end)
    ts lines
  = lines ++ map (fun t => breakdown_line t (items_of_type work_items t))
               (filter (fun t => t ∈ types_of work_items) ts).
Proof.
  revert lines. induction ts as [|t ts IH]; intros lines; simpl fold_left.
  - rewrite filter_nil, app_nil_r. reflexivity.
  - rewrite IH. destruct (decide (t ∈ types_of work_items)) as [Ht|Ht].
    + rewrite (group_lookup_present _ _ Ht), filter_cons_True by exact Ht.
      simpl map. rewrite <- app_assoc. reflexivity.
    + rewrite (group_lookup_missing _ _ Ht), filter_cons_False by exact Ht.
      reflexivity.
Qed.

Lemma breakdown_other_loop (work_items : list WorkItem) (ts : list str) (lines : list str) :
  fold_left
    (fun lines work_type =>
       if bool_decide (work_type ∈ WORK_ITEM_TYPE_ORDER) then lines
       else lines ++ [breakdown_line work_type
                        (default [] (_group_work_items_by_type work_items !! work_type))])
    ts lines
  = lines ++ map (fun t => breakdown_line t (items_of_type work_items t))
               (filter (fun t => t ∉ WORK_ITEM_TYPE_ORDER) ts).
Proof.
  revert lines. induction ts as [|t ts IH]; intros lines; simpl fold_left.
  - rewrite filter_nil, app_nil_r. reflexivity.
  - rewrite IH. case_bool_decide as Ht.
    + rewrite filter_cons_False by (intros H; exact (H Ht)). reflexivity.
    + rewrite group_lookup_default, filter_cons_True by exact Ht.
      simpl map. rewrite <- app_assoc. reflexivity.
Qed.

Lemma add_breakdown_by_type_lines (lines : list str) (work_items : list WorkItem) :
  _add_breakdown_by_type lines (_group_work_items_by_type work_items)
  = lines ++ [py "**Breakdown by Type:**"; []]
    ++ map (fun t => breakdown_line t (items_of_type work_items t))
         (group_order work_items)
    ++ [[]].
Proof.
  unfold _add_breakdown_by_type. cbv zeta.
  fold (breakdown_line).
  rewrite (breakdown_other_loop work_items), (breakdown_known_loop work_items).
  unfold group_order. rewrite map_app, <- !app_assoc. reflexivity.
Qed.

(** X14. The breakdown by type has one line per type that occurs among the
    work items, no type twice and none with the count zero, and its counts
    add up to the number of work items: every work item is counted once. *)
Theorem breakdown_counts_every_item (lines : list str) (work_items : list WorkItem) :
  exists order : list str,
    NoDup order
    /\ (forall t, t ∈ order <-> t ∈ types_of work_items)
    /\ _add_breakdown_by_type lines (_group_work_items_by_type work_items)
       = lines ++ [py "**Breakdown by Type:**"; []]
         ++ map (fun t => breakdown_line t (items_of_type work_items t)) order
         ++ [[]]
    /\ Forall (fun t => items_of_type work_items t <> []) order
    /\ sum_list (map (fun t => length (items_of_type work_items t)) order)
       = length work_items.
Proof.
  exists (group_order work_items).
  split; [apply group_order_NoDup|]. split; [apply group_order_elem_of|].
  split; [apply add_breakdown_by_type_lines|]. split.
  - apply Forall_forall. intros t Ht. apply group_order_elem_of in Ht.
    apply list_elem_of_fmap in Ht as [item [-> Hin]].
    intros Hnil.
    assert (Hf : item ∈ items_of_type work_items (type item)).
    { apply list_elem_of_filter. auto. }
    rewrite Hnil in Hf. inversion Hf.
  - rewrite <- (Permutation_length (group_order_perm work_items)).
    rewrite length_concat_sum, map_map. reflexivity.
Qed.

(** The two loops of the changelog, by the lines they write. *)
Lemma changelog_known_lines (self : MarkdownGenerator) (work_items : list WorkItem)
  (ts : list str) (lines : list str) :
  fold_left
    (fun lines work_type =>
       match _group_work_items_by_type work_items !! work_type with
       | Some items => _add_work_items_for_type self lines work_type items
       | None => lines
       end)
    ts lines
  = lines ++ concat (map (fun t => changelog_group self t (items_of_type work_items t))
                       (filter (fun t => t ∈ types_of work_items) ts)).
Proof.
  revert lines. induction ts as [|t ts IH]; intros lines; simpl fold_left.
  - rewrite filter_nil, app_nil_r. reflexivity.
  - rewrite IH. destruct (decide (t ∈ types_of work_items)) as [Ht|Ht].
    + rewrite (group_lookup_present _ _ Ht), filter_cons_True by exact Ht.
      rewrite add_work_items_for_type_lines. simpl concat.
      unfold changelog_group. rewrite <- !app_assoc. reflexivity.
    + rewrite (group_lookup_missing _ _ Ht), filter_cons_False by exact Ht.
      reflexivity.
Qed.

Lemma changelog_other_lines (self : MarkdownGenerator) (work_items : list WorkItem)
  (ts : list str) (lines : list str) :
  fold_left
    (fun lines work_type =>
       if bool_decide (work_type ∈ WORK_ITEM_TYPE_ORDER) then lines
       else _add_work_items_for_type self lines work_type
              (default [] (_group_work_items_by_type work_items !! work_type)))
    ts lines
  = lines ++ concat (map (fun t => changelog_group self t (items_of_type work_items t))
                       (filter (fun t => t ∉ WORK_ITEM_TYPE_ORDER) ts)).
Proof.
  revert lines. induction ts as [|t ts IH]; intros lines; simpl fold_left.
  - rewrite filter_nil, app_nil_r. reflexivity.
  - rewrite IH. case_bool_decide as Ht.
    + rewrite filter_cons_False by (intros H; exact (H Ht)). reflexivity.
    + rewrite group_lookup_default, filter_cons_True by exact Ht.
      rewrite add_work_items_for_type_lines. simpl concat.
      unfold changelog_group. rewrite <- !app_assoc. reflexivity.
Qed.

Lemma add_changelog_section_lines (self : MarkdownGenerator) (lines : list str)
  (work_items : list WorkItem) :
  _add_changelog_section self lines (_group_work_items_by_type work_items)
  = lines ++ [CHANGELOG_HEADING; []]
    ++ concat (map (fun t => changelog_group self t (items_of_type work_items t))
                 (group_order work_items)).
Proof.
  unfold _add_changelog_section.
  rewrite changelog_other_lines, changelog_known_lines.
  unfold group_order. rewrite map_app, concat_app, <- !app_assoc. reflexivity.
Qed.

(** X15. The changelog is its heading followed by one group per type that
    occurs among the work items, no type twice; a group is its heading, a
    blank line, the lines of its work items in ascending order of their
    identifiers, and a blank line. The work items of the groups, taken
    together, are the work items of the input, each once. *)
Theorem changelog_lists_every_item
  (self : MarkdownGenerator) (lines : list str) (work_items : list WorkItem) :
  exists order : list str,
    NoDup order
    /\ (forall t, t ∈ order <-> t ∈ types_of work_items)
    /\ _add_changelog_section self lines (_group_work_items_by_type work_items)
       = lines ++ [CHANGELOG_HEADING; []]
         ++ concat (map (fun t =>
                           [group_heading t (items_of_type work_items t); []]
                           ++ map (item_line self)
                                (sorted id_leb (items_of_type work_items t))
                           ++ [[]])
                      order)
    /\ concat (map (fun t => sorted id_leb (items_of_type work_items t)) order)
       ≡ₚ work_items.
Proof.
  exists (group_order work_items).
  split; [apply group_order_NoDup|]. split; [apply group_order_elem_of|]. split.
  - apply add_changelog_section_lines.
  - rewrite <- (group_order_perm work_items) at 2.
    apply concat_map_perm. intros t. apply sorted_perm.
Qed.

(** ** The deployment instructions *)


Lemma add_deployment_instruction_item_lines
  (self : MarkdownGenerator) (lines : list str) (item : WorkItem) :
  truthy (notes item) = true ->
  _add_deployment_instruction_item self lines item
  = Ok (lines ++ deployment_block self item).
Proof.
  intros Ht. unfold _add_deployment_instruction_item, deployment_block, deployment_link.
  destruct (notes item) as [note|]; [|discriminate]. simpl default.
  rewrite (fold_left_append (fun note_item => py "  - " ++ note_item)).
  rewrite <- !app_assoc. reflexivity.
Qed.

Lemma for_each_deployment_blocks
  (self : MarkdownGenerator) (items : list WorkItem) (lines : list str) :
  Forall (fun item => truthy (notes item) = true) items ->
  for_each (_add_deployment_instruction_item self) items lines
  = Ok (lines ++ concat (map (deployment_block self) items)).
Proof.
  intros Hall. revert lines.
  induction Hall as [|item items Hitem _ IH]; intros lines; simpl.
  - rewrite app_nil_r. reflexivity.
  - rewrite (add_deployment_instruction_item_lines _ _ _ Hitem). simpl.
    rewrite IH, <- app_assoc. reflexivity.
Qed.

(** X16. The Deployment Instructions section never raises. It is written
    for the work items whose notes pass the truth test, in ascending order
    of their identifiers, items of one identifier in the order of the
    input: the heading, a blank line, and for each of these items its link,
    its instructions and a blank line. Without such an item nothing is
    written. *)
Theorem deployment_section_by_id
  (self : MarkdownGenerator) (lines : list str) (work_items : list WorkItem) :
  exists items : list WorkItem,
    items ≡ₚ filter (fun item => truthy (notes item) = true) work_items
    /\ StronglySorted (fun a b => (id a <= id b)%Z) items
    /\ (forall i,
          filter (fun item => id item = i) items
          = filter (fun item => id item = i)
              (filter (fun item => truthy (notes item) = true) work_items))
    /\ _add_deployment_instructions_section self lines work_items
       = Ok (match items with
             | [] => lines
             | _ =>
                 lines ++ [DEPLOYMENT_HEADING; []]
                 ++ concat (map (deployment_block self) items)
             end).
Proof.
  exists (_filter_items_with_notes work_items).
  split; [apply sorted_perm|]. split; [|split].
  - unfold _filter_items_with_notes.
    eapply StronglySorted_impl;
      [|apply (sorted_sorted (fun a b => Z.leb (id a) (id b)))].
    + intros a b H. simpl in H. lia.
    + intros a b. simpl. lia.
    + intros a b c. simpl. lia.
  - intros i. unfold _filter_items_with_notes.
    apply (sorted_stable id). intros a b ->. apply Z.leb_refl.
  - unfold _add_deployment_instructions_section.
    pose proof (filter_items_with_notes_truthy work_items) as Hall.
    destruct (_filter_items_with_notes work_items) as [|item items]; [reflexivity|].
    rewrite (for_each_deployment_blocks self _ _ Hall), <- app_assoc. reflexivity.
Qed.



(** ** Tags: none is left *)

(** X18. One pass of the removal of tags leaves no tag: in the text it
    returns no [<], followed by at least one character other than [>] and
    then by a [>], occurs, so a second pass changes nothing. The removal
    adds no character, and leaves a text without tag as it is. *)
Theorem strip_tags_leaves_no_tag (s : str) :
  ~ has_tag (strip_tags s)
  /\ strip_tags (strip_tags s) = strip_tags s
  /\ (forall c, c ∈ strip_tags s -> c ∈ s)
  /\ (~ has_tag s -> strip_tags s = s).
Proof.
  assert (H : ~ has_tag (strip_tags s)) by apply strip_tags_fuel_no_tag.
  split; [exact H|]. split; [apply strip_tags_fixed; exact H|].
  split; [intros c; apply strip_tags_fuel_subset | apply strip_tags_fixed].
Qed.

(** X19. Every instruction extracted from notes is clean: it is not
    empty, it neither starts nor ends with whitespace, and no tag occurs in
    it. *)
Theorem note_items_are_clean (notes : str) :
  Forall (fun item => item <> [] /\ strip item = item /\ ~ has_tag item)
    (_convert_notes_to_list_items notes).
Proof.
  assert (Hclean : forall x : str,
             strip (strip_tags x) <> [] ->
             strip (strip_tags x) <> []
             /\ strip (strip (strip_tags x)) = strip (strip_tags x)
             /\ ~ has_tag (strip (strip_tags x))).
  { intros x Hne. split; [exact Hne|]. split; [apply strip_idempotent|].
    intros Ht. apply (strip_tags_fuel_no_tag (S (length x)) x).
    fold (strip_tags x).
    destruct (strip_decomp (strip_tags x)) as [l [r [Hx _]]].
    rewrite Hx. apply has_tag_infix. exact Ht. }
  rewrite convert_notes_to_list_items_unfold.
  destruct (findall_li notes) as [|item items].
  - destruct (strip (strip_tags notes)) as [|c t] eqn:E; [constructor|].
    constructor; [|constructor]. rewrite <- E. apply Hclean. rewrite E. discriminate.
  - apply Forall_forall. intros x Hx.
    apply list_elem_of_filter in Hx as [Hne Hx].
    apply list_elem_of_In, in_map_iff in Hx as [y [<- _]].
    apply Hclean. exact Hne.
Qed.

(** ** The order of the sections *)

Lemma filter_filter_impl {A} (P Q : A -> Prop) `{forall x, Decision (P x)}
  `{forall x, Decision (Q x)} (l : list A) :
  (forall x, P x -> Q x) -> filter P (filter Q l) = filter P l.
Proof.
  intros HPQ. induction l as [|x l IH]; [reflexivity|].
  rewrite (filter_cons Q), (filter_cons P).
  destruct (decide (Q x)) as [Hq|Hq].
  - rewrite filter_cons, IH. reflexivity.
  - rewrite IH. destruct (decide (P x)) as [Hp|Hp]; [|reflexivity].
    exfalso. apply Hq, HPQ, Hp.
Qed.

Lemma section_heading_structural (line : str) :
  is_section_heading line -> is_structural line.
Proof.
  unfold is_section_heading, is_structural. intros H.
  destruct (startswith (py "## ") line); [exact I | destruct H].
Qed.

Lemma section_headings_of_rows (self : MarkdownGenerator) (releases : list Release) :
  filter (fun line => is_section_heading line) (map (release_row self) releases) = [].
Proof.
  apply filter_map_none. intros r.
  destruct (release_row_starts_with_bar self r) as [rest ->].
  unfold is_section_heading. simpl. auto.
Qed.

Section section_order.

Variable fromisoformat : str -> result datetime.

(** The headings of a report that is returned. *)
Lemma report_headings
  (self : MarkdownGenerator) (release_number : str) (work_items : list WorkItem)
  (releases : list Release) (contributors : gset str) (lines : list str) :
  generate_lines fromisoformat self release_number work_items releases contributors
  = Ok lines ->
  SUMMARY_HEADING ∈ lines
  /\ (BINARIES_HEADING ∈ lines <-> releases <> [])
  /\ CHANGELOG_HEADING ∈ lines
  /\ (DEPLOYMENT_HEADING ∈ lines <-> _filter_items_with_notes work_items <> [])
  /\ (CONTRIBUTORS_HEADING ∈ lines <-> contributors <> ∅)
  /\ filter (fun line => is_section_heading line) lines
     = [SUMMARY_HEADING]
       ++ match releases with [] => [] | _ => [BINARIES_HEADING] end
       ++ [CHANGELOG_HEADING]
       ++ match _filter_items_with_notes work_items with
          | [] => []
          | _ => [DEPLOYMENT_HEADING]
          end
       ++ if bool_decide (contributors = ∅) then [] else [CONTRIBUTORS_HEADING].
Proof.
  intros Hgen.
  pose proof (generate_lines_outcome fromisoformat self release_number work_items
                releases contributors) as Hout.
  destruct (_extract_release_date fromisoformat releases) as [date|e];
    [|congruence].
  destruct Hout as [lines' [Hgen' F]].
  assert (lines' = lines) as -> by congruence. clear Hgen Hgen'.
  rewrite <- (filter_filter_impl (fun line => is_section_heading line)
                (fun line => is_structural line) lines)
    by apply section_heading_structural.
  rewrite (structural_elem_of SUMMARY_HEADING) by reflexivity.
  rewrite (structural_elem_of BINARIES_HEADING) by reflexivity.
  rewrite (structural_elem_of CHANGELOG_HEADING) by reflexivity.
  rewrite (structural_elem_of DEPLOYMENT_HEADING) by reflexivity.
  rewrite (structural_elem_of CONTRIBUTORS_HEADING) by reflexivity.
  rewrite F. clear F.
  destruct releases as [|r rs];
    destruct (_filter_items_with_notes work_items) as [|item items];
    case_bool_decide as Hc;
    (split; [|split; [|split; [|split; [|split]]]]).
  all: try (rewrite !filter_app, ?section_headings_of_rows; reflexivity).
  all: try (simpl app;
            repeat first
              [ apply list_elem_of_here
              | apply list_elem_of_further
              | apply elem_of_app; right ];
            fail).
  all: split; intros H; try congruence; try discriminate.
  all: try (exfalso; heading_cases;
            first [ not_a_row H | vm_compute in H; discriminate H ]; fail).
  all: simpl app;
    repeat first
      [ apply list_elem_of_here
      | apply list_elem_of_further
      | apply elem_of_app; right ].
Qed.

(** X20. The section headings of a report that is returned are, in this
    order and each once, those of Summary, Binaries, Changelog, Deployment
    Instructions and Contributors that it has; it always has Summary and
    Changelog. *)
Theorem report_sections_in_order
  (self : MarkdownGenerator) (release_number : str) (work_items : list WorkItem)
  (releases : list Release) (contributors : gset str) (lines : list str) :
  generate_lines fromisoformat self release_number work_items releases contributors
  = Ok lines ->
  filter (fun line => is_section_heading line) lines
  = filter (fun heading => heading ∈ lines)
      [SUMMARY_HEADING; BINARIES_HEADING; CHANGELOG_HEADING; DEPLOYMENT_HEADING;
       CONTRIBUTORS_HEADING]
  /\ SUMMARY_HEADING ∈ lines
  /\ CHANGELOG_HEADING ∈ lines.
Proof.
  intros Hgen.
  destruct (report_headings self release_number work_items releases contributors
              lines Hgen) as [Hs [Hb [Hc [Hd [Hco Hf]]]]].
  split; [|split; [exact Hs | exact Hc]].
  rewrite Hf, !filter_cons, filter_nil. clear Hf Hgen.
  destruct (decide (SUMMARY_HEADING ∈ lines)); [|contradiction].
  destruct (decide (CHANGELOG_HEADING ∈ lines)); [|contradiction].
  destruct releases as [|r rs];
    destruct (_filter_items_with_notes work_items) as [|item items];
    case_bool_decide as Hempty;
    destruct (decide (BINARIES_HEADING ∈ lines)) as [Hb'|Hb'];
    destruct (decide (DEPLOYMENT_HEADING ∈ lines)) as [Hd'|Hd'];
    destruct (decide (CONTRIBUTORS_HEADING ∈ lines)) as [Hco'|Hco'];
    try reflexivity; exfalso;
    try (apply Hb in Hb'; congruence);
    try (apply Hd in Hd'; congruence);
    try (apply Hco in Hco'; congruence);
    try (apply Hb'; apply Hb; discriminate);
    try (apply Hd'; apply Hd; discriminate);
    try (apply Hco'; apply Hco; assumption).
Qed.

(** X21. On work items whose notes went through the normalization of the
    gateway, the Deployment Instructions heading is in the report exactly
    when some work item has notes: normalized notes are absent or not
    empty, so the truth test of the generator drops none that is present. *)
Theorem gateway_notes_bring_deployment_section
  (self : MarkdownGenerator) (release_number : str) (work_items : list WorkItem)
  (releases : list Release) (contributors : gset str) (lines : list str) :
  (forall item, item ∈ work_items ->
     exists raw, notes item = azure_devops_client._parse_notes_field raw) ->
  generate_lines fromisoformat self release_number work_items releases contributors
  = Ok lines ->
  (DEPLOYMENT_HEADING ∈ lines <-> exists item, item ∈ work_items /\ notes item <> None).
Proof.
  intros Hparsed Hgen.
  destruct (report_headings self release_number work_items releases contributors
              lines Hgen) as [_ [_ [_ [Hd _]]]].
  rewrite Hd, <- has_notes_filter. unfold has_notes. split.
  - intros [item [note [Hin [Hn _]]]]. exists item. split; [exact Hin|]. congruence.
  - intros [item [Hin Hn]]. destruct (notes item) as [note|] eqn:E; [|congruence].
    exists item, note. split; [exact Hin|]. split; [exact E|].
    destruct (Hparsed item Hin) as [raw Hraw]. rewrite E in Hraw.
    destruct raw as [raw|]; [|discriminate Hraw].
    rewrite parse_notes_field_strip in Hraw.
    destruct (strip raw) as [|c t]; [discriminate Hraw|].
    injection Hraw as ->. discriminate.
Qed.

End section_order.

(** X20 at the sample inputs of the tests. *)
Lemma report_sections_in_order_witness :
  filter (fun line => is_section_heading line) (lines_of sample_report)
  = [SUMMARY_HEADING; BINARIES_HEADING; CHANGELOG_HEADING; CONTRIBUTORS_HEADING].
Proof.
  destruct (report_sections_in_order isoformat.fromisoformat generator (py "2025.006")
              sample_work_items sample_releases sample_contributors
              (lines_of sample_report)) as [Hf _].
  - vm_compute. reflexivity.
  - rewrite Hf. vm_compute. reflexivity.
Defined.

(** X21 at one work item whose notes, two blanks around a list item, went
    through the normalization. *)
Lemma gateway_notes_bring_deployment_section_witness :
  DEPLOYMENT_HEADING
  ∈ lines_of
      (generate_lines isoformat.fromisoformat generator (py "2025.006")
         [mkWorkItem 7 (py "Rotate keys") (py "Task") (py "Done") (py "Sprint 3")
            (azure_devops_client._parse_notes_field
               (Some (py " <li>Restart the service</li> ")))]
         [] ∅).
Proof.
  apply (gateway_notes_bring_deployment_section isoformat.fromisoformat generator
           (py "2025.006")
           [mkWorkItem 7 (py "Rotate keys") (py "Task") (py "Done") (py "Sprint 3")
              (azure_devops_client._parse_notes_field
                 (Some (py " <li>Restart the service</li> ")))]
           [] ∅).
  - intros item Hin. apply list_elem_of_singleton in Hin as ->.
    exists (Some (py " <li>Restart the service</li> ")). reflexivity.
  - vm_compute. reflexivity.
  - eexists. split; [apply list_elem_of_here|]. vm_compute. discriminate.
Defined.

(** ** The header of the requests *)

Example create_auth_header_of_the_tests :
  azure_devops_client._create_auth_header gateway_fixtures.client
  = Ok (py "Basic OnRlc3RfcGF0X3Rva2VuXzEyMw==")
  /\ pycodec.utf8_encode ([58; 233; 8364; 128512])
     = Ok [58; 195; 169; 226; 130; 172; 240; 159; 152; 128]
  /\ pycodec.b64encode [58; 195; 169; 226; 130; 172; 240; 159; 152; 128]
     = py "OsOp4oKs8J+YgA==".
Proof. repeat split; vm_compute; reflexivity. Qed.

Lemma b64_alphabet_NoDup : NoDup pycodec.B64_ALPHABET.
Proof. apply (bool_decide_unpack _). vm_compute. exact I. Qed.

Lemma b64_char_lookup (i : N) :
  i < 64 -> pycodec.B64_ALPHABET !! N.to_nat i = Some (pycodec.b64_char i).
Proof.
  intros Hi. unfold pycodec.b64_char.
  destruct (nth_lookup_or_length pycodec.B64_ALPHABET (N.to_nat i) 0) as [H|H];
    [exact H|].
  exfalso. change (length pycodec.B64_ALPHABET) with 64%nat in H. lia.
Qed.

Lemma b64_char_inj (i j : N) :
  i < 64 -> j < 64 -> pycodec.b64_char i = pycodec.b64_char j -> i = j.
Proof.
  intros Hi Hj H. apply N2Nat.inj.
  apply (NoDup_lookup pycodec.B64_ALPHABET _ _ (pycodec.b64_char i));
    [apply b64_alphabet_NoDup | apply b64_char_lookup; exact Hi|].
  rewrite H. apply b64_char_lookup. exact Hj.
Qed.

Lemma b64_char_alphabet (i : N) : i < 64 -> pycodec.b64_char i ∈ pycodec.B64_ALPHABET.
Proof. intros Hi. eapply list_elem_of_lookup_2, b64_char_lookup, Hi. Qed.

Lemma b64_char_not_pad (i : N) : i < 64 -> pycodec.b64_char i <> 61.
Proof.
  intros Hi H. pose proof (b64_char_alphabet i Hi) as Hin. rewrite H in Hin.
  apply list_elem_of_In in Hin. vm_compute in Hin. intuition discriminate.
Qed.

Ltac n_divmod a k :=
  pose proof (N.div_mod a k ltac:(discriminate));
  pose proof (N.mod_lt a k ltac:(discriminate));
  pose proof (N.le_0_l (a / k));
  pose proof (N.le_0_l (a mod k)).

Lemma sextets_determine_bytes (a b c a' b' c' : N) :
  a < 256 -> b < 256 -> c < 256 -> a' < 256 -> b' < 256 -> c' < 256 ->
  a / 4 = a' / 4 ->
  a mod 4 * 16 + b / 16 = a' mod 4 * 16 + b' / 16 ->
  b mod 16 * 4 + c / 64 = b' mod 16 * 4 + c' / 64 ->
  c mod 64 = c' mod 64 ->
  a = a' /\ b = b' /\ c = c'.
Proof.
  intros.
  n_divmod a 4. n_divmod a' 4. n_divmod b 16. n_divmod b' 16.
  n_divmod c 64. n_divmod c' 64.
  lia.
Qed.

Lemma sextet_bounds (a b : N) :
  a < 256 -> b < 256 ->
  a / 4 < 64 /\ a mod 4 * 16 + b / 16 < 64 /\ a mod 16 * 4 + b / 64 < 64
  /\ a mod 64 < 64 /\ a mod 4 * 16 < 64 /\ a mod 16 * 4 < 64.
Proof.
  intros.
  n_divmod a 4. n_divmod a 16. n_divmod a 64. n_divmod b 16. n_divmod b 64.
  lia.
Qed.

Lemma list_ind3 {A} (P : list A -> Prop) :
  P [] -> (forall a, P [a]) -> (forall a b, P [a; b]) ->
  (forall a b c l, P l -> P (a :: b :: c :: l)) ->
  forall l, P l.
Proof.
  intros H0 H1 H2 H3. fix IH 1.
  intros [|a [|b [|c l]]]; [apply H0 | apply H1 | apply H2 | apply H3; apply IH].
Qed.

Lemma b64encode_length (data : list N) :
  length (pycodec.b64encode data) = (4 * ((length data + 2) / 3))%nat.
Proof.
  induction data as [|a|a b|a b c l IH] using list_ind3; try reflexivity.
  change (pycodec.b64encode (a :: b :: c :: l))
    with ([pycodec.b64_char (a / 4); pycodec.b64_char (a mod 4 * 16 + b / 16);
           pycodec.b64_char (b mod 16 * 4 + c / 64); pycodec.b64_char (c mod 64)]
          ++ pycodec.b64encode l).
  rewrite length_app, IH. cbn [length].
  replace (S (S (S (length l))) + 2)%nat with (length l + 2 + 1 * 3)%nat by lia.
  rewrite Nat.div_add by discriminate. lia.
Qed.

Ltac b64_chars :=
  repeat first
    [ apply List.Forall_nil
    | apply Forall_cons; split;
      [ first [ left; apply b64_char_alphabet; assumption | right; reflexivity ] | ] ].

Lemma b64encode_alphabet (data : list N) :
  Forall (fun b => b < 256) data ->
  Forall (fun c => c ∈ pycodec.B64_ALPHABET \/ c = 61) (pycodec.b64encode data).
Proof.
  induction data as [|a|a b|a b c l IH] using list_ind3; intros Hb.
  - constructor.
  - apply Forall_cons in Hb as [Ha _].
    destruct (sextet_bounds a a Ha Ha) as [H1 [_ [_ [_ [H2 _]]]]].
    cbn [pycodec.b64encode].
    b64_chars.
  - apply Forall_cons in Hb as [Ha Hb]. apply Forall_cons in Hb as [Hb _].
    destruct (sextet_bounds a b Ha Hb) as [H1 [H2 _]].
    destruct (sextet_bounds b b Hb Hb) as [_ [_ [_ [_ [_ H3]]]]].
    cbn [pycodec.b64encode].
    b64_chars.
  - apply Forall_cons in Hb as [Ha Hb]. apply Forall_cons in Hb as [Hb Hc].
    apply Forall_cons in Hc as [Hc Hl].
    destruct (sextet_bounds a b Ha Hb) as [H1 [H2 _]].
    destruct (sextet_bounds b c Hb Hc) as [_ [_ [H3 _]]].
    destruct (sextet_bounds c c Hc Hc) as [_ [_ [_ [H4 _]]]].
    change (pycodec.b64encode (a :: b :: c :: l))
      with ([pycodec.b64_char (a / 4); pycodec.b64_char (a mod 4 * 16 + b / 16);
             pycodec.b64_char (b mod 16 * 4 + c / 64); pycodec.b64_char (c mod 64)]
            ++ pycodec.b64encode l).
    apply Forall_app. split; [|apply IH; exact Hl].
    b64_chars.
Qed.

Lemma b64_one_byte (a a' : N) :
  a < 256 -> a' < 256 ->
  pycodec.b64_char (a / 4) = pycodec.b64_char (a' / 4) ->
  pycodec.b64_char (a mod 4 * 16) = pycodec.b64_char (a' mod 4 * 16) ->
  a = a'.
Proof.
  intros Ha Ha' H1 H2.
  destruct (sextet_bounds a a Ha Ha) as [B1 [_ [_ [_ [B2 _]]]]].
  destruct (sextet_bounds a' a' Ha' Ha') as [B1' [_ [_ [_ [B2' _]]]]].
  apply b64_char_inj in H1; [|assumption..].
  apply b64_char_inj in H2; [|assumption..].
  n_divmod a 4. n_divmod a' 4. lia.
Qed.

Lemma b64_two_bytes (a b a' b' : N) :
  a < 256 -> b < 256 -> a' < 256 -> b' < 256 ->
  pycodec.b64_char (a / 4) = pycodec.b64_char (a' / 4) ->
  pycodec.b64_char (a mod 4 * 16 + b / 16)
  = pycodec.b64_char (a' mod 4 * 16 + b' / 16) ->
  pycodec.b64_char (b mod 16 * 4) = pycodec.b64_char (b' mod 16 * 4) ->
  a = a' /\ b = b'.
Proof.
  intros Ha Hb Ha' Hb' H1 H2 H3.
  destruct (sextet_bounds a b Ha Hb) as [B1 [B2 _]].
  destruct (sextet_bounds b b Hb Hb) as [_ [_ [_ [_ [_ B3]]]]].
  destruct (sextet_bounds a' b' Ha' Hb') as [B1' [B2' _]].
  destruct (sextet_bounds b' b' Hb' Hb') as [_ [_ [_ [_ [_ B3']]]]].
  apply b64_char_inj in H1; [|assumption..].
  apply b64_char_inj in H2; [|assumption..].
  apply b64_char_inj in H3; [|assumption..].
  n_divmod a 4. n_divmod a' 4. n_divmod b 16. n_divmod b' 16. lia.
Qed.

Lemma b64_three_bytes (a b c a' b' c' : N) :
  a < 256 -> b < 256 -> c < 256 -> a' < 256 -> b' < 256 -> c' < 256 ->
  pycodec.b64_char (a / 4) = pycodec.b64_char (a' / 4) ->
  pycodec.b64_char (a mod 4 * 16 + b / 16)
  = pycodec.b64_char (a' mod 4 * 16 + b' / 16) ->
  pycodec.b64_char (b mod 16 * 4 + c / 64)
  = pycodec.b64_char (b' mod 16 * 4 + c' / 64) ->
  pycodec.b64_char (c mod 64) = pycodec.b64_char (c' mod 64) ->
  a = a' /\ b = b' /\ c = c'.
Proof.
  intros Ha Hb Hc Ha' Hb' Hc' H1 H2 H3 H4.
  destruct (sextet_bounds a b Ha Hb) as [B1 [B2 _]].
  destruct (sextet_bounds b c Hb Hc) as [_ [_ [B3 _]]].
  destruct (sextet_bounds c c Hc Hc) as [_ [_ [_ [B4 _]]]].
  destruct (sextet_bounds a' b' Ha' Hb') as [B1' [B2' _]].
  destruct (sextet_bounds b' c' Hb' Hc') as [_ [_ [B3' _]]].
  destruct (sextet_bounds c' c' Hc' Hc') as [_ [_ [_ [B4' _]]]].
  apply b64_char_inj in H1; [|assumption..].
  apply b64_char_inj in H2; [|assumption..].
  apply b64_char_inj in H3; [|assumption..].
  apply b64_char_inj in H4; [|assumption..].
  apply sextets_determine_bytes; assumption.
Qed.

Ltac bytes_of_Forall :=
  repeat match goal with
    | H : Forall _ (_ :: _) |- _ =>
        let Hx := fresh "Hbyte" in apply Forall_cons in H as [Hx H]
    end.

Ltac sextet_lt :=
  match goal with
  | |- ?a / 4 < 64 => apply (sextet_bounds a a)
  | |- ?a mod 4 * 16 + ?b / 16 < 64 => apply (sextet_bounds a b)
  | |- ?a mod 16 * 4 + ?b / 64 < 64 => apply (sextet_bounds a b)
  | |- ?a mod 64 < 64 => apply (sextet_bounds a a)
  | |- ?a mod 4 * 16 < 64 => apply (sextet_bounds a a)
  | |- ?a mod 16 * 4 < 64 => apply (sextet_bounds a a)
  end; assumption.

(** From a padding character that stands where the other text has a
    character of the alphabet. *)
Ltac pad_clash :=
  exfalso;
  match goal with
  | H : pycodec.b64_char ?x = 61 |- _ =>
      apply (b64_char_not_pad x); [sextet_lt | exact H]
  | H : 61 = pycodec.b64_char ?x |- _ =>
      apply (b64_char_not_pad x); [sextet_lt | symmetry; exact H]
  end.

Lemma b64encode_inj (l1 l2 : list N) :
  Forall (fun b => b < 256) l1 -> Forall (fun b => b < 256) l2 ->
  pycodec.b64encode l1 = pycodec.b64encode l2 -> l1 = l2.
Proof.
  revert l2.
  induction l1 as [|a|a b|a b c l1 IH] using list_ind3;
    intros [|a' [|b' [|c' l2]]] H1 H2 H;
    try reflexivity; try discriminate H; bytes_of_Forall.
  - injection H as E1 E2. f_equal. apply b64_one_byte; assumption.
  - injection H as E1 E2 E3. pad_clash.
  - change (pycodec.b64encode (a' :: b' :: c' :: l2))
      with ([pycodec.b64_char (a' / 4); pycodec.b64_char (a' mod 4 * 16 + b' / 16);
             pycodec.b64_char (b' mod 16 * 4 + c' / 64); pycodec.b64_char (c' mod 64)]
            ++ pycodec.b64encode l2) in H.
    injection H as E1 E2 E3 E4. pad_clash.
  - injection H as E1 E2 E3. pad_clash.
  - injection H as E1 E2 E3.
    destruct (b64_two_bytes a b a' b') as [-> ->]; auto.
  - change (pycodec.b64encode (a' :: b' :: c' :: l2))
      with ([pycodec.b64_char (a' / 4); pycodec.b64_char (a' mod 4 * 16 + b' / 16);
             pycodec.b64_char (b' mod 16 * 4 + c' / 64); pycodec.b64_char (c' mod 64)]
            ++ pycodec.b64encode l2) in H.
    injection H as E1 E2 E3 E4 E5. pad_clash.
  - change (pycodec.b64encode (a :: b :: c :: l1))
      with ([pycodec.b64_char (a / 4); pycodec.b64_char (a mod 4 * 16 + b / 16);
             pycodec.b64_char (b mod 16 * 4 + c / 64); pycodec.b64_char (c mod 64)]
            ++ pycodec.b64encode l1) in H.
    injection H as E1 E2 E3 E4. pad_clash.
  - change (pycodec.b64encode (a :: b :: c :: l1))
      with ([pycodec.b64_char (a / 4); pycodec.b64_char (a mod 4 * 16 + b / 16);
             pycodec.b64_char (b mod 16 * 4 + c / 64); pycodec.b64_char (c mod 64)]
            ++ pycodec.b64encode l1) in H.
    injection H as E1 E2 E3 E4 E5. pad_clash.
  - change (pycodec.b64encode (a :: b :: c :: l1))
      with ([pycodec.b64_char (a / 4); pycodec.b64_char (a mod 4 * 16 + b / 16);
             pycodec.b64_char (b mod 16 * 4 + c / 64); pycodec.b64_char (c mod 64)]
            ++ pycodec.b64encode l1) in H.
    change (pycodec.b64encode (a' :: b' :: c' :: l2))
      with ([pycodec.b64_char (a' / 4); pycodec.b64_char (a' mod 4 * 16 + b' / 16);
             pycodec.b64_char (b' mod 16 * 4 + c' / 64); pycodec.b64_char (c' mod 64)]
            ++ pycodec.b64encode l2) in H.
    injection H as E1 E2 E3 E4 E5.
    destruct (b64_three_bytes a b c a' b' c') as [-> [-> ->]]; auto.
    do 3 f_equal. apply IH; assumption.
Qed.

Lemma utf8_encode_ascii (s : str) : is_ascii s -> pycodec.utf8_encode s = Ok s.
Proof.
  induction 1 as [|c s Hc _ IH]; [reflexivity|].
  cbn [pycodec.utf8_encode]. unfold pycodec.utf8_encode_char.
  destruct (N.ltb_spec c 128); [|lia]. simpl. rewrite IH. reflexivity.
Qed.

Lemma utf8_encode_char_outcome (c : N) :
  (is_surrogate c /\ pycodec.utf8_encode_char c = Raise ValueError)
  \/ (~ is_surrogate c /\ exists bytes, pycodec.utf8_encode_char c = Ok bytes).
Proof.
  unfold is_surrogate, pycodec.utf8_encode_char.
  destruct (N.ltb_spec c 128); [right; split; [lia | eexists; reflexivity]|].
  destruct (N.ltb_spec c 2048); [right; split; [lia | eexists; reflexivity]|].
  destruct (N.leb_spec 55296 c), (N.leb_spec c 57343); simpl;
    try (left; split; [lia | reflexivity]);
    destruct (N.ltb_spec c 65536); right; (split; [lia | eexists; reflexivity]).
Qed.

Lemma utf8_encode_outcome (s : str) :
  (Exists is_surrogate s /\ pycodec.utf8_encode s = Raise ValueError)
  \/ (Forall (fun c => ~ is_surrogate c) s
      /\ exists bytes, pycodec.utf8_encode s = Ok bytes).
Proof.
  induction s as [|c s IH].
  - right. split; [constructor | eexists; reflexivity].
  - cbn [pycodec.utf8_encode].
    destruct (utf8_encode_char_outcome c) as [[Hc ->]|[Hc [bytes ->]]].
    + left. split; [apply Exists_cons_hd; exact Hc | reflexivity].
    + simpl. destruct IH as [[Hs ->]|[Hs [rest ->]]].
      * left. split; [apply Exists_cons_tl; exact Hs | reflexivity].
      * right. split; [constructor; assumption | eexists; reflexivity].
Qed.

Lemma ascii_bytes (s : str) : is_ascii s -> Forall (fun b => b < 256) s.
Proof. intros H. eapply Forall_impl; [exact H|]. intros c Hc. simpl in Hc. lia. Qed.

Lemma create_auth_header_of_ascii (self : azure_devops_client.AzureDevOpsClient) :
  is_ascii (azure_devops_client.pat self) ->
  azure_devops_client._create_auth_header self
  = Ok (py "Basic " ++ pycodec.b64encode (58 :: azure_devops_client.pat self)).
Proof.
  intros Ha. unfold azure_devops_client._create_auth_header.
  change (py ":" ++ azure_devops_client.pat self)
    with (58 :: azure_devops_client.pat self).
  rewrite utf8_encode_ascii; [reflexivity|].
  constructor; [reflexivity | exact Ha].
Qed.

(** X22. For a token of ASCII characters the header is returned: it is
    [Basic], a blank and a payload of four characters for every three bytes
    of the colon and the token, rounded up, each a character of the base64
    alphabet or the padding [=]. *)
Theorem create_auth_header_ascii (self : azure_devops_client.AzureDevOpsClient) :
  is_ascii (azure_devops_client.pat self) ->
  exists payload,
    azure_devops_client._create_auth_header self = Ok (py "Basic " ++ payload)
    /\ length payload
       = (4 * ((length (azure_devops_client.pat self) + 3) / 3))%nat
    /\ Forall (fun c => c ∈ pycodec.B64_ALPHABET \/ c = 61) payload.
Proof.
  intros Ha. exists (pycodec.b64encode (58 :: azure_devops_client.pat self)).
  split; [apply create_auth_header_of_ascii; exact Ha|]. split.
  - rewrite b64encode_length. cbn [length]. do 2 f_equal. lia.
  - apply b64encode_alphabet. apply ascii_bytes.
    constructor; [reflexivity | exact Ha].
Qed.

(** X22 at the client of the tests. *)
Lemma create_auth_header_ascii_witness :
  exists payload,
    azure_devops_client._create_auth_header gateway_fixtures.client
    = Ok (py "Basic " ++ payload)
    /\ length payload = 28%nat.
Proof.
  destruct (create_auth_header_ascii gateway_fixtures.client)
    as [payload [Hh [Hl _]]].
  - unfold is_ascii. apply Forall_forall. intros c Hc.
    apply list_elem_of_In in Hc. vm_compute in Hc.
    repeat (destruct Hc as [<-|Hc]; [reflexivity|]). destruct Hc.
  - exists payload. split; [exact Hh|]. rewrite Hl. reflexivity.
Defined.

(** X23. Two clients whose tokens are of ASCII characters send the same
    header exactly when their tokens are equal. *)
Theorem create_auth_header_inj (self1 self2 : azure_devops_client.AzureDevOpsClient) :
  is_ascii (azure_devops_client.pat self1) ->
  is_ascii (azure_devops_client.pat self2) ->
  (azure_devops_client._create_auth_header self1
   = azure_devops_client._create_auth_header self2
   <-> azure_devops_client.pat self1 = azure_devops_client.pat self2).
Proof.
  intros H1 H2.
  rewrite !create_auth_header_of_ascii by assumption. split.
  - intros E.
    assert (H : py "Basic " ++ pycodec.b64encode (58 :: azure_devops_client.pat self1)
                = py "Basic " ++ pycodec.b64encode (58 :: azure_devops_client.pat self2))
      by congruence.
    clear E. apply app_inv_head in H.
    apply b64encode_inj in H.
    + injection H as H. exact H.
    + apply ascii_bytes. constructor; [reflexivity | exact H1].
    + apply ascii_bytes. constructor; [reflexivity | exact H2].
  - intros ->. reflexivity.
Qed.

(** X23 at the tokens [ab] and [abc]: the headers differ. *)
Lemma create_auth_header_inj_witness :
  azure_devops_client._create_auth_header
    (azure_devops_client.mkAzureDevOpsClient [] [] (py "ab") [] [] [])
  = azure_devops_client._create_auth_header
      (azure_devops_client.mkAzureDevOpsClient [] [] (py "abc") [] [] [])
  <-> py "ab" = py "abc".
Proof.
  apply (create_auth_header_inj
           (azure_devops_client.mkAzureDevOpsClient [] [] (py "ab") [] [] [])
           (azure_devops_client.mkAzureDevOpsClient [] [] (py "abc") [] [] []));
    unfold is_ascii; repeat constructor.
Defined.

(** X24. The client is built, with the arguments as they are, exactly when
    its token holds no surrogate code point; otherwise the encoding of the
    header raises [ValueError], and so does the constructor. *)
Theorem client_construction
  (organization project_name token field notes_name environment : str) :
  (Forall (fun c => ~ is_surrogate c) token ->
   azure_devops_client.AzureDevOpsClient_new organization project_name token field
     notes_name environment
   = Ok (azure_devops_client.mkAzureDevOpsClient organization project_name token field
           notes_name environment)
   /\ exists payload,
        azure_devops_client._create_auth_header
          (azure_devops_client.mkAzureDevOpsClient organization project_name token
             field notes_name environment)
        = Ok (py "Basic " ++ payload))
  /\ (Exists is_surrogate token ->
      azure_devops_client.AzureDevOpsClient_new organization project_name token field
        notes_name environment
      = Raise ValueError
      /\ azure_devops_client._create_auth_header
           (azure_devops_client.mkAzureDevOpsClient organization project_name token
              field notes_name environment)
         = Raise ValueError)
  /\ (Forall (fun c => ~ is_surrogate c) token \/ Exists is_surrogate token).
Proof.
  unfold azure_devops_client.AzureDevOpsClient_new,
    azure_devops_client._create_auth_header.
  cbn [azure_devops_client.pat].
  change (py ":" ++ token) with (58 :: token).
  cbn [pycodec.utf8_encode].
  change (pycodec.utf8_encode_char 58) with (Ok [58] : result (list N)).
  cbn [mbind result_bind].
  destruct (utf8_encode_outcome token) as [[Hs ->]|[Hs [bytes ->]]].
  - split; [|split; [|right; exact Hs]].
    + intros Hn. exfalso. apply Exists_exists in Hs as [c [Hc Hsur]].
      rewrite Forall_forall in Hn. exact (Hn c Hc Hsur).
    + intros _. split; reflexivity.
  - split; [|split; [|left; exact Hs]].
    + intros _. split; [reflexivity | eexists; reflexivity].
    + intros He. exfalso. apply Exists_exists in He as [c [Hc Hsur]].
      rewrite Forall_forall in Hs. exact (Hs c Hc Hsur).
Qed.

(** ** The run of [main] *)

Section main_run.

Import generate_release_notes.

Variable fromisoformat : str -> result datetime.
Variable urlopen_wiql : str -> str -> result (list Z).
Variable urlopen_work_items : str -> result (list WorkItem).
Variable read_error_body : result str.
Variable urlopen_releases : str -> result (list azure_devops_client.ReleaseData).
Variable urlopen_builds : str -> result (list azure_devops_client.BuildData).
Variable urlopen_updates : str -> result json.
Variable write_file : str -> str -> result unit.

(** The [try] block returns only by the [return] of line 144. *)
Lemma main_try_outcome (args : Namespace) (environ : gmap str str) :
  (main_try fromisoformat urlopen_wiql urlopen_work_items read_error_body
     urlopen_releases urlopen_builds urlopen_updates write_file args environ
   = Ok None
   /\ exists token cfg client,
        get_pat_token (pat args) environ = Ok token
        /\ config.AzureDevOpsConfig_new (organization args) (project args) token
             (release_field args) (prod_env args) (notes_field args)
           = Ok cfg
        /\ azure_devops_client.AzureDevOpsClient_new
             (config.organization_url cfg) (config.project cfg) (config.pat cfg)
             (config.release_field cfg) (config.notes_field cfg)
             (config.production_environment cfg)
           = Ok client
        /\ azure_devops_client.query_work_item_ids urlopen_wiql read_error_body
             client (release args)
           = Ok [])
  \/ ((exists e,
         main_try fromisoformat urlopen_wiql urlopen_work_items read_error_body
           urlopen_releases urlopen_builds urlopen_updates write_file args environ
         = Raise e)
      /\ ~ exists token cfg client,
             get_pat_token (pat args) environ = Ok token
             /\ config.AzureDevOpsConfig_new (organization args) (project args) token
                  (release_field args) (prod_env args) (notes_field args)
                = Ok cfg
             /\ azure_devops_client.AzureDevOpsClient_new
                  (config.organization_url cfg) (config.project cfg) (config.pat cfg)
                  (config.release_field cfg) (config.notes_field cfg)
                  (config.production_environment cfg)
                = Ok client
             /\ azure_devops_client.query_work_item_ids urlopen_wiql read_error_body
                  client (release args)
                = Ok []).
Proof.
  unfold main_try.
  destruct (get_pat_token (pat args) environ) as [token|e] eqn:Ht;
    cbn [mbind result_bind];
    [|right; split; [eexists; reflexivity
                    | intros (t & c & cl & H1 & _); congruence]].
  destruct (config.AzureDevOpsConfig_new _ _ _ _ _ _) as [cfg|e] eqn:Hc;
    cbn [mbind result_bind];
    [|right; split; [eexists; reflexivity
                    | intros (t & c & cl & H1 & H2 & _); congruence]].
  destruct (azure_devops_client.AzureDevOpsClient_new _ _ _ _ _ _) as [client|e] eqn:Hcl;
    cbn [mbind result_bind];
    [|right; split; [eexists; reflexivity
                    | intros (t & c & cl & H1 & H2 & H3 & _); congruence]].
  destruct (azure_devops_client.query_work_item_ids _ _ _ _) as [[|i ids]|e] eqn:Hq;
    cbn [mbind result_bind].
  - left. split; [reflexivity|]. exists token, cfg, client. auto.
  - right. split; [|intros (t & c & cl & H1 & H2 & H3 & H4); congruence].
    destruct (azure_devops_client.get_work_item_details _ _ _ _) as [work_items|e];
      cbn [mbind result_bind]; [|eexists; reflexivity].
    destruct (azure_devops_client.get_releases _ _ _ _) as [releases|e];
      cbn [mbind result_bind]; [|eexists; reflexivity].
    destruct (azure_devops_client.get_work_item_contributors _ _ _) as [contributors|e];
      cbn [mbind result_bind]; [|eexists; reflexivity].
    rewrite main_generate_raises. eexists. reflexivity.
  - right. split; [eexists; reflexivity|].
    intros (t & c & cl & H1 & H2 & H3 & H4). congruence.
Qed.

(** X25. No run of [main] writes the report. A run returns, having written
    nothing, exactly when the token, the configuration and the client are
    obtained and the query finds no work item; every other run leaves
    through [sys.exit(1)]: whenever the query finds a work item, the call
    that builds the generator raises before anything is written. *)
Theorem main_writes_no_report (args : Namespace) (environ : gmap str str) :
  (main fromisoformat urlopen_wiql urlopen_work_items read_error_body
     urlopen_releases urlopen_builds urlopen_updates write_file args environ
   = Returned None
   \/ main fromisoformat urlopen_wiql urlopen_work_items read_error_body
        urlopen_releases urlopen_builds urlopen_updates write_file args environ
      = SystemExit 1)
  /\ (main fromisoformat urlopen_wiql urlopen_work_items read_error_body
        urlopen_releases urlopen_builds urlopen_updates write_file args environ
      = Returned None
      <-> exists token cfg client,
            get_pat_token (pat args) environ = Ok token
            /\ config.AzureDevOpsConfig_new (organization args) (project args) token
                 (release_field args) (prod_env args) (notes_field args)
               = Ok cfg
            /\ azure_devops_client.AzureDevOpsClient_new
                 (config.organization_url cfg) (config.project cfg) (config.pat cfg)
                 (config.release_field cfg) (config.notes_field cfg)
                 (config.production_environment cfg)
               = Ok client
            /\ azure_devops_client.query_work_item_ids urlopen_wiql read_error_body
                 client (release args)
               = Ok []).
Proof.
  unfold main.
  destruct (main_try_outcome args environ) as [[-> Hex]|[[e ->] Hnex]].
  - split; [left; reflexivity|]. split; [intros _; exact Hex | reflexivity].
  - assert (Hexit : match e with
                    | ValueError | RuntimeError => SystemExit 1
                    | _ => SystemExit 1
                    end = SystemExit 1) by (destruct e; reflexivity).
    rewrite Hexit. split; [right; reflexivity|].
    split; [discriminate | intros H; contradiction].
Qed.

End main_run.

(** A run whose query finds the work item 1, every other endpoint being
    down: it leaves with the status 1. *)
Example main_with_one_work_item :
  generate_release_notes.main isoformat.fromisoformat
    (fun url query => Ok [1%Z]) (fun url => Ok sample_work_items)
    (Ok (py "Unauthorized")) gateway_fixtures.unavailable gateway_fixtures.unavailable
    gateway_fixtures.unavailable (fun file text => Ok tt)
    (generate_release_notes.mkNamespace (py "2025.006")
       (py "https://dev.azure.com/testorg/") (py "TestProject") (Some (py "token"))
       (py "Custom.Release") (py "PROD") (py "System.Description") None (py "id"))
    ∅
  = generate_release_notes.SystemExit 1.
Proof. vm_compute. reflexivity. Qed.
